(** * Inventory reconciliation and checkout engine

    A shallow embedding of the two inventory views of the repository,
    [confirm_checkout] (inventory_confirm_checkout.py) and [add_inventory]
    (inventory_upload.py), followed by the properties of the quantity
    ledger, the unit state machine and the upload diff.

    The relational store is a record of tables; a table is the list of its
    rows in primary-key order, which is the order an unordered queryset is
    read in ([.first()] takes the head of the matching rows).  ORM calls
    that can raise ([get], [get_or_create], arithmetic on a NULL column)
    return in an error monad.

    The models module is not among the sources.  The columns are the ones
    the two views name; [project_id], [room_id], [item_id] and [item_u_id]
    are taken to be the primary keys the foreign keys point at.  Helpers
    defined elsewhere ([update_item_quantities], [create_log], the label
    generator) are parameters of the views; [create_item_log] is modelled
    from the specification.  The copy of the upload written to disk, the
    rendering of the mail template and the PDF of the labels leave no trace
    in the state the views work on and are left out. *)

From Stdlib Require Import ZArith List String Ascii Bool Lia.
Import ListNotations.
Open Scope string_scope.
Open Scope list_scope.
Open Scope Z_scope.

Set Implicit Arguments.

(** ** Exceptions and the error monad *)

(** The Python exceptions the views can leave with.  [TapeExhausted] is not
    one of them: it marks a run that asks for more random draws than the
    finite tape given to the model holds. *)
Inductive exn : Type :=
| DoesNotExist
| MultipleObjectsReturned
| TypeError
| AttributeError
| SendError
| TapeExhausted.

Inductive result (A : Type) : Type :=
| Ok (a : A)
| Raise (e : exn).

Arguments Ok {A} a.
Arguments Raise {A} e.

Definition bind {A B : Type} (c : result A) (k : A -> result B) : result B :=
  match c with
  | Ok a => k a
  | Raise e => Raise e
  end.

Notation "x <- c ;; k" := (bind c (fun x => k))
  (at level 61, c at next level, right associativity).

(** ** Tables and the queryset operations used by the views *)

Section Table.
Context {A : Type}.
Variable pk : A -> Z.

(** [Model.objects.get(...)]: exactly one matching row, or an exception. *)
Definition objects_get (f : A -> bool) (t : list A) : result A :=
  match filter f t with
  | [] => Raise DoesNotExist
  | [x] => Ok x
  | _ :: _ :: _ => Raise MultipleObjectsReturned
  end.

(** [Model.objects.filter(...).first()]. *)
Definition objects_first (f : A -> bool) (t : list A) : option A :=
  find f t.

(** The key an auto-increment column gives to the next inserted row. *)
Definition next_pk (t : list A) : Z :=
  1 + fold_right Z.max 0 (map pk t).

(** [Model.objects.get_or_create(...)]: the row, the [created] flag and
    the table after the call; [fresh] builds the row from its new key. *)
Definition objects_get_or_create (f : A -> bool) (fresh : Z -> A)
           (t : list A) : result (A * bool * list A) :=
  match filter f t with
  | [] => let x := fresh (next_pk t) in Ok (x, true, t ++ [x])
  | [x] => Ok (x, false, t)
  | _ :: _ :: _ => Raise MultipleObjectsReturned
  end.

(** [obj.save()] on a row read from the table: UPDATE ... WHERE pk. *)
Definition objects_save (x : A) (t : list A) : list A :=
  map (fun y => if pk y =? pk x then x else y) t.

(** [obj.delete()]: DELETE ... WHERE pk. *)
Definition objects_delete (x : A) (t : list A) : list A :=
  filter (fun y => negb (pk y =? pk x)) t.

(** [Model.objects.filter(...).delete()]. *)
Definition filter_delete (f : A -> bool) (t : list A) : list A :=
  filter (fun y => negb (f y)) t.
End Table.

(** ** The data model (the columns the two views read or write) *)

Record Project : Type := mkProject {
  project_id : Z;
  project_name : string;
  completed_date : option string
}.

Record Room : Type := mkRoom {
  room_id : Z;
  room_project_id : Z;
  room_name : string;
  details : string
}.

Record ItemRoom : Type := mkItemRoom {
  ir_id : Z;
  ir_item_id : Z;
  ir_room_id : Z;
  item_quantity : Z;
  item_quantity_holder : Z;
  all_reserved : Z
}.

Record ItemProject : Type := mkItemProject {
  ip_id : Z;
  ip_item_id : Z;
  ip_project_id : Z;
  ip_reserved_quantity : Z;
  checked_out_quantity : Z;
  checked_out_quantity_holder : Z
}.

(** A unit; [stage] is the one-letter tag the code compares against
    ("a", "r", "m", "c"), [iu_project_id] is nullable. *)
Record ItemsU : Type := mkItemsU {
  item_u_id : Z;
  iu_item_id : Z;
  stage : string;
  iu_project_id : option Z
}.

(** A catalogue row.  The two money columns hold the value the code
    compares, [round(float(x), 2)], counted in hundredths; the text and
    quantity columns are nullable. *)
Record Items : Type := mkItems {
  item_id : Z;
  sku_num : string;
  studio_id : string;
  description : option string;
  vendor : option string;
  dimensions : option string;
  sales_code : option string;
  location : option string;
  item_code_1 : option string;
  item_code_2 : option string;
  category : option string;
  sale_price : Z;
  unit_cost : Z;
  available_quantity : option Z;
  reserved_quantity : option Z;
  total_quantity : option Z;
  previous_total_quantity : option Z
}.

Record User : Type := mkUser {
  user_id : Z;
  email : string;
  is_superuser : bool
}.

Record UserProject : Type := mkUserProject {
  up_user_id : Z;
  up_project_id : Z
}.

Record ItemLog : Type := mkItemLog {
  log_action : string;
  log_item_u_id : Z;
  log_project_id : Z
}.

Record DB : Type := mkDB {
  projects : list Project;
  rooms : list Room;
  item_rooms : list ItemRoom;
  item_projects : list ItemProject;
  items_u : list ItemsU;
  items : list Items;
  users : list User;
  user_projects : list UserProject;
  item_logs : list ItemLog
}.

Definition set_rooms (v : list Room) (d : DB) : DB :=
  mkDB (projects d) v (item_rooms d) (item_projects d) (items_u d) (items d)
       (users d) (user_projects d) (item_logs d).

Definition set_item_rooms (v : list ItemRoom) (d : DB) : DB :=
  mkDB (projects d) (rooms d) v (item_projects d) (items_u d) (items d)
       (users d) (user_projects d) (item_logs d).

Definition set_item_projects (v : list ItemProject) (d : DB) : DB :=
  mkDB (projects d) (rooms d) (item_rooms d) v (items_u d) (items d)
       (users d) (user_projects d) (item_logs d).

Definition set_items_u (v : list ItemsU) (d : DB) : DB :=
  mkDB (projects d) (rooms d) (item_rooms d) (item_projects d) v (items d)
       (users d) (user_projects d) (item_logs d).

Definition set_items (v : list Items) (d : DB) : DB :=
  mkDB (projects d) (rooms d) (item_rooms d) (item_projects d) (items_u d) v
       (users d) (user_projects d) (item_logs d).

Definition set_item_logs (v : list ItemLog) (d : DB) : DB :=
  mkDB (projects d) (rooms d) (item_rooms d) (item_projects d) (items_u d)
       (items d) (users d) (user_projects d) v.

(** The JSON body every view answers with. *)
Record JsonResponse : Type := mkJson {
  success : bool;
  message : option string;
  changes : option bool;
  pdf_path : option (option string)
}.

(** ** Session and request state *)

(** The payload staged for a brand-new item (inventory_upload.py, 252-273). *)
Record NewItem : Type := mkNewItem {
  ni_description : string;
  ni_studio_id : string;
  ni_sale_price : Z;
  ni_unit_cost : Z;
  ni_vendor : string;
  ni_dimensions : string;
  ni_sales_code : string;
  ni_location : string;
  ni_item_code_1 : string;
  ni_item_code_2 : string;
  ni_category : string;
  ni_available_quantity : Z;
  ni_available_quantity_holder : Z;
  ni_total_quantity : Z;
  ni_total_quantity_holder : Z;
  ni_previous_total_quantity : Z;
  ni_previous_total_quantity_holder : Z;
  ni_image : option string
}.

Inductive FieldValue : Type :=
| VText (s : string)
| VMoney (hundredths : Z).

(** The session dictionary, one optional entry per key the views use. *)
Record Session : Type := mkSession {
  checkout_session_item_us : option (list Z);
  checkout_session_items : option (list Z);
  new_items : option (list (string * NewItem));
  items_to_change : option (list (string * list (string * FieldValue)));
  items_to_delete : option (list string);
  items_to_subtract : option (list (string * Z))
}.

Definition del_checkout_session_item_us (s : Session) : Session :=
  mkSession None (checkout_session_items s) (new_items s) (items_to_change s)
            (items_to_delete s) (items_to_subtract s).

Definition del_checkout_session_items (s : Session) : Session :=
  mkSession (checkout_session_item_us s) None (new_items s) (items_to_change s)
            (items_to_delete s) (items_to_subtract s).

(** One alert e-mail: the recipients and the template context. *)
Record EmailMessage : Type := mkEmail {
  subject : string;
  from_email : string;
  to : list string;
  new_project_name : string;
  stolen_project_name : string;
  item_name : string;
  sku : string;
  adjusted_by : string;
  adjusted_quantity : Z
}.

(** What the view reads off the request: the JSON body's [project_id] and
    [request.user.get_full_name()]. *)
Record Request : Type := mkRequest {
  body_project_id : Z;
  user_full_name : string
}.

Record World : Type := mkWorld {
  db : DB;
  session : Session;
  outbox : list EmailMessage
}.

(** ** confirm_checkout *)

(** One entry of [stolen_projects]: the losing project and, per sku, how
    many reservations were taken from it. *)
Record StolenItem : Type := mkStolenItem {
  si_sku_num : string;
  si_quantity : Z
}.

Record StolenProject : Type := mkStolenProject {
  sp_project_id : Z;
  sp_items : list StolenItem
}.

(** The loop variables of the batch. *)
Record Loop : Type := mkLoop {
  l_db : DB;
  stolen_projects : list StolenProject;
  item_id_list : list Z
}.

(** A loop iteration either falls through to the next one or leaves the
    view with a response. *)
Inductive step : Type :=
| Continue (l : Loop)
| Return (r : JsonResponse) (d : DB).

(** [room__project_id = p] on an ItemRoom queryset: the join with Room. *)
Definition room_of (rs : list Room) (rid : Z) : option Room :=
  find (fun r => room_id r =? rid) rs.

Definition in_project (rs : list Room) (p : Z) (ir : ItemRoom) : bool :=
  match room_of rs (ir_room_id ir) with
  | Some r => room_project_id r =? p
  | None => false
  end.

(** [ItemRoom.objects.filter(item=item, room__project=project)]. *)
Definition item_rooms_of (d : DB) (item p : Z) : list ItemRoom :=
  filter (fun ir => (ir_item_id ir =? item) && in_project (rooms d) p ir)
         (item_rooms d).

(** [sum(ir.item_quantity for ir in ...)]. *)
Definition sum_quantity (l : list ItemRoom) : Z :=
  fold_right Z.add 0 (map item_quantity l).

Definition is_unassigned (p : Z) (r : Room) : bool :=
  (room_project_id r =? p) && (room_name r =? "Unassigned")%string.

(** Lines 33-55 (and again 136-157): get or create the project's
    "Unassigned" room, then create or bump the ItemRoom row in it. *)
Definition place_in_unassigned (p : Z) (item : Items) (d : DB) : result DB :=
  rc <- objects_get_or_create room_id (is_unassigned p)
          (fun k => mkRoom k p "Unassigned" "Auto-created unassigned room")
          (rooms d) ;;
  let '(unassigned_room, _, rs) := rc in
  let rs := objects_save room_id unassigned_room rs in
  ic <- objects_get_or_create ir_id
          (fun ir => (ir_item_id ir =? item_id item)
                     && (ir_room_id ir =? room_id unassigned_room))
          (fun k => mkItemRoom k (item_id item) (room_id unassigned_room) 0 0 0)
          (item_rooms d) ;;
  let '(item_room, created, irs) := ic in
  let item_room :=
    if negb created
    then mkItemRoom (ir_id item_room) (ir_item_id item_room)
           (ir_room_id item_room) (item_quantity item_room + 1)
           (item_quantity_holder item_room + 1) (all_reserved item_room + 1)
    else mkItemRoom (ir_id item_room) (ir_item_id item_room)
           (ir_room_id item_room) 1 1 1 in
  Ok (set_item_rooms (objects_save ir_id item_room irs) (set_rooms rs d)).

Section Checkout.
(** Column defaults of a new ItemProject row (declared with the models). *)
Variable default_checked_out_quantity : Z.
Variable default_checked_out_quantity_holder : Z.
(** Whether the audit-log sink fails for a unit. *)
Variable log_fails : ItemsU -> bool.
(** Whether the mail transport fails for a message. *)
Variable send_fails : EmailMessage -> bool.
(** [config("EMAIL_HOST_USER")]. *)
Variable EMAIL_HOST_USER : string.
(** The helper that refreshes an item's aggregate quantities at the end of
    the batch (defined outside the two views). *)
Variable update_item_quantities : Z -> Z -> DB -> result DB.

(** Lines 58-63 and 87-97: get or create the ItemProject row and set its
    [reserved_quantity] to the sum over the project's ItemRoom rows. *)
Definition sync_item_project (item p : Z) (d : DB) : result DB :=
  c <- objects_get_or_create ip_id
         (fun ip => (ip_item_id ip =? item) && (ip_project_id ip =? p))
         (fun k => mkItemProject k item p 0 default_checked_out_quantity
                                 default_checked_out_quantity_holder)
         (item_projects d) ;;
  let '(ip, _, ips) := c in
  let ip := mkItemProject (ip_id ip) (ip_item_id ip) (ip_project_id ip)
              (sum_quantity (item_rooms_of d item p))
              (checked_out_quantity ip) (checked_out_quantity_holder ip) in
  Ok (set_item_projects (objects_save ip_id ip ips) d).

(** Lines 70-97: back out the counts of the project the unit was
    reserved on.  The row is looked up by [item_u.item_id], which is
    [item.item_id]: the item was read by that key. *)
Definition back_out_previous (item : Items) (q : Z) (d : DB) : result DB :=
  match objects_first
          (fun ir => (ir_item_id ir =? item_id item)
                     && in_project (rooms d) q ir)
          (item_rooms d) with
  | Some previous_item_room =>
      let previous_item_room :=
        mkItemRoom (ir_id previous_item_room) (ir_item_id previous_item_room)
          (ir_room_id previous_item_room)
          (item_quantity previous_item_room - 1)
          (item_quantity_holder previous_item_room - 1)
          (all_reserved previous_item_room - 1) in
      let d :=
        if item_quantity previous_item_room <? 1
        then set_item_rooms
               (objects_delete ir_id previous_item_room (item_rooms d)) d
        else set_item_rooms
               (objects_save ir_id previous_item_room (item_rooms d)) d in
      room <- objects_get
                (fun r => room_id r =? ir_room_id previous_item_room)
                (rooms d) ;;
      prev_project <- objects_get
                        (fun p => project_id p =? room_project_id room)
                        (projects d) ;;
      sync_item_project (item_id item) (project_id prev_project) d
  | None => Ok d
  end.

(** Lines 108-117: bump the sku's entry, or append a new one. *)
Fixpoint track_item (sku_num : string) (its : list StolenItem)
  : list StolenItem :=
  match its with
  | [] => [mkStolenItem sku_num 1]
  | item_dict :: rest =>
      if (si_sku_num item_dict =? sku_num)%string
      then mkStolenItem (si_sku_num item_dict) (si_quantity item_dict + 1)
           :: rest
      else item_dict :: track_item sku_num rest
  end.

(** Lines 102-125: find the losing project's entry, or append a new one. *)
Fixpoint track_stolen (q : Z) (sku_num : string) (sps : list StolenProject)
  : list StolenProject :=
  match sps with
  | [] => [mkStolenProject q [mkStolenItem sku_num 1]]
  | project_info :: rest =>
      if sp_project_id project_info =? q
      then mkStolenProject (sp_project_id project_info)
             (track_item sku_num (sp_items project_info)) :: rest
      else project_info :: track_stolen q sku_num rest
  end.

(** Modelled from the spec: [create_item_log] is defined outside the two
    views; it records an audit entry (action code, unit, project) and may
    fail. *)
Definition create_item_log (action : string) (item_u : ItemsU)
           (project : Project) (d : DB) : result DB :=
  if log_fails item_u then Raise TypeError
  else Ok (set_item_logs
             (item_logs d
              ++ [mkItemLog action (item_u_id item_u) (project_id project)])
             d).

(** Lines 167-178: best-effort log, then mark the unit checked out. *)
Definition log_and_mark (p : Z) (item_u : ItemsU) (d : DB) : DB :=
  let d :=
    match (project <- objects_get (fun x => project_id x =? p) (projects d) ;;
           create_item_log "c" item_u project d) with
    | Ok d' => d'
    | Raise _ => d
    end in
  set_items_u
    (objects_save item_u_id
       (mkItemsU (item_u_id item_u) (iu_item_id item_u) "c" (Some p))
       (items_u d)) d.

(** [item_u.stage == "r" and int(item_u.project_id) != int(project_id)];
    [int(None)] raises. *)
Definition reserved_elsewhere (p : Z) (item_u : ItemsU) : result bool :=
  if (stage item_u =? "r")%string
  then match iu_project_id item_u with
       | Some q => Ok (negb (q =? p))
       | None => Raise TypeError
       end
  else Ok false.

(** Lines 130-134: promote another available unit of the item. *)
Definition promote_available (item_u : ItemsU) (d : DB) : DB :=
  match objects_first
          (fun u => (iu_item_id u =? iu_item_id item_u)
                    && (stage u =? "a")%string)
          (items_u d) with
  | Some new_item =>
      set_items_u
        (objects_save item_u_id
           (mkItemsU (item_u_id new_item) (iu_item_id new_item) "m" None)
           (items_u d)) d
  | None => d
  end.

Definition failure_response : JsonResponse :=
  mkJson false (Some "There was an issue confirming this checkout session.")
         None None.

(** The body of the loop over the staged unit ids (lines 23-178). *)
Definition process_unit (p : Z) (l : Loop) (uid : Z) : result step :=
  let d := l_db l in
  item_u <- objects_get (fun u => item_u_id u =? uid) (items_u d) ;;
  let ids := item_id_list l ++ [iu_item_id item_u] in
  item <- objects_get (fun i => item_id i =? iu_item_id item_u) (items d) ;;
  elsewhere <- (if (stage item_u =? "a")%string then Ok false
                else reserved_elsewhere p item_u) ;;
  if (stage item_u =? "a")%string || elsewhere then
    d <- place_in_unassigned p item d ;;
    d <- sync_item_project (item_id item) p d ;;
    let d := set_item_rooms
               (filter_delete (fun ir => item_quantity ir <? 1)
                              (item_rooms d)) d in
    steal <- reserved_elsewhere p item_u ;;
    if steal then
      match iu_project_id item_u with
      | Some q =>
          d <- back_out_previous item q d ;;
          let d := set_items (objects_save item_id item (items d)) d in
          Ok (Continue
                (mkLoop (log_and_mark p item_u d)
                        (track_stolen q (sku_num item) (stolen_projects l))
                        ids))
      | None => Raise TypeError
      end
    else Ok (Continue (mkLoop (log_and_mark p item_u d)
                              (stolen_projects l) ids))
  else if (stage item_u =? "m")%string then
    let d := promote_available item_u d in
    d <- place_in_unassigned p item d ;;
    Ok (Continue (mkLoop (log_and_mark p item_u d) (stolen_projects l) ids))
  else if negb (stage item_u =? "r")%string then
    Ok (Return failure_response d)
  else
    Ok (Continue (mkLoop (log_and_mark p item_u d) (stolen_projects l) ids)).

(** [for item_u_id in checkout_session_item_us]. *)
Fixpoint run_units (p : Z) (l : Loop) (uids : list Z) : result step :=
  match uids with
  | [] => Ok (Continue l)
  | uid :: rest =>
      r <- process_unit p l uid ;;
      match r with
      | Continue l' => run_units p l' rest
      | Return resp d => Ok (Return resp d)
      end
  end.

(** Lines 182-190: the address list of one alert. *)
Definition recipient_emails (q : Z) (d : DB) : list string :=
  let member_ids :=
    map up_user_id
        (filter (fun up => up_project_id up =? q) (user_projects d)) in
  let user_emails :=
    map email
        (filter (fun u => existsb (Z.eqb (user_id u)) member_ids) (users d)) in
  let superuser_emails := map email (filter is_superuser (users d)) in
  nodup string_dec (user_emails ++ superuser_emails).

(** Lines 194-216: one message per entry of [project["items"]]. *)
Fixpoint send_items (request : Request) (new_project stolen_project : Project)
         (recipients : list string) (d : DB) (its : list StolenItem)
         (out : list EmailMessage) : result (list EmailMessage) :=
  match its with
  | [] => Ok out
  | item_dict :: rest =>
      item <- objects_get
                (fun i => (sku_num i =? si_sku_num item_dict)%string)
                (items d) ;;
      let msg :=
        mkEmail "Alert: Item Reservation Adjusted" EMAIL_HOST_USER recipients
                (project_name new_project) (project_name stolen_project)
                (studio_id item) (sku_num item) (user_full_name request)
                (si_quantity item_dict) in
      if send_fails msg then Raise SendError
      else send_items request new_project stolen_project recipients d rest
                      (out ++ [msg])
  end.

(** Lines 181-216: the loop over [stolen_projects]. *)
Fixpoint send_alerts (request : Request) (new_project : Project) (d : DB)
         (sps : list StolenProject) (out : list EmailMessage)
  : result (list EmailMessage) :=
  match sps with
  | [] => Ok out
  | project :: rest =>
      let recipients := recipient_emails (sp_project_id project) d in
      stolen_project <- objects_get
                          (fun x => project_id x =? sp_project_id project)
                          (projects d) ;;
      out <- send_items request new_project stolen_project recipients d
                        (sp_items project) out ;;
      send_alerts request new_project d rest out
  end.

(** Lines 219-220. *)
Fixpoint recalc_items (p : Z) (ids : list Z) (d : DB) : result DB :=
  match ids with
  | [] => Ok d
  | i :: rest => d <- update_item_quantities i p d ;; recalc_items p rest d
  end.

(** Lines 229-230: the end-of-request sweep. *)
Definition prune_zero_reservations (d : DB) : DB :=
  set_item_rooms (filter_delete (fun ir => all_reserved ir <? 1)
                                (item_rooms d)) d.

(** The view.  An exception aborts it; otherwise it answers with a
    response and leaves the store, the session and the sent mail. *)
Definition confirm_checkout (request : Request) (w : World)
  : result (JsonResponse * World) :=
  let p := body_project_id request in
  new_project <- objects_get (fun x => project_id x =? p)
                             (projects (db w)) ;;
  r <- match checkout_session_item_us (session w) with
       | Some uids =>
           s <- run_units p (mkLoop (db w) [] []) uids ;;
           match s with
           | Return resp d =>
               Ok (inl (resp, mkWorld d (session w) (outbox w)))
           | Continue l =>
               out <- send_alerts request new_project (l_db l)
                                  (stolen_projects l) (outbox w) ;;
               d <- recalc_items p (item_id_list l) (l_db l) ;;
               Ok (inr (mkWorld d (del_checkout_session_item_us (session w))
                                out))
           end
       | None => Ok (inr w)
       end ;;
  match r with
  | inl early => Ok early
  | inr w =>
      let s := match checkout_session_items (session w) with
               | Some _ => del_checkout_session_items (session w)
               | None => session w
               end in
      Ok (mkJson true None None None,
          mkWorld (prune_zero_reservations (db w)) s (outbox w))
  end.
End Checkout.

(** ** add_inventory *)

(** *** Strings *)

(** Text is held as its UTF-8 bytes.  [str.strip] and [str.lower] are
    methods of the Python runtime: what the first removes and the second
    folds is fixed by the Unicode tables of the interpreter, not by the
    views.  The views are read against any pair of such methods; nothing
    is assumed of them. *)
Class StrMethods : Type := {
  strip : string -> string;
  lower : string -> string
}.

(** One pair of methods, used to run the views on the sample sheets:
    [str.strip] in full, [str.lower] on text of the Basic Latin and
    Latin-1 Supplement blocks. *)

Definition is_continuation (c : ascii) : bool :=
  let n := nat_of_ascii c in (128 <=? n)%nat && (n <? 192)%nat.

(** The continuation bytes a text starts with, and the characters after
    them, each a lead byte with its continuation bytes. *)
Fixpoint split_chars (s : string) : string * list string :=
  match s with
  | EmptyString => (EmptyString, [])
  | String c r =>
      let '(pending, chars) := split_chars r in
      if is_continuation c then (String c pending, chars)
      else (EmptyString, String c pending :: chars)
  end.

Definition utf8_chars (s : string) : list string :=
  let '(pending, chars) := split_chars s in
  match pending with
  | EmptyString => chars
  | _ => pending :: chars
  end.

Definition byte (n : N) : ascii := ascii_of_N n.

(** The UTF-8 bytes of a code point below U+10000. *)
Definition utf8 (n : N) : string :=
  (if n <? 128 then String (byte n) EmptyString
   else if n <? 2048
   then String (byte (192 + n / 64))
          (String (byte (128 + n mod 64)) EmptyString)
   else String (byte (224 + n / 4096))
          (String (byte (128 + (n / 64) mod 64))
             (String (byte (128 + n mod 64)) EmptyString)))%N.

(** The code points [str.isspace] holds of: U+0009 to U+000D, U+001C to
    U+0020, U+0085, U+00A0, U+1680, U+2000 to U+200A, U+2028, U+2029,
    U+202F, U+205F and U+3000. *)
Definition white_space : list N :=
  [9; 10; 11; 12; 13; 28; 29; 30; 31; 32; 133; 160; 5760;
   8192; 8193; 8194; 8195; 8196; 8197; 8198; 8199; 8200; 8201; 8202;
   8232; 8233; 8239; 8287; 12288]%N.

Definition is_space (ch : string) : bool :=
  existsb (String.eqb ch) (map utf8 white_space).

Fixpoint lstrip (chars : list string) : list string :=
  match chars with
  | [] => []
  | ch :: rest => if is_space ch then lstrip rest else chars
  end.

Definition strip_utf8 (s : string) : string :=
  String.concat EmptyString (rev (lstrip (rev (lstrip (utf8_chars s))))).

(** A to Z, and U+00C0 to U+00DE less the multiplication sign U+00D7. *)
Definition lower_char (ch : string) : string :=
  match ch with
  | String c EmptyString =>
      let n := N_of_ascii c in
      if ((65 <=? n) && (n <=? 90))%N then String (byte (n + 32)) EmptyString
      else ch
  | String c1 (String c2 EmptyString) =>
      let n := N_of_ascii c2 in
      if ((N_of_ascii c1 =? 195) && (128 <=? n) && (n <=? 158)
          && negb (n =? 151))%N
      then String c1 (String (byte (n + 32)) EmptyString)
      else ch
  | _ => ch
  end.

Definition lower_latin1 (s : string) : string :=
  String.concat EmptyString (map lower_char (utf8_chars s)).

Definition latin_text : StrMethods :=
  {| strip := strip_utf8; lower := lower_latin1 |}.

Section Text.
Context {ops : StrMethods}.

(** [str.replace] of the double-quote character by the empty string. *)
Fixpoint drop_quotes (s : string) : string :=
  match s with
  | EmptyString => EmptyString
  | String c r =>
      if (nat_of_ascii c =? 34)%nat then drop_quotes r
      else String c (drop_quotes r)
  end.

(** [sep.join(l)]. *)
Fixpoint join (sep : string) (l : list string) : string :=
  match l with
  | [] => EmptyString
  | [x] => x
  | x :: rest => String.append x (String.append sep (join sep rest))
  end.

(** [norm]: None becomes the empty string, then strip. *)
Definition norm (val : option string) : string :=
  match val with
  | Some s => strip s
  | None => strip EmptyString
  end.

(** *** Series helpers *)

Definition opt_string_eqb (a b : option string) : bool :=
  match a, b with
  | Some x, Some y => (x =? y)%string
  | None, None => true
  | _, _ => false
  end.

(** [Series.unique()]: first occurrences, in order. *)
Fixpoint unique_by {A : Type} (eqb : A -> A -> bool) (seen l : list A)
  : list A :=
  match l with
  | [] => []
  | x :: rest =>
      if existsb (eqb x) seen then unique_by eqb seen rest
      else x :: unique_by eqb (x :: seen) rest
  end.

Definition unique_strings (l : list string) : list string :=
  unique_by String.eqb [] l.

(** *** Dictionaries in insertion order *)

Fixpoint dict_get {V : Type} (k : string) (d : list (string * V)) : option V :=
  match d with
  | [] => None
  | (k', v) :: rest => if (k' =? k)%string then Some v else dict_get k rest
  end.

Fixpoint dict_set {V : Type} (k : string) (v : V) (d : list (string * V))
  : list (string * V) :=
  match d with
  | [] => [(k, v)]
  | (k', v') :: rest =>
      if (k' =? k)%string then (k', v) :: rest
      else (k', v') :: dict_set k v rest
  end.

(** *** The uploaded report *)

(** A sheet row as the data frame holds it.  "Inventory Id" is a text cell
    or missing (NaN); the other text cells are read after [fillna] with
    the empty string;
    the two prices are the rounded values in hundredths and "Quantity
    Available" is [int(float(cell))]. *)
Record Row : Type := mkRow {
  inventory_id : option string;
  quantity_ordered : Z;
  quantity_available : Z;
  row_description : string;
  selling_price : Z;
  total_cost : Z;
  row_vendor : string;
  row_dimensions : string;
  row_sales_code : string;
  row_location : string;
  row_item_code_1 : string;
  row_item_code_2 : string;
  sub_category : string
}.

Record Workbook : Type := mkWorkbook {
  sheet_rows : list Row;
  image_data_map : list (Z * string)
}.

Record UploadRequest : Type := mkUploadRequest {
  method : string;
  inventory_file : option Workbook;
  (** manual_quantity_changes.csv exists and is not empty *)
  manual_changes_pending : bool;
  (** the successive results of [random.randint], as text *)
  random_tape : list string
}.

(** The Inventory Id cell after [fillna]. *)
Definition id_text (r : Row) : string :=
  match inventory_id r with
  | Some s => s
  | None => EmptyString
  end.

(** [df["Inventory Id"].str] (line 83): the accessor is refused on a column
    without text, which is what a non-empty column of empty cells is read
    as; an empty column passes. *)
Definition str_accessor (rows : list Row) : result unit :=
  match rows with
  | [] => Ok tt
  | _ :: _ =>
      if forallb (fun r => match inventory_id r with
                           | Some _ => false
                           | None => true
                           end) rows
      then Raise AttributeError
      else Ok tt
  end.

(** Lines 83-84: one cell of [normalized] (an empty cell stays empty), and
    [duplicated(keep=False)]. *)
Definition normalized (r : Row) : option string :=
  match inventory_id r with
  | Some s => Some (strip (lower s))
  | None => None
  end.

Definition occurrences (x : option string) (l : list (option string)) : nat :=
  List.length (filter (opt_string_eqb x) l).

Definition dupes (rows : list Row) : list Row :=
  filter (fun r => (2 <=? occurrences (normalized r) (map normalized rows))%nat)
         rows.

(** [', '.join(dupes['Inventory Id'].unique())]; a NaN among them makes
    [join] raise. *)
Definition duplicate_ids (ds : list Row) : result string :=
  let ids := unique_by opt_string_eqb [] (map inventory_id ds) in
  if forallb (fun i => match i with Some _ => true | None => false end) ids
  then Ok (join ", " (map (fun i => match i with
                                    | Some s => s
                                    | None => EmptyString
                                    end) ids))
  else Raise TypeError.

Definition duplicates_response (ids : string) : JsonResponse :=
  mkJson false
    (Some (String.append "Duplicate Inventory Ids found: "
             (String.append ids
                ". Please review Studio report and resolve duplicates before proceeding.")))
    None None.

(** Line 96 then line 100: number the rows, keep those ordered. *)
Fixpoint with_excel_row (i : Z) (rows : list Row) : list (Z * Row) :=
  match rows with
  | [] => []
  | r :: rest => (i + 2, r) :: with_excel_row (i + 1) rest
  end.

Definition ordered_rows (rows : list Row) : list (Z * Row) :=
  filter (fun ir => quantity_ordered (snd ir) >? 0) (with_excel_row 0 rows).

(** *** The quantity rollup of lines 14-17 *)

Definition add_nullable (a b : option Z) : option Z :=
  match a, b with
  | Some x, Some y => Some (x + y)
  | _, _ => None
  end.

Definition set_quantities (i : Items) (a r t p : option Z) : Items :=
  mkItems (item_id i) (sku_num i) (studio_id i) (description i) (vendor i)
          (dimensions i) (sales_code i) (location i) (item_code_1 i)
          (item_code_2 i) (category i) (sale_price i) (unit_cost i) a r t p.

Definition rollup_total (i : Items) : Items :=
  set_quantities i (available_quantity i) (reserved_quantity i)
    (add_nullable (available_quantity i) (reserved_quantity i))
    (previous_total_quantity i).

Definition raise_previous_total (i : Items) : Items :=
  match previous_total_quantity i, total_quantity i with
  | Some p, Some t =>
      if p <? t
      then set_quantities i (available_quantity i) (reserved_quantity i)
             (total_quantity i) (total_quantity i)
      else i
  | _, _ => i
  end.

Definition refresh_rollups (d : DB) : DB :=
  set_items (map raise_previous_total (map rollup_total (items d))) d.

(** *** The blocking query of lines 28-36 *)

Definition blocking_projects (d : DB) : list Project :=
  filter
    (fun p =>
       match completed_date p with
       | Some _ =>
           existsb (fun ip => (ip_project_id ip =? project_id p)
                              && (checked_out_quantity ip >? 0))
                   (item_projects d)
           && negb (existsb (fun ip => (ip_project_id ip =? project_id p)
                                       && (checked_out_quantity_holder ip
                                           =? 99999))
                            (item_projects d))
       | None => false
       end)
    (projects d).

Definition invalid_request : JsonResponse :=
  mkJson false (Some "Invalid Request") None None.

Definition studio_behind : JsonResponse :=
  mkJson false
    (Some "Please update Studio with necessary changes before uploading a new report.")
    None None.

Definition manual_changes_waiting : JsonResponse :=
  mkJson false
    (Some "Please finish updating items to Studio before uploading a new report.")
    None None.

Definition irreconcilable (studio_id : string) : JsonResponse :=
  mkJson false
    (Some (String.append studio_id
             " is not found in Studio upload, and at least one of this item is currently reserved to a project. This issue is irreconcilable."))
    None None.

Section Upload.
(** The label generator (defined outside the two views): the images for
    [count] labels of a description, sku and location. *)
Variable qr_code_generator : string -> string -> string -> Z -> list string.
(** [os.path.join(settings.MEDIA_URL, "qr_stickers.pdf")]. *)
Variable qr_pdf_path : string.
(** The activity log helper (defined outside the two views). *)
Variable create_log : string -> DB -> result DB.

(** Lines 115-132, inner loop: the items of one studio id that the
    upload does not list. *)
Fixpoint unmatched_items (d : DB) (sid : string) (its : list Items)
         (to_delete : list string) : result (JsonResponse + list string) :=
  match its with
  | [] => Ok (inr to_delete)
  | item :: rest =>
      match add_nullable (available_quantity item) (reserved_quantity item)
      with
      | None => Raise TypeError
      | Some total =>
          if total >? 0 then
            match objects_first
                    (fun u => (iu_item_id u =? item_id item)
                              && (stage u =? "r")%string)
                    (items_u d) with
            | Some _ => Ok (inl (irreconcilable sid))
            | None =>
                unmatched_items d sid rest (to_delete ++ [sku_num item])
            end
          else unmatched_items d sid rest to_delete
      end
  end.

(** Lines 115-132, outer loop over the known studio ids. *)
Fixpoint first_pass (d : DB) (present : list string)
         (studio_ids : list string) (to_delete : list string)
  : result (JsonResponse + list string) :=
  match studio_ids with
  | [] => Ok (inr to_delete)
  | sid :: rest =>
      if negb (existsb (String.eqb sid) present) then
        r <- unmatched_items d sid
               (filter (fun i => (studio_id i =? sid)%string) (items d))
               to_delete ;;
        match r with
        | inl resp => Ok (inl resp)
        | inr to_delete => first_pass d present rest to_delete
        end
      else first_pass d present rest to_delete
  end.

(** The buckets and resources the second pass threads through. *)
Record Diff : Type := mkDiff {
  d_db : DB;
  d_new_items : list (string * NewItem);
  d_items_to_change : list (string * list (string * FieldValue));
  d_items_to_subtract : list (string * Z);
  all_qr_codes : list string;
  tape : list string
}.

(** Lines 165-176: the quantity columns made non-null and consistent;
    the flag is [item_fixes]. *)
Definition fix_quantities (item : Items) : Items * bool :=
  let '(a, f1) := match available_quantity item with
                  | Some a => (a, false)
                  | None => (0, true)
                  end in
  let '(r, f2) := match reserved_quantity item with
                  | Some r => (r, false)
                  | None => (0, true)
                  end in
  let '(t, f3) := match total_quantity item with
                  | Some t => (t, false)
                  | None => (a + r, true)
                  end in
  let '(t, f4) := if negb (a + r =? t) then (a + r, true) else (t, false) in
  (set_quantities item (Some a) (Some r) (Some t)
                  (previous_total_quantity item),
   f1 || f2 || f3 || f4).

(** Lines 186-205: the fields that differ, in the order they are
    registered. *)
Definition text_change (name : string) (old : option string) (new : string)
  : list (string * FieldValue) :=
  if negb (norm old =? strip new)%string
  then [(name, VText (strip new))] else [].

Definition money_change (name : string) (old new : Z)
  : list (string * FieldValue) :=
  if negb (old =? new) then [(name, VMoney new)] else [].

Definition field_changes (item : Items) (row : Row)
  : list (string * FieldValue) :=
  text_change "description" (description item) (row_description row)
  ++ money_change "sale_price" (sale_price item) (selling_price row)
  ++ money_change "unit_cost" (unit_cost item) (total_cost row)
  ++ text_change "vendor" (vendor item) (row_vendor row)
  ++ (if negb (drop_quotes (norm (dimensions item))
               =? drop_quotes (strip (row_dimensions row)))%string
      then [("dimensions", VText (strip (row_dimensions row)))] else [])
  ++ text_change "sales_code" (sales_code item) (row_sales_code row)
  ++ text_change "location" (location item) (row_location row)
  ++ text_change "item_code_1" (item_code_1 item) (row_item_code_1 row)
  ++ text_change "item_code_2" (item_code_2 item) (row_item_code_2 row)
  ++ text_change "category" (category item) (sub_category row).

(** [items_to_change.setdefault(sku, {})[field_name] = new_value]. *)
Definition register_change (sku_num : string)
           (acc : list (string * list (string * FieldValue)))
           (c : string * FieldValue)
  : list (string * list (string * FieldValue)) :=
  let fields := match dict_get sku_num acc with
                | Some m => m
                | None => []
                end in
  dict_set sku_num (dict_set (fst c) (snd c) fields) acc.

(** Lines 234-237: draw until the sku is not a known studio id. *)
Fixpoint draw_sku (studio_ids : list string) (tp : list string)
  : result (string * list string) :=
  match tp with
  | [] => Raise TapeExhausted
  | s :: rest =>
      if negb (existsb (String.eqb s) studio_ids) then Ok (s, rest)
      else draw_sku studio_ids rest
  end.

(** Lines 143-153: the image anchored on the row, if any. *)
Definition row_image (images : list (Z * string)) (excel_row : Z)
  : option string :=
  match find (fun kv => fst kv =? excel_row) images with
  | Some (_, data) => if (data =? EmptyString)%string then None else Some data
  | None => None
  end.

(** The body of the second loop (lines 142-273). *)
Definition diff_row (images : list (Z * string)) (studio_ids : list string)
           (st : Diff) (ir : Z * Row) : result Diff :=
  let row := snd ir in
  let image := row_image images (fst ir) in
  match objects_first
          (fun i => (studio_id i =? strip (id_text row))%string)
          (items (d_db st)) with
  | Some item =>
      let '(item, item_fixes) := fix_quantities item in
      let d := if item_fixes
               then set_items (objects_save item_id item (items (d_db st)))
                              (d_db st)
               else d_db st in
      let to_change :=
        fold_left (register_change (sku_num item)) (field_changes item row)
                  (d_items_to_change st) in
      let studio_available := quantity_available row in
      match previous_total_quantity item, total_quantity item with
      | Some previous, Some total =>
          if studio_available >? previous then
            let labels_needed := studio_available - previous in
            let qr_images :=
              qr_code_generator (strip (row_description row)) (sku_num item)
                                (strip (row_location row)) labels_needed in
            Ok (mkDiff d (d_new_items st) to_change (d_items_to_subtract st)
                       (all_qr_codes st ++ qr_images) (tape st))
          else if studio_available <? total then
            Ok (mkDiff d (d_new_items st) to_change
                       (dict_set (sku_num item) (total - studio_available)
                                 (d_items_to_subtract st))
                       (all_qr_codes st) (tape st))
          else
            Ok (mkDiff d (d_new_items st) to_change (d_items_to_subtract st)
                       (all_qr_codes st) (tape st))
      | _, _ => Raise TypeError
      end
  | None =>
      let labels_needed := quantity_available row in
      drawn <- draw_sku studio_ids (tape st) ;;
      let '(sku, tp) := drawn in
      let qr_images :=
        if labels_needed >? 0
        then qr_code_generator (strip (row_description row)) sku
                               (strip (row_location row)) labels_needed
        else [] in
      let payload :=
        mkNewItem (strip (row_description row)) (strip (id_text row))
                  (selling_price row) (total_cost row)
                  (strip (row_vendor row)) (strip (row_dimensions row))
                  (strip (row_sales_code row)) (strip (row_location row))
                  (strip (row_item_code_1 row)) (strip (row_item_code_2 row))
                  (strip (sub_category row))
                  labels_needed labels_needed labels_needed labels_needed
                  labels_needed labels_needed image in
      Ok (mkDiff (d_db st) (dict_set sku payload (d_new_items st))
                 (d_items_to_change st) (d_items_to_subtract st)
                 (all_qr_codes st ++ qr_images) tp)
  end.

(** [for _, row in df.iterrows()]. *)
Fixpoint second_pass (images : list (Z * string)) (studio_ids : list string)
         (st : Diff) (df : list (Z * Row)) : result Diff :=
  match df with
  | [] => Ok st
  | ir :: rest =>
      st <- diff_row images studio_ids st ir ;;
      second_pass images studio_ids st rest
  end.

Definition stage_bundle (s : Session) (st : Diff) (to_delete : list string)
  : Session :=
  mkSession (checkout_session_item_us s) (checkout_session_items s)
            (Some (d_new_items st)) (Some (d_items_to_change st))
            (Some to_delete) (Some (d_items_to_subtract st)).

Definition is_empty {A : Type} (l : list A) : bool :=
  match l with
  | [] => true
  | _ :: _ => false
  end.

(** The part of the view that follows the duplicate check (lines
    95-304), on the sheet rows. *)
Definition diff_rows (request : UploadRequest) (wb : Workbook) (d : DB)
           (s : Session) : result (JsonResponse * DB * Session) :=
  let df := ordered_rows (sheet_rows wb) in
  let studio_ids := unique_strings (map studio_id (items d)) in
  let present :=
    unique_strings (map (fun ir => strip (id_text (snd ir))) df) in
  r <- first_pass d present studio_ids [] ;;
  match r with
  | inl resp => Ok (resp, d, s)
  | inr to_delete =>
      st <- second_pass (image_data_map wb) studio_ids
              (mkDiff d [] [] [] [] (random_tape request)) df ;;
      let pdf := if is_empty (all_qr_codes st) then None
                 else Some qr_pdf_path in
      d' <- create_log "NI" (d_db st) ;;
      let changes_detected :=
        negb (is_empty (d_new_items st) && is_empty (d_items_to_change st)
              && is_empty to_delete && is_empty (d_items_to_subtract st)) in
      Ok (mkJson true (Some "File processed successfully")
                 (Some changes_detected) (Some pdf),
          d', stage_bundle s st to_delete)
  end.

(** The view. *)
Definition add_inventory (request : UploadRequest) (d : DB) (s : Session)
  : result (JsonResponse * DB * Session) :=
  let d := refresh_rollups d in
  match (if negb (method request =? "POST")%string then None
         else inventory_file request) with
  | None => Ok (invalid_request, d, s)
  | Some wb =>
      if negb (is_empty (blocking_projects d)) then Ok (studio_behind, d, s)
      else if manual_changes_pending request
      then Ok (manual_changes_waiting, d, s)
      else
        match str_accessor (sheet_rows wb) with
        | Raise e => Raise e
        | Ok _ =>
            let ds := dupes (sheet_rows wb) in
            if (0 <? List.length ds)%nat then
              ids <- duplicate_ids ds ;;
              Ok (duplicates_response ids, d, s)
            else diff_rows request wb d s
        end
  end.
End Upload.
End Text.

(** ** A small store used to run the views

    Two projects, Alpha (1, the one checking out) and Beta (2); two items
    X (10) and Y (11); Beta holds two units of X and one of Y in its
    bedroom; six units of X or Y in the four stages. *)

Definition item_x : Items :=
  mkItems 10 "SKU-X" "ST-X" (Some "Chair") (Some "Acme") None None None None
          None None 1999 1000 (Some 2) (Some 3) (Some 5) (Some 5).

Definition item_y : Items :=
  mkItems 11 "SKU-Y" "ST-Y" (Some "Lamp") (Some "Acme") None None None None
          None None 500 250 (Some 0) (Some 1) (Some 1) (Some 1).

Definition store0 : DB :=
  mkDB [mkProject 1 "Alpha" None; mkProject 2 "Beta" None]
       [mkRoom 5 2 "Bedroom" "main"]
       [mkItemRoom 1 10 5 2 2 2; mkItemRoom 2 11 5 1 1 1]
       [mkItemProject 1 10 2 2 0 0; mkItemProject 2 11 2 1 0 0]
       [mkItemsU 100 10 "r" (Some 2); mkItemsU 101 11 "r" (Some 2);
        mkItemsU 102 10 "a" None; mkItemsU 103 10 "m" None;
        mkItemsU 104 10 "c" (Some 1); mkItemsU 105 10 "r" (Some 1)]
       [item_x; item_y]
       [mkUser 1 "ann@example.org" false; mkUser 2 "root@example.org" true;
        mkUser 3 "bob@example.org" false]
       [mkUserProject 1 2; mkUserProject 3 1]
       [].

Definition session_of (uids : list Z) : Session :=
  mkSession (Some uids) None None None None None.

(** A refresh helper that recomputes the item's total from its available
    and reserved quantities. *)
Definition recompute_total (i _p : Z) (d : DB) : result DB :=
  Ok (set_items (map (fun it => if item_id it =? i then rollup_total it else it)
                     (items d)) d).

Definition never {A : Type} (_ : A) : bool := false.

Definition process0 : Z -> Loop -> Z -> result step :=
  process_unit 0 0 (@never ItemsU).

Definition run0 : Z -> Loop -> list Z -> result step :=
  run_units 0 0 (@never ItemsU).

Definition checkout0 : Request -> World -> result (JsonResponse * World) :=
  confirm_checkout 0 0 (@never ItemsU) (@never EmailMessage)
                   "noreply@example.org" recompute_total.

(** Project 1 checks out the available unit 102 and its own reserved
    unit 105. *)
Definition request_own : Request := mkRequest 1 "Ann A".

Definition world_own : World := mkWorld store0 (session_of [102; 105]) [].

(** ** A small upload

    Four catalogue items: X and Y have reserved units in [store0], Z has
    no quantity at all, W has two available units and no reservation. *)

Definition item_z : Items :=
  mkItems 12 "SKU-Z" "ST-Z" (Some "Stool") (Some "Acme") None None None None
          None None 700 300 (Some 0) (Some 0) (Some 0) (Some 0).

Definition item_w : Items :=
  mkItems 13 "SKU-W" "ST-W" (Some "Desk") (Some "Acme") None None None None
          None None 9900 5000 (Some 2) (Some 0) (Some 2) (Some 2).

Definition store_up : DB := set_items [item_x; item_y; item_z; item_w] store0.

Definition blank : string := EmptyString.

Definition row_x : Row :=
  mkRow (Some "ST-X") 3 5 "Chair" 1999 1000 "Acme" blank blank blank blank
        blank blank.

Definition row_y : Row :=
  mkRow (Some "ST-Y") 1 1 "Lamp" 500 250 "Acme" blank blank blank blank
        blank blank.

Definition row_z : Row :=
  mkRow (Some "ST-Z") 1 0 "Stool" 700 300 "Acme" blank blank blank blank
        blank blank.

Definition row_w : Row :=
  mkRow (Some "ST-W") 2 2 "Desk" 9900 5000 "Acme" blank blank blank blank
        blank blank.

(** Row W again, no longer ordered. *)
Definition row_w_unordered : Row :=
  mkRow (Some "ST-W") 0 2 "Desk" 9900 5000 "Acme" blank blank blank blank
        blank blank.

(** Row Z again, no longer ordered. *)
Definition row_z_unordered : Row :=
  mkRow (Some "ST-Z") 0 0 "Stool" 700 300 "Acme" blank blank blank blank
        blank blank.

Definition upload_of (rows : list Row) : UploadRequest :=
  mkUploadRequest "POST" (Some (mkWorkbook rows [])) false ["12345678"].

Definition no_session : Session := mkSession None None None None None None.

Definition one_label (_ sku _ : string) (_ : Z) : list string := [sku].

Definition upload0 : UploadRequest -> DB -> Session
                     -> result (JsonResponse * DB * Session) :=
  add_inventory (ops := latin_text) one_label "/media/qr_stickers.pdf"
                (fun _ d => Ok d).

(** An item whose stored total lags behind its parts. *)
Definition item_stale : Items :=
  mkItems 14 "SKU-S" "ST-S" (Some "Sofa") (Some "Acme") None None None None
          None None 100 50 (Some 2) (Some 3) (Some 4) (Some 4).

Definition store_stale : DB := set_items [item_stale] store0.

(** Row X with two units fewer than the store holds, and a row for an item
    the store does not know. *)
Definition row_x_short : Row :=
  mkRow (Some "ST-X") 3 3 "Chair" 1999 1000 "Acme" blank blank blank blank
        blank blank.

Definition row_n : Row :=
  mkRow (Some " ST-N ") 4 4 "Bench" 1200 600 "Acme" blank blank blank blank
        blank blank.

Definition payload_n : NewItem :=
  mkNewItem "Bench" "ST-N" 1200 600 "Acme" blank blank blank blank blank
            blank 4 4 4 4 4 4 None.

Definition upload_n : UploadRequest :=
  upload_of [row_x_short; row_y; row_z; row_w; row_n].

(** What the view stages and answers for [upload_n] on [store_up]. *)
Definition staged_n : Session :=
  mkSession None None (Some [("12345678", payload_n)]) (Some []) (Some [])
            (Some [("SKU-X", 2)]).

Definition accepted_n : JsonResponse :=
  mkJson true (Some "File processed successfully") (Some true)
         (Some (Some "/media/qr_stickers.pdf")).

(** ** Vocabulary of the statements *)

Section Vocabulary.
Context {ops : StrMethods}.

(** The (losing project, entry) pairs of a stolen-reservation list, in the
    order the alert loop visits them. *)
Definition stolen_pairs (sps : list StolenProject) : list (Z * StolenItem) :=
  flat_map (fun sp => map (fun si => (sp_project_id sp, si)) (sp_items sp)) sps.

(** The quantities of the entries recorded for a (project, sku) pair. *)
Definition item_events (sku_num : string) (its : list StolenItem) : list Z :=
  map si_quantity (filter (fun si => (si_sku_num si =? sku_num)%string) its).

Definition events_for (q : Z) (sku_num : string) (sps : list StolenProject)
  : list Z :=
  flat_map (fun sp => if sp_project_id sp =? q
                      then item_events sku_num (sp_items sp) else [])
           sps.

(** One entry per project and, inside it, one entry per sku. *)
Definition stolen_wf (sps : list StolenProject) : Prop :=
  NoDup (map sp_project_id sps)
  /\ Forall (fun sp => NoDup (map si_sku_num (sp_items sp))) sps.

(** A (project, sku) pair has exactly one entry. *)
Definition recorded (q : Z) (sku_num : string) (sps : list StolenProject)
  : Prop :=
  exists n, events_for q sku_num sps = [n].

(** What one alert says about one (project, entry) pair. *)
Definition alert_matches (d : DB) (new_project : Project) (m : EmailMessage)
           (qe : Z * StolenItem) : Prop :=
  to m = recipient_emails (fst qe) d
  /\ sku m = si_sku_num (snd qe)
  /\ adjusted_quantity m = si_quantity (snd qe)
  /\ new_project_name m = project_name new_project
  /\ exists losing,
       objects_get (fun x => project_id x =? fst qe) (projects d) = Ok losing
       /\ stolen_project_name m = project_name losing.

(** *** The upload diff *)

(** [available_quantity + reserved_quantity], the total the first pass
    looks at. *)
Definition total_of (i : Items) : option Z :=
  add_nullable (available_quantity i) (reserved_quantity i).

Definition positive_total (i : Items) : bool :=
  match total_of i with
  | Some t => t >? 0
  | None => false
  end.

(** Some unit of the item is in stage "r". *)
Definition has_reserved_unit (d : DB) (i : Items) : bool :=
  existsb (fun u => (iu_item_id u =? item_id i) && (stage u =? "r")%string)
          (items_u d).

(** The studio id is the stripped identifier of a sheet row with a positive
    "Quantity Ordered". *)
Definition listed (wb : Workbook) (sid : string) : bool :=
  existsb (fun r => (quantity_ordered r >? 0)
                    && (sid =? strip (id_text r))%string)
          (sheet_rows wb).

(** The items the first pass looks at for a list of studio ids. *)
Definition visited (d : DB) (present sids : list string) : list Items :=
  flat_map (fun sid => if negb (existsb (String.eqb sid) present)
                       then filter (fun i => (studio_id i =? sid)%string)
                                   (items d)
                       else [])
           sids.

(** The (sku, studio id) pairs of a list of items. *)
Definition identity_pairs (l : list Items) : list (string * string) :=
  map (fun i => (sku_num i, studio_id i)) l.

(** What the second pass has staged comes from the rows it was given: a
    new item carries the stripped identifier of one of them, and a sku under
    [items_to_change] or [items_to_subtract] is the sku of a stored item
    whose studio id is the stripped identifier of one of them. *)
Definition staged_from (df : list (Z * Row)) (pairs : list (string * string))
           (news : list (string * NewItem)) (changed_keys : list string)
           (subtracted_keys : list string) : Prop :=
  (forall sku payload,
      In (sku, payload) news ->
      exists ir, In ir df /\ ni_studio_id payload = strip (id_text (snd ir)))
  /\ (forall sku,
         In sku changed_keys \/ In sku subtracted_keys ->
         exists ir, In ir df /\ In (sku, strip (id_text (snd ir))) pairs).

(** The request passes the checks that precede the diff. *)
Definition reaches_diff (request : UploadRequest) (wb : Workbook) (d : DB)
  : Prop :=
  method request = "POST"
  /\ inventory_file request = Some wb
  /\ blocking_projects (refresh_rollups d) = []
  /\ manual_changes_pending request = false
  /\ str_accessor (sheet_rows wb) = Ok tt
  /\ dupes (sheet_rows wb) = [].

(** Primary keys are unique and every ItemRoom row points at a room. *)
Definition ledger_wf (d : DB) : Prop :=
  NoDup (map room_id (rooms d))
  /\ NoDup (map ir_id (item_rooms d))
  /\ NoDup (map ip_id (item_projects d))
  /\ forall ir, In ir (item_rooms d) ->
                In (ir_room_id ir) (map room_id (rooms d)).

Definition item_room_key (i r : Z) (ir : ItemRoom) : bool :=
  (ir_item_id ir =? i) && (ir_room_id ir =? r).

Definition item_project_key (i p : Z) (ip : ItemProject) : bool :=
  (ip_item_id ip =? i) && (ip_project_id ip =? p).

(** The reserved quantity cached for an (item, project) pair. *)
Definition cached_reserved (d : DB) (item p : Z) : result Z :=
  ip <- objects_get (item_project_key item p) (item_projects d) ;;
  Ok (ip_reserved_quantity ip).

(** The natural keys [get_or_create] looks rows up by single out at most
    one row each. *)
Definition natural_keys (d : DB) : Prop :=
  (forall p, (List.length (filter (is_unassigned p) (rooms d)) <= 1)%nat)
  /\ (forall i r,
         (List.length (filter (item_room_key i r) (item_rooms d)) <= 1)%nat)
  /\ (forall i p,
         (List.length (filter (item_project_key i p) (item_projects d)) <= 1)%nat).

(** A store where project 2 holds no ItemRoom row for item 10, although
    unit 100 of that item is reserved on it; the cached reserved quantity
    of the pair is the (empty) sum, 0. *)
Definition store_no_row : DB :=
  set_item_rooms
    [mkItemRoom 2 11 5 1 1 1]
    (set_item_projects [mkItemProject 1 10 2 0 0 0; mkItemProject 2 11 2 1 0 0]
                       store0).

(** A store with an ItemRoom row whose counters have diverged. *)
Definition store_diverged : DB :=
  set_item_rooms [mkItemRoom 1 10 5 2 2 0; mkItemRoom 2 11 5 1 1 1] store0.

(** *** Vocabulary of the further properties *)

(** What the rollup of lines 14-17 makes of one item: the descriptive
    columns and the two parts are kept, the total becomes their (nullable)
    sum, and the previous total is raised to the new total when it is
    lower. *)
Definition rolled_up (old new : Items) : Prop :=
  item_id new = item_id old
  /\ sku_num new = sku_num old
  /\ studio_id new = studio_id old
  /\ available_quantity new = available_quantity old
  /\ reserved_quantity new = reserved_quantity old
  /\ total_quantity new
     = add_nullable (available_quantity old) (reserved_quantity old)
  /\ previous_total_quantity new
     = match previous_total_quantity old,
             add_nullable (available_quantity old) (reserved_quantity old) with
       | Some p, Some t => Some (Z.max p t)
       | prev, _ => prev
       end.

(** The three quantity columns are filled in and add up. *)
Definition quantities_consistent (i : Items) : Prop :=
  exists a r, available_quantity i = Some a
              /\ reserved_quantity i = Some r
              /\ total_quantity i = Some (a + r).

(** A staged new item: its key is not a known studio id, and its payload
    carries the stripped identifier of a given row and that row's
    "Quantity Available" in all six quantity fields. *)
Definition new_item_from (sids : list string) (df : list (Z * Row))
           (entry : string * NewItem) : Prop :=
  existsb (String.eqb (fst entry)) sids = false
  /\ exists ir,
       In ir df
       /\ ni_studio_id (snd entry) = strip (id_text (snd ir))
       /\ ni_available_quantity (snd entry) = quantity_available (snd ir)
       /\ ni_available_quantity_holder (snd entry) = quantity_available (snd ir)
       /\ ni_total_quantity (snd entry) = quantity_available (snd ir)
       /\ ni_total_quantity_holder (snd entry) = quantity_available (snd ir)
       /\ ni_previous_total_quantity (snd entry) = quantity_available (snd ir)
       /\ ni_previous_total_quantity_holder (snd entry)
          = quantity_available (snd ir).

(** Unit [uid] is checked out to project [p]. *)
Definition checked_out_to (p uid : Z) (d : DB) : Prop :=
  exists u, objects_get (fun y => item_u_id y =? uid) (items_u d) = Ok u
            /\ stage u = "c"
            /\ iu_project_id u = Some p.

(** No listed unit is reserved on a project other than [p]. *)
Definition none_reserved_elsewhere (p : Z) (uids : list Z) (d : DB) : Prop :=
  forall uid u,
    In uid uids ->
    objects_get (fun y => item_u_id y =? uid) (items_u d) = Ok u ->
    stage u = "r" -> iu_project_id u = Some p.

(** The row says what the item holds: the ten descriptive fields compare
    equal the way lines 186-205 compare them, the quantity columns are
    filled in and add up, and the row's "Quantity Available" lies between
    the item's total and its previous total. *)
Definition matches_row (item : Items) (row : Row) : Prop :=
  norm (description item) = strip (row_description row)
  /\ sale_price item = selling_price row
  /\ unit_cost item = total_cost row
  /\ norm (vendor item) = strip (row_vendor row)
  /\ drop_quotes (norm (dimensions item))
     = drop_quotes (strip (row_dimensions row))
  /\ norm (sales_code item) = strip (row_sales_code row)
  /\ norm (location item) = strip (row_location row)
  /\ norm (item_code_1 item) = strip (row_item_code_1 row)
  /\ norm (item_code_2 item) = strip (row_item_code_2 row)
  /\ norm (category item) = strip (sub_category row)
  /\ exists a r prev,
       available_quantity item = Some a
       /\ reserved_quantity item = Some r
       /\ total_quantity item = Some (a + r)
       /\ previous_total_quantity item = Some prev
       /\ a + r <= quantity_available row <= prev.

(** The session after an upload that staged four empty sets. *)
Definition nothing_staged (s : Session) : Session :=
  mkSession (checkout_session_item_us s) (checkout_session_items s)
            (Some []) (Some []) (Some []) (Some []).

Definition no_changes_response : JsonResponse :=
  mkJson true (Some "File processed successfully") (Some false) (Some None).


(** A staged reduction: its key is the sku of the first item carrying the
    stripped identifier of a given row, and its amount is what the item's
    two parts exceed the row's "Quantity Available" by. *)
Definition reduction_from (its : list Items) (df : list (Z * Row))
           (entry : string * Z) : Prop :=
  exists ir item a r,
    In ir df
    /\ objects_first
         (fun i => (studio_id i =? strip (id_text (snd ir)))%string) its
       = Some item
    /\ sku_num item = fst entry
    /\ available_quantity item = Some a
    /\ reserved_quantity item = Some r
    /\ snd entry = a + r - quantity_available (snd ir).

(** A staged field change of a sku: a difference between a given row and
    the first item carrying its stripped identifier, whose sku it is. *)
Definition change_from (its : list Items) (df : list (Z * Row))
           (sku_num0 : string) (c : string * FieldValue) : Prop :=
  exists ir item,
    In ir df
    /\ objects_first
         (fun i => (studio_id i =? strip (id_text (snd ir)))%string) its
       = Some item
    /\ sku_num item = sku_num0
    /\ In c (field_changes item (snd ir)).

(** Row Y with another description. *)
Definition row_y_renamed : Row :=
  mkRow (Some "ST-Y") 1 1 "Floor lamp" 500 250 "Acme" blank blank blank blank
        blank blank.

(** Unit [uid] is reserved on project [q], which is not the target [p],
    and is a unit of the item with the given sku: checking it out to [p]
    takes a reservation of that sku from [q]. *)
Definition steals (d : DB) (p q : Z) (sku_num0 : string) (uid : Z) : bool :=
  match objects_get (fun u => item_u_id u =? uid) (items_u d) with
  | Ok item_u =>
      if (stage item_u =? "r")%string then
        match iu_project_id item_u,
              objects_get (fun i => item_id i =? iu_item_id item_u) (items d)
        with
        | Some q', Ok item =>
            (q' =? q) && negb (q =? p) && (sku_num item =? sku_num0)%string
        | _, _ => false
        end
      else false
  | Raise _ => false
  end.

(** How many units of a batch take a reservation of a sku from [q]. *)
Definition stolen_count (d : DB) (p q : Z) (sku_num0 : string)
           (uids : list Z) : Z :=
  Z.of_nat (List.length (filter (steals d p q sku_num0) uids)).

Definition total_events (q : Z) (sku_num0 : string)
           (sps : list StolenProject) : Z :=
  fold_right Z.add 0 (events_for q sku_num0 sps).

(** A (project, sku) pair has no entry, or one entry with a positive
    quantity. *)
Definition positive_events (sps : list StolenProject) : Prop :=
  forall q sku_num0,
    events_for q sku_num0 sps = []
    \/ exists n, 1 <= n /\ events_for q sku_num0 sps = [n].

End Vocabulary.

(** * Properties *)

Unset Implicit Arguments.

(** ** Tables *)

Section TableFacts.
Context {A : Type}.
Variable pk : A -> Z.

Lemma objects_get_filter (f : A -> bool) (t : list A) (x : A) :
  objects_get f t = Ok x -> filter f t = [x].
Proof.
  unfold objects_get.
  destruct (filter f t) as [|y [|z r]]; intro H; try discriminate.
  now inversion H.
Qed.

Lemma objects_get_in (f : A -> bool) (t : list A) (x : A) :
  objects_get f t = Ok x -> In x t /\ f x = true.
Proof.
  intro H. apply objects_get_filter in H.
  assert (I : In x (filter f t)) by (rewrite H; now left).
  now apply filter_In in I.
Qed.

Lemma filter_get (f : A -> bool) (t : list A) (x : A) :
  filter f t = [x] -> objects_get f t = Ok x.
Proof. unfold objects_get. now intros ->. Qed.

Lemma next_pk_above (t : list A) (y : A) : In y t -> pk y < next_pk pk t.
Proof.
  unfold next_pk. induction t as [|a t IH]; cbn [map fold_right In]; [easy|].
  intros [->|I]; [lia|]. specialize (IH I). lia.
Qed.

Lemma save_keeps_keys (x : A) (t : list A) :
  map pk (objects_save pk x t) = map pk t.
Proof.
  unfold objects_save. induction t as [|a t IH]; simpl; [easy|].
  rewrite IH. destruct (Z.eqb_spec (pk a) (pk x)); congruence.
Qed.

Lemma save_absent (x : A) (t : list A) :
  (forall y, In y t -> pk y <> pk x) -> objects_save pk x t = t.
Proof.
  unfold objects_save. induction t as [|a t IH]; simpl; intro H; [easy|].
  rewrite IH by auto.
  destruct (Z.eqb_spec (pk a) (pk x)) as [E|_]; [|easy].
  exfalso. now apply (H a); [left|].
Qed.

Lemma split_by_pk (x : A) (t : list A) :
  NoDup (map pk t) -> In x t ->
  exists t1 t2, t = t1 ++ x :: t2
                /\ (forall y, In y t1 -> pk y <> pk x)
                /\ (forall y, In y t2 -> pk y <> pk x).
Proof.
  induction t as [|a t IH]; simpl; intros N I; [easy|].
  inversion N as [|? ? Na Nt]; subst.
  destruct I as [->|I].
  - exists [], t. repeat split; [easy|].
    intros y Iy E. apply Na. rewrite <- E. now apply in_map.
  - destruct (IH Nt I) as (t1 & t2 & -> & H1 & H2).
    exists (a :: t1), t2. repeat split; [|easy].
    intros y [->|Iy]; [|auto].
    intro E. apply Na. rewrite E. apply in_map, in_elt.
Qed.

Lemma save_split (x x' : A) (t1 t2 : list A) :
  pk x' = pk x ->
  (forall y, In y t1 -> pk y <> pk x) ->
  (forall y, In y t2 -> pk y <> pk x) ->
  objects_save pk x' (t1 ++ x :: t2) = t1 ++ x' :: t2.
Proof.
  intros E H1 H2. unfold objects_save. rewrite map_app. cbn [map].
  replace (pk x =? pk x') with true by (symmetry; apply Z.eqb_eq; congruence).
  f_equal; [|f_equal]; apply save_absent; intros y I; rewrite E; auto.
Qed.

Lemma delete_absent (x : A) (t : list A) :
  (forall y, In y t -> pk y <> pk x) -> objects_delete pk x t = t.
Proof.
  unfold objects_delete. induction t as [|a t IH]; simpl; intro H; [easy|].
  destruct (Z.eqb_spec (pk a) (pk x)) as [E|_]; simpl.
  - exfalso. now apply (H a); [left|].
  - f_equal. auto.
Qed.

Lemma delete_split (x x' : A) (t1 t2 : list A) :
  pk x' = pk x ->
  (forall y, In y t1 -> pk y <> pk x) ->
  (forall y, In y t2 -> pk y <> pk x) ->
  objects_delete pk x' (t1 ++ x :: t2) = t1 ++ t2.
Proof.
  intros E H1 H2. unfold objects_delete. rewrite filter_app. cbn [filter].
  replace (pk x =? pk x') with true by (symmetry; apply Z.eqb_eq; congruence).
  cbn [negb]. f_equal; apply delete_absent; intros y I; rewrite E; auto.
Qed.

Lemma save_same (x : A) (t : list A) :
  NoDup (map pk t) -> In x t -> objects_save pk x t = t.
Proof.
  intros N I. destruct (split_by_pk x t N I) as (t1 & t2 & -> & H1 & H2).
  now apply save_split.
Qed.

Lemma nodup_keys_filter (f : A -> bool) (t : list A) :
  NoDup (map pk t) -> NoDup (map pk (filter f t)).
Proof.
  induction t as [|a t IH]; simpl; intro N; [constructor|].
  inversion N as [|? ? Na Nt]; subst.
  destruct (f a); simpl; [|auto].
  constructor; [|auto].
  intro I. apply Na. apply in_map_iff in I as (y & E & Iy).
  apply filter_In in Iy as [Iy _]. rewrite <- E. now apply in_map.
Qed.

Lemma nodup_keys_insert (x : A) (t : list A) :
  NoDup (map pk t) -> pk x = next_pk pk t -> NoDup (map pk (t ++ [x])).
Proof.
  intros N E. rewrite map_app. simpl.
  apply NoDup_app; [easy|repeat constructor; easy|].
  intros k Ik [<-|[]].
  apply in_map_iff in Ik as (y & Ey & Iy).
  apply next_pk_above in Iy. lia.
Qed.

Lemma get_or_create_cases (f : A -> bool) (fresh : Z -> A) (t t' : list A)
      (x : A) (c : bool) :
  objects_get_or_create pk f fresh t = Ok (x, c, t') ->
  (c = false /\ t' = t /\ filter f t = [x])
  \/ (c = true /\ t' = t ++ [x] /\ x = fresh (next_pk pk t)
      /\ filter f t = []).
Proof.
  unfold objects_get_or_create.
  destruct (filter f t) as [|y [|z r]]; intro H; inversion H; subst;
    [right|left]; auto.
Qed.

Lemma get_or_create_total (f : A -> bool) (fresh : Z -> A) (t : list A) :
  (List.length (filter f t) <= 1)%nat ->
  exists x c t', objects_get_or_create pk f fresh t = Ok (x, c, t').
Proof.
  unfold objects_get_or_create.
  destruct (filter f t) as [|y [|z r]]; simpl; intro H; eauto.
  lia.
Qed.
End TableFacts.

Section SaveFacts.
Context {A : Type}.
Variable pk : A -> Z.

Lemma filter_key_save (k : Z) (x : A) (t : list A) :
  pk x = k ->
  filter (fun y => pk y =? k) (objects_save pk x t)
  = map (fun _ => x) (filter (fun y => pk y =? k) t).
Proof.
  intros <-. unfold objects_save.
  induction t as [|a t IH]; cbn [map filter]; [easy|].
  destruct (Z.eqb_spec (pk a) (pk x)) as [Ea|Na].
  - rewrite Z.eqb_refl. cbn [map]. now rewrite IH.
  - apply Z.eqb_neq in Na. now rewrite Na.
Qed.

Lemma get_after_save (k : Z) (x x' : A) (t : list A) :
  objects_get (fun y => pk y =? k) t = Ok x -> pk x' = k ->
  objects_get (fun y => pk y =? k) (objects_save pk x' t) = Ok x'.
Proof.
  intros G E. apply objects_get_filter in G. apply filter_get.
  rewrite (filter_key_save k x' t E), G. reflexivity.
Qed.
End SaveFacts.

Lemma in_save_self {A : Type} (pk : A -> Z) (x' n : A) (t : list A) :
  In n t -> pk x' = pk n -> In x' (objects_save pk x' t).
Proof.
  intros I E. unfold objects_save.
  apply in_map_iff. exists n. split; [|exact I].
  now rewrite E, Z.eqb_refl.
Qed.

Lemma in_save_other {A : Type} (pk : A -> Z) (x y : A) (t : list A) :
  In y t -> pk y <> pk x -> In y (objects_save pk x t).
Proof.
  intros I N. unfold objects_save.
  apply in_map_iff. exists y. split; [|exact I].
  apply Z.eqb_neq in N. now rewrite N.
Qed.

Lemma nodup_pk_inj {A : Type} (pk : A -> Z) (t : list A) (a b : A) :
  NoDup (map pk t) -> In a t -> In b t -> pk a = pk b -> a = b.
Proof.
  intros N Ia Ib E.
  destruct (split_by_pk pk a t N Ia) as (t1 & t2 & -> & H1 & H2).
  apply in_app_or in Ib as [Ib|[Ib|Ib]]; [|exact Ib|].
  - exfalso. now apply (H1 b Ib).
  - exfalso. now apply (H2 b Ib).
Qed.

(** ** The unit state machine *)

Section CheckoutFacts.
Variable dq dh : Z.
Variable log_fails : ItemsU -> bool.
Variable send_fails : EmailMessage -> bool.
Variable host : string.
Variable refresh : Z -> Z -> DB -> result DB.

Local Abbreviation process := (process_unit dq dh log_fails).
Local Abbreviation run := (run_units dq dh log_fails).
Local Abbreviation checkout :=
  (confirm_checkout dq dh log_fails send_fails host refresh).
Local Abbreviation mark := (log_and_mark log_fails).

Lemma log_and_mark_ledger (p : Z) (u : ItemsU) (d : DB) :
  projects (mark p u d) = projects d
  /\ rooms (mark p u d) = rooms d
  /\ item_rooms (mark p u d) = item_rooms d
  /\ item_projects (mark p u d) = item_projects d
  /\ items (mark p u d) = items d.
Proof.
  unfold log_and_mark, create_item_log, bind.
  destruct (objects_get _ (projects d)); [destruct (log_fails u)|];
    repeat split; reflexivity.
Qed.

Lemma log_and_mark_units (p : Z) (u : ItemsU) (d : DB) :
  items_u (mark p u d)
  = objects_save item_u_id
      (mkItemsU (item_u_id u) (iu_item_id u) "c" (Some p)) (items_u d).
Proof.
  unfold log_and_mark, create_item_log, bind.
  destruct (objects_get _ (projects d)); [destruct (log_fails u)|];
    reflexivity.
Qed.

(** The unit read at the start of an iteration is, after [log_and_mark],
    checked out to the target project. *)
Lemma log_and_mark_unit (p uid : Z) (u : ItemsU) (d : DB) :
  objects_get (fun y => item_u_id y =? uid) (items_u d) = Ok u ->
  objects_get (fun y => item_u_id y =? uid) (items_u (mark p u d))
  = Ok (mkItemsU uid (iu_item_id u) "c" (Some p)).
Proof.
  intro G. rewrite log_and_mark_units.
  destruct (objects_get_in _ _ _ G) as [_ E]. apply Z.eqb_eq in E.
  rewrite E. apply (get_after_save item_u_id uid u); [exact G|reflexivity].
Qed.


(** *** The batch loop *)

Lemma run_units_app (p : Z) (pre rest : list Z) (l : Loop) :
  run p l (pre ++ rest)
  = (r <- run p l pre ;;
     match r with
     | Continue l' => run p l' rest
     | Return resp d => Ok (Return resp d)
     end).
Proof.
  revert l. induction pre as [|uid pre IH]; intro l; cbn [app run_units bind].
  - reflexivity.
  - destruct (process p l uid) as [[l'|resp d]|e]; cbn [bind]; auto.
Qed.

Lemma process_return (p uid : Z) (l : Loop) (resp : JsonResponse) (d : DB) :
  process p l uid = Ok (Return resp d) ->
  resp = failure_response /\ d = l_db l.
Proof.
  unfold process_unit, bind.
  repeat match goal with
         | |- context [match ?c with _ => _ end] =>
             destruct c eqn:?; try discriminate
         end;
    intro H; inversion H; auto.
Qed.

Lemma run_return (p : Z) (uids : list Z) (l : Loop) (resp : JsonResponse)
      (d : DB) :
  run p l uids = Ok (Return resp d) -> resp = failure_response.
Proof.
  revert l. induction uids as [|uid uids IH]; intro l; cbn [run_units bind].
  - discriminate.
  - destruct (process p l uid) as [[l'|resp' d']|e] eqn:E; try discriminate.
    + apply IH.
    + intro H. inversion H; subst. now apply process_return in E.
Qed.

(** C3: a unit found in a stage other than "a", "r" or "m" ends the
    request with the failure response.  The store is the one the earlier
    units of the batch left, whatever follows the unit in the batch, the
    session still holds the staged list and no alert is sent. *)
Theorem unexpected_stage_halts_batch :
  forall (request : Request) (w : World) (pre post : list Z) (uid : Z)
         (new_project : Project) (l : Loop) (item_u : ItemsU) (item : Items),
    objects_get (fun x => project_id x =? body_project_id request)
                (projects (db w)) = Ok new_project ->
    checkout_session_item_us (session w) = Some (pre ++ uid :: post) ->
    run (body_project_id request) (mkLoop (db w) [] []) pre
    = Ok (Continue l) ->
    objects_get (fun u => item_u_id u =? uid) (items_u (l_db l)) = Ok item_u ->
    objects_get (fun i => item_id i =? iu_item_id item_u) (items (l_db l))
    = Ok item ->
    stage item_u <> "a" -> stage item_u <> "r" -> stage item_u <> "m" ->
    checkout request w
    = Ok (failure_response, mkWorld (l_db l) (session w) (outbox w))
    /\ success failure_response = false.
Proof.
  intros request w pre post uid new_project l item_u item Gp Hs Hpre Gu Gi
         Na Nr Nm.
  split; [|reflexivity].
  unfold confirm_checkout. rewrite Gp. cbn [bind]. rewrite Hs.
  rewrite run_units_app, Hpre. cbn [bind run_units].
  unfold process_unit. rewrite Gu. cbn [bind]. rewrite Gi. cbn [bind].
  unfold reserved_elsewhere.
  apply String.eqb_neq in Na, Nr, Nm. rewrite Na, Nr, Nm.
  reflexivity.
Qed.

(** *** The end-of-request sweep *)

Lemma prune_zero_reservations_rows (d : DB) (ir : ItemRoom) :
  In ir (item_rooms (prune_zero_reservations d))
  <-> In ir (item_rooms d) /\ 1 <= all_reserved ir.
Proof.
  unfold prune_zero_reservations, filter_delete. cbn [item_rooms set_item_rooms].
  rewrite filter_In.
  destruct (Z.ltb_spec (all_reserved ir) 1); cbn [negb];
    intuition (try lia; try discriminate).
Qed.

Lemma checkout_success_swept (request : Request) (w w' : World)
      (resp : JsonResponse) :
  checkout request w = Ok (resp, w') -> success resp = true ->
  exists before, db w' = prune_zero_reservations before.
Proof.
  unfold confirm_checkout, bind.
  destruct (objects_get _ (projects (db w))) as [np|]; [|discriminate].
  destruct (checkout_session_item_us (session w)) as [uids|].
  - destruct (run _ _ uids) as [[l|r d]|] eqn:R; [| |discriminate].
    + destruct (send_alerts _ _ _ _ _ _ _); [|discriminate].
      destruct (recalc_items _ _ _ _) as [d'|]; [|discriminate].
      intros H _. inversion H; subst. now exists d'.
    + intros H S. inversion H; subst.
      apply run_return in R. subst. discriminate.
  - intros H _. inversion H; subst. now exists (db w).
Qed.

(** C8: when the request ends with the success response, the ItemRoom
    table is the table of the store reached before the sweep, less every
    row with [all_reserved] below 1; the row's [item_quantity] plays no
    part. *)
Theorem sweep_leaves_no_zero_reservation :
  forall (request : Request) (w w' : World) (resp : JsonResponse),
    checkout request w = Ok (resp, w') ->
    success resp = true ->
    Forall (fun ir => 1 <= all_reserved ir) (item_rooms (db w'))
    /\ exists before,
         db w' = prune_zero_reservations before
         /\ forall ir, In ir (item_rooms (db w'))
                       <-> In ir (item_rooms before) /\ 1 <= all_reserved ir.
Proof.
  intros request w w' resp H S.
  destruct (checkout_success_swept request w w' resp H S) as [before E].
  split.
  - apply Forall_forall. intros ir I. rewrite E in I.
    now apply prune_zero_reservations_rows in I.
  - exists before. split; [exact E|]. intro ir. rewrite E.
    apply prune_zero_reservations_rows.
Qed.
End CheckoutFacts.



(** C3 at a concrete batch: units 100, 104, 102 for project 1, where unit
    104 is already checked out.  Unit 100 has been taken from project 2 (its
    ItemRoom row is down to 1), unit 102 is still available, and the
    session keeps the staged list. *)
Lemma unexpected_stage_halts_batch_witness :
  exists l,
    run0 1 (mkLoop store0 [] []) [100] = Ok (Continue l)
    /\ (checkout0 (mkRequest 1 "Ann A")
                  (mkWorld store0 (session_of [100; 104; 102]) [])
        = Ok (failure_response,
              mkWorld (l_db l) (session_of [100; 104; 102]) [])
        /\ success failure_response = false)
    /\ objects_get (fun u => item_u_id u =? 100) (items_u (l_db l))
       = Ok (mkItemsU 100 10 "c" (Some 1))
    /\ objects_get (fun u => item_u_id u =? 102) (items_u (l_db l))
       = Ok (mkItemsU 102 10 "a" None).
Proof.
  eexists. split; [vm_compute; reflexivity|].
  split; [|split; vm_compute; reflexivity].
  apply (unexpected_stage_halts_batch 0 0 (@never ItemsU) (@never EmailMessage)
           "noreply@example.org" recompute_total (mkRequest 1 "Ann A")
           (mkWorld store0 (session_of [100; 104; 102]) [])
           [100] [102] 104 (mkProject 1 "Alpha" None) _
           (mkItemsU 104 10 "c" (Some 1)) item_x);
    try (vm_compute; reflexivity); cbn; discriminate.
Defined.

(** C8 at a concrete batch: the row of item 10 in room 5 starts with
    [item_quantity] 2 and [all_reserved] 0; after a successful checkout of
    the available unit 102 it is gone. *)
Lemma sweep_leaves_no_zero_reservation_witness :
  exists resp w',
    checkout0 (mkRequest 1 "Ann A") (mkWorld store_diverged (session_of [102]) [])
    = Ok (resp, w')
    /\ success resp = true
    /\ (Forall (fun ir => 1 <= all_reserved ir) (item_rooms (db w'))
        /\ exists before,
             db w' = prune_zero_reservations before
             /\ forall ir, In ir (item_rooms (db w'))
                           <-> In ir (item_rooms before)
                               /\ 1 <= all_reserved ir)
    /\ ~ In (mkItemRoom 1 10 5 2 2 0) (item_rooms (db w')).
Proof.
  do 2 eexists. split; [vm_compute; reflexivity|].
  split; [reflexivity|]. split.
  - eapply (sweep_leaves_no_zero_reservation 0 0 (@never ItemsU)
              (@never EmailMessage) "noreply@example.org" recompute_total
              (mkRequest 1 "Ann A")
              (mkWorld store_diverged (session_of [102]) []));
      vm_compute; reflexivity.
  - cbn. intros [H|[H|[]]]; discriminate.
Defined.

(** ** The stolen-reservation list *)

Lemma item_events_absent (sku_num : string) (its : list StolenItem) :
  ~ In sku_num (map si_sku_num its) -> item_events sku_num its = [].
Proof.
  unfold item_events. induction its as [|d its IH]; cbn [map filter]; [easy|].
  intro N. destruct (String.eqb_spec (si_sku_num d) sku_num) as [E|_].
  - exfalso. apply N. now left.
  - apply IH. intro I. apply N. now right.
Qed.

Lemma track_item_events (sku_num : string) (its : list StolenItem) :
  NoDup (map si_sku_num its) ->
  item_events sku_num (track_item sku_num its)
  = [1 + fold_right Z.add 0 (item_events sku_num its)].
Proof.
  induction its as [|d its IH]; cbn [map track_item]; intro N.
  - unfold item_events. cbn. now rewrite String.eqb_refl.
  - inversion N as [|? ? Nd Nits]; subst.
    unfold item_events in *. cbn [filter].
    destruct (String.eqb_spec (si_sku_num d) sku_num) as [E|NE].
    + cbn [filter si_sku_num]. rewrite (proj2 (String.eqb_eq _ _) E).
      cbn [map si_quantity fold_right].
      rewrite <- E in *.
      pose proof (item_events_absent (si_sku_num d) its Nd) as Z0.
      unfold item_events in Z0. rewrite Z0. cbn [map fold_right]. f_equal. lia.
    + cbn [filter]. rewrite (proj2 (String.eqb_neq _ _) NE). now apply IH.
Qed.

Lemma track_item_other (sku_num other : string) (its : list StolenItem) :
  other <> sku_num ->
  item_events other (track_item sku_num its) = item_events other its.
Proof.
  intro N. unfold item_events.
  induction its as [|d its IH]; cbn [track_item filter map si_sku_num].
  - destruct (String.eqb_spec sku_num other); [congruence|reflexivity].
  - destruct (String.eqb_spec (si_sku_num d) sku_num) as [E|NE].
    + cbn [filter si_sku_num].
      destruct (String.eqb_spec (si_sku_num d) other); [congruence|reflexivity].
    + cbn [filter]. destruct (si_sku_num d =? other)%string; cbn [map];
        now rewrite IH.
Qed.

Lemma track_item_skus (sku_num s : string) (its : list StolenItem) :
  In s (map si_sku_num (track_item sku_num its)) ->
  s = sku_num \/ In s (map si_sku_num its).
Proof.
  induction its as [|d its IH]; cbn [track_item map In].
  - intuition.
  - destruct (String.eqb_spec (si_sku_num d) sku_num); cbn [map In si_sku_num];
      intuition.
Qed.

Lemma track_item_nodup (sku_num : string) (its : list StolenItem) :
  NoDup (map si_sku_num its) ->
  NoDup (map si_sku_num (track_item sku_num its)).
Proof.
  induction its as [|d its IH]; cbn [track_item map]; intro N.
  - repeat constructor. easy.
  - inversion N as [|? ? Nd Nits]; subst.
    destruct (String.eqb_spec (si_sku_num d) sku_num) as [E|NE];
      cbn [map si_sku_num]; [exact N|].
    constructor; [|auto].
    intro I. apply track_item_skus in I as [I|I]; congruence.
Qed.

Lemma events_for_absent (q : Z) (sku_num : string) (sps : list StolenProject) :
  ~ In q (map sp_project_id sps) -> events_for q sku_num sps = [].
Proof.
  unfold events_for. induction sps as [|sp sps IH]; cbn [map flat_map]; [easy|].
  intro N. destruct (Z.eqb_spec (sp_project_id sp) q) as [E|_].
  - exfalso. apply N. now left.
  - apply IH. intro I. apply N. now right.
Qed.

Lemma track_stolen_events (q : Z) (sku_num : string) (sps : list StolenProject) :
  stolen_wf sps ->
  events_for q sku_num (track_stolen q sku_num sps)
  = [1 + fold_right Z.add 0 (events_for q sku_num sps)].
Proof.
  intros [N F]. induction sps as [|sp sps IH]; cbn [track_stolen].
  - unfold events_for, item_events. cbn. now rewrite Z.eqb_refl, String.eqb_refl.
  - inversion N as [|? ? Nsp Nsps]; subst.
    inversion F as [|? ? Fsp Fsps]; subst.
    unfold events_for in *. cbn [flat_map].
    destruct (Z.eqb_spec (sp_project_id sp) q) as [E|NE].
    + cbn [flat_map sp_project_id sp_items].
      rewrite (proj2 (Z.eqb_eq _ _) E). rewrite <- E in *.
      pose proof (events_for_absent (sp_project_id sp) sku_num sps Nsp) as Z0.
      unfold events_for in Z0. rewrite Z0, !app_nil_r.
      now apply track_item_events.
    + cbn [flat_map]. rewrite (proj2 (Z.eqb_neq _ _) NE). cbn [app].
      now apply IH.
Qed.

Lemma track_stolen_other (q q' : Z) (sku_num other : string)
      (sps : list StolenProject) :
  q' <> q \/ other <> sku_num ->
  events_for q' other (track_stolen q sku_num sps) = events_for q' other sps.
Proof.
  intro N. unfold events_for.
  induction sps as [|sp sps IH]; cbn [track_stolen flat_map].
  - cbn [sp_project_id sp_items]. rewrite app_nil_r.
    destruct (Z.eqb_spec q q') as [E|_]; [|reflexivity].
    unfold item_events. cbn.
    destruct (String.eqb_spec sku_num other); [|reflexivity].
    destruct N; congruence.
  - destruct (Z.eqb_spec (sp_project_id sp) q) as [E|NE].
    + cbn [flat_map sp_project_id sp_items]. f_equal.
      destruct (Z.eqb_spec (sp_project_id sp) q') as [E'|_]; [|reflexivity].
      destruct (String.eqb_spec other sku_num) as [Es|Ns].
      * destruct N; congruence.
      * now apply track_item_other.
    + cbn [flat_map]. now rewrite IH.
Qed.

Lemma track_stolen_projects (q r : Z) (sku_num : string)
      (sps : list StolenProject) :
  In r (map sp_project_id (track_stolen q sku_num sps)) ->
  r = q \/ In r (map sp_project_id sps).
Proof.
  induction sps as [|sp sps IH]; cbn [track_stolen map In].
  - intuition.
  - destruct (Z.eqb_spec (sp_project_id sp) q); cbn [map In sp_project_id];
      intuition.
Qed.

Lemma track_stolen_wf (q : Z) (sku_num : string) (sps : list StolenProject) :
  stolen_wf sps -> stolen_wf (track_stolen q sku_num sps).
Proof.
  intros [N F]. induction sps as [|sp sps IH]; cbn [track_stolen].
  - split; repeat constructor; cbn; auto.
  - inversion N as [|? ? Nsp Nsps]; subst.
    inversion F as [|? ? Fsp Fsps]; subst.
    destruct (Z.eqb_spec (sp_project_id sp) q) as [E|NE].
    + split; cbn [map sp_project_id]; [exact N|].
      constructor; [|exact Fsps]. cbn [sp_items]. now apply track_item_nodup.
    + destruct (IH Nsps Fsps) as [N' F'].
      split; cbn [map]; constructor; auto.
      intro I. apply track_stolen_projects in I as [I|I]; congruence.
Qed.

(** Under [stolen_wf] no two visited pairs share their project and sku. *)
Lemma stolen_pairs_distinct (sps : list StolenProject) :
  stolen_wf sps ->
  NoDup (map (fun qe => (fst qe, si_sku_num (snd qe))) (stolen_pairs sps)).
Proof.
  intros [N F]. unfold stolen_pairs.
  induction sps as [|sp sps IH]; cbn [flat_map map]; [constructor|].
  inversion N as [|? ? Nsp Nsps]; subst.
  inversion F as [|? ? Fsp Fsps]; subst.
  rewrite map_app. apply NoDup_app.
  - rewrite map_map. cbn [fst snd].
    clear - Fsp. induction (sp_items sp) as [|d its IHi]; cbn [map];
      [constructor|].
    inversion Fsp as [|? ? Nd Nits]; subst. constructor; [|auto].
    intro I. apply in_map_iff in I as (x & E & Ix).
    assert (Es : si_sku_num x = si_sku_num d) by congruence.
    apply Nd. rewrite <- Es. now apply in_map.
  - now apply IH.
  - intros [r s] I1 I2.
    apply in_map_iff in I1 as ([r1 e1] & E1 & I1). cbn in E1.
    apply in_map_iff in I1 as (x & Ex & _).
    apply in_map_iff in I2 as ([r2 e2] & E2 & I2). cbn in E2.
    apply in_flat_map in I2 as (sp2 & Isp2 & I2).
    apply in_map_iff in I2 as (y & Ey & _).
    assert (Eq : sp_project_id sp2 = sp_project_id sp) by congruence.
    apply Nsp. rewrite <- Eq. now apply in_map.
Qed.

(** ** Alerts *)

Lemma recipient_emails_spec (q : Z) (d : DB) (e : string) :
  In e (recipient_emails q d)
  <-> exists u,
        In u (users d) /\ email u = e
        /\ (is_superuser u = true
            \/ exists up, In up (user_projects d)
                          /\ up_project_id up = q
                          /\ up_user_id up = user_id u).
Proof.
  unfold recipient_emails. rewrite nodup_In, in_app_iff, !in_map_iff.
  split.
  - intros [(u & E & I)|(u & E & I)]; apply filter_In in I as [I F];
      exists u; repeat split; auto.
    right. apply existsb_exists in F as (k & Ik & Ek).
    apply in_map_iff in Ik as (up & Eup & Iup).
    apply filter_In in Iup as [Iup Fq].
    exists up. repeat split; auto; [now apply Z.eqb_eq|].
    apply Z.eqb_eq in Ek. congruence.
  - intros (u & I & E & [S|(up & Iup & Eq & Eu)]).
    + right. exists u. split; [exact E|]. now apply filter_In.
    + left. exists u. split; [exact E|]. apply filter_In. split; [exact I|].
      apply existsb_exists. exists (up_user_id up). split.
      * apply in_map. apply filter_In. split; [exact Iup|now apply Z.eqb_eq].
      * apply Z.eqb_eq. congruence.
Qed.

Section AlertFacts.
Variable dq dh : Z.
Variable log_fails : ItemsU -> bool.
Variable send_fails : EmailMessage -> bool.
Variable host : string.
Variable refresh : Z -> Z -> DB -> result DB.

Local Abbreviation process := (process_unit dq dh log_fails).
Local Abbreviation run := (run_units dq dh log_fails).
Local Abbreviation checkout :=
  (confirm_checkout dq dh log_fails send_fails host refresh).

Lemma send_items_sent (request : Request) (np sp : Project)
      (recipients : list string) (d : DB) (its : list StolenItem)
      (out out' : list EmailMessage) :
  send_items send_fails host request np sp recipients d its out = Ok out' ->
  exists sent,
    out' = out ++ sent
    /\ Forall2 (fun m si => to m = recipients
                            /\ sku m = si_sku_num si
                            /\ adjusted_quantity m = si_quantity si
                            /\ new_project_name m = project_name np
                            /\ stolen_project_name m = project_name sp)
               sent its.
Proof.
  revert out. induction its as [|si its IH]; intro out; cbn [send_items].
  - intro H. inversion H. exists []. now rewrite app_nil_r.
  - unfold bind.
    destruct (objects_get _ (items d)) as [item|] eqn:G; [|discriminate].
    destruct (send_fails _); [discriminate|].
    intro H. apply IH in H as (sent & -> & F).
    eexists (_ :: sent). rewrite <- app_assoc. split; [reflexivity|].
    constructor; [|exact F]. cbn.
    apply objects_get_in in G as [_ E]. apply String.eqb_eq in E.
    repeat split; auto.
Qed.

Lemma send_alerts_sent (request : Request) (np : Project) (d : DB)
      (sps : list StolenProject) (out out' : list EmailMessage) :
  send_alerts send_fails host request np d sps out = Ok out' ->
  exists sent,
    out' = out ++ sent
    /\ Forall2 (alert_matches d np) sent (stolen_pairs sps).
Proof.
  revert out. induction sps as [|sp sps IH]; intro out; cbn [send_alerts].
  - intro H. inversion H. exists []. rewrite app_nil_r. split; [easy|constructor].
  - unfold bind.
    destruct (objects_get _ (projects d)) as [losing|] eqn:G; [|discriminate].
    destruct (send_items _ _ _ _ _ _ _ _ _) as [mid|] eqn:S; [|discriminate].
    intro H. apply IH in H as (sent2 & -> & F2).
    apply send_items_sent in S as (sent1 & -> & F1).
    exists (sent1 ++ sent2). rewrite app_assoc. split; [reflexivity|].
    unfold stolen_pairs. cbn [flat_map]. apply Forall2_app; [|exact F2].
    clear - F1 G. induction F1 as [|m si ms its Hm _ IHF]; cbn [map];
      constructor; [|exact IHF].
    destruct Hm as (Ht & Hs & Hq & Hn & Hl).
    unfold alert_matches. cbn [fst snd]. repeat split; auto.
    exists losing. auto.
Qed.

Lemma process_stolen_wf (p uid : Z) (l l' : Loop) :
  process p l uid = Ok (Continue l') ->
  stolen_wf (stolen_projects l) -> stolen_wf (stolen_projects l').
Proof.
  unfold process_unit, bind.
  repeat match goal with
         | |- context [match ?c with _ => _ end] =>
             destruct c eqn:?; try discriminate
         end;
    intros H W; inversion H; subst; cbn [stolen_projects]; auto.
  now apply track_stolen_wf.
Qed.

Lemma run_stolen_wf (p : Z) (uids : list Z) (l l' : Loop) :
  run p l uids = Ok (Continue l') ->
  stolen_wf (stolen_projects l) -> stolen_wf (stolen_projects l').
Proof.
  revert l. induction uids as [|uid uids IH]; intro l; cbn [run_units bind].
  - intro H. now inversion H.
  - destruct (process p l uid) as [[l1|r d]|e] eqn:E; try discriminate.
    intros H W. apply (IH l1 H). now apply (process_stolen_wf p uid l).
Qed.

Lemma checkout_success_alerts (request : Request) (w w' : World)
      (resp : JsonResponse) (uids : list Z) :
  checkout_session_item_us (session w) = Some uids ->
  checkout request w = Ok (resp, w') ->
  success resp = true ->
  exists (new_project : Project) (l : Loop) (sent : list EmailMessage),
    objects_get (fun x => project_id x =? body_project_id request)
                (projects (db w)) = Ok new_project
    /\ run (body_project_id request) (mkLoop (db w) [] []) uids
       = Ok (Continue l)
    /\ outbox w' = outbox w ++ sent
    /\ Forall2 (alert_matches (l_db l) new_project) sent
               (stolen_pairs (stolen_projects l)).
Proof.
  intros Hs H S.
  unfold confirm_checkout, bind in H. rewrite Hs in H.
  destruct (objects_get _ (projects (db w))) as [np|]; [|discriminate].
  destruct (run _ _ uids) as [[l|r d]|] eqn:R; [| |discriminate].
  - destruct (send_alerts _ _ _ _ _ _ _) as [out|] eqn:A; [|discriminate].
    destruct (recalc_items _ _ _ _) as [d'|]; [|discriminate].
    inversion H; subst. cbn [outbox].
    apply send_alerts_sent in A as (sent & -> & F).
    exists np, l, sent. repeat split; auto.
  - inversion H; subst. apply run_return in R. subst. discriminate.
Qed.

End AlertFacts.

(** ** The quantity ledger *)

Section UpsertFacts.
Context {A : Type}.
Variable pk : A -> Z.

Lemma filter_nil_all (f : A -> bool) (l : list A) :
  filter f l = [] -> forall y, In y l -> f y = false.
Proof.
  intros E y I. destruct (f y) eqn:F; [|reflexivity].
  assert (In y (filter f l)) by now apply filter_In.
  rewrite E in H. destruct H.
Qed.

Lemma filter_all_nil (f : A -> bool) (l : list A) :
  (forall y, In y l -> f y = false) -> filter f l = [].
Proof.
  induction l as [|a l IH]; cbn [filter]; intro H; [reflexivity|].
  rewrite (H a) by now left. apply IH. intros y I. apply H. now right.
Qed.

Lemma find_filter (f : A -> bool) (l : list A) :
  find f l = hd_error (filter f l).
Proof.
  induction l as [|a l IH]; cbn [find filter]; [reflexivity|].
  now destruct (f a).
Qed.

Lemma unique_by_pk (k : Z) (t : list A) (r : A) :
  NoDup (map pk t) ->
  find (fun y => pk y =? k) t = Some r ->
  filter (fun y => pk y =? k) t = [r].
Proof.
  intros N F. apply find_some in F as [I E]. apply Z.eqb_eq in E.
  destruct (split_by_pk pk r t N I) as (t1 & t2 & -> & H1 & H2).
  rewrite filter_app. cbn [filter].
  rewrite (proj2 (Z.eqb_eq _ _) E).
  rewrite !filter_all_nil; [reflexivity| |];
    intros y Iy; apply Z.eqb_neq; rewrite <- E; auto.
Qed.

Lemma upsert_shape (f : A -> bool) (fresh : Z -> A) (t t' : list A)
      (x x' : A) (c : bool) :
  objects_get_or_create pk f fresh t = Ok (x, c, t') ->
  NoDup (map pk t) ->
  (forall k, pk (fresh k) = k) ->
  pk x' = pk x ->
  (c = false
   /\ exists t1 t2,
        t = t1 ++ x :: t2 /\ f x = true
        /\ (forall y, In y t1 -> f y = false)
        /\ (forall y, In y t2 -> f y = false)
        /\ objects_save pk x' t' = t1 ++ x' :: t2)
  \/ (c = true
      /\ x = fresh (next_pk pk t)
      /\ (forall y, In y t -> f y = false)
      /\ objects_save pk x' t' = t ++ [x']).
Proof.
  intros G N Hf E.
  apply get_or_create_cases in G as [(-> & -> & F)|(-> & -> & Ex & F)].
  - left. split; [reflexivity|].
    assert (I : In x (filter f t)) by (rewrite F; now left).
    apply filter_In in I as [I Fx].
    destruct (split_by_pk pk x t N I) as (t1 & t2 & -> & H1 & H2).
    exists t1, t2. rewrite filter_app in F. cbn [filter] in F.
    rewrite Fx in F.
    apply app_eq_unit in F as [[F1 F2]|[_ F2]]; [|discriminate].
    inversion F2 as [F2'].
    split; [reflexivity|]. split; [exact Fx|].
    split; [now apply filter_nil_all|]. split; [now apply filter_nil_all|].
    now apply save_split.
  - right. split; [reflexivity|]. split; [exact Ex|].
    split; [now apply filter_nil_all|].
    assert (Ek : pk x = next_pk pk t) by (rewrite Ex; apply Hf).
    rewrite <- (app_nil_r (t ++ [x'])), <- app_assoc. cbn [app].
    apply save_split; [exact E| |easy].
    intros y I. apply (next_pk_above pk) in I. lia.
Qed.
End UpsertFacts.

Lemma room_of_unique (rs : list Room) (r : Room) :
  NoDup (map room_id rs) -> In r rs -> room_of rs (room_id r) = Some r.
Proof.
  intros N I. unfold room_of. rewrite find_filter.
  destruct (split_by_pk room_id r rs N I) as (t1 & t2 & -> & H1 & H2).
  rewrite filter_app. cbn [filter]. rewrite Z.eqb_refl.
  rewrite filter_all_nil; [reflexivity|].
  intros y Iy. apply Z.eqb_neq. auto.
Qed.

Lemma room_of_app_old (rs extra : list Room) (rid : Z) :
  In rid (map room_id rs) -> room_of (rs ++ extra) rid = room_of rs rid.
Proof.
  unfold room_of. induction rs as [|a rs IH]; cbn [map In find app]; [easy|].
  intros [E|I].
  - now rewrite E, Z.eqb_refl.
  - destruct (room_id a =? rid); auto.
Qed.

Lemma in_project_app_old (rs extra : list Room) (q : Z) (ir : ItemRoom) :
  In (ir_room_id ir) (map room_id rs) ->
  in_project (rs ++ extra) q ir = in_project rs q ir.
Proof.
  intro I. unfold in_project. now rewrite room_of_app_old.
Qed.

(** What [place_in_unassigned] does to the Room and ItemRoom tables: the
    rooms gain at most the new Unassigned room, and one ItemRoom row of
    that room, for the item, is bumped by one or created at one. *)
Lemma place_shape (p : Z) (item : Items) (d d' : DB) :
  ledger_wf d ->
  place_in_unassigned p item d = Ok d' ->
  exists (ur : Room) (extra : list Room) (t1 old t2 : list ItemRoom)
         (x' : ItemRoom),
    rooms d' = rooms d ++ extra
    /\ In ur (rooms d')
    /\ NoDup (map room_id (rooms d'))
    /\ is_unassigned p ur = true
    /\ item_rooms d = t1 ++ old ++ t2
    /\ item_rooms d' = t1 ++ x' :: t2
    /\ NoDup (map ir_id (item_rooms d'))
    /\ ir_item_id x' = item_id item
    /\ ir_room_id x' = room_id ur
    /\ ((exists x, old = [x]
                   /\ ir_item_id x = item_id item
                   /\ ir_room_id x = room_id ur
                   /\ item_quantity x' = item_quantity x + 1
                   /\ all_reserved x' = all_reserved x + 1)
        \/ (old = [] /\ item_quantity x' = 1 /\ all_reserved x' = 1))
    /\ projects d' = projects d
    /\ item_projects d' = item_projects d
    /\ items_u d' = items_u d
    /\ items d' = items d
    /\ users d' = users d
    /\ user_projects d' = user_projects d
    /\ item_logs d' = item_logs d.
Proof.
  intros (Nr & Ni & Np & FK) H.
  unfold place_in_unassigned, bind in H.
  destruct (objects_get_or_create room_id _ _ (rooms d))
    as [[[ur c] rs']|] eqn:GR; [|discriminate].
  destruct (objects_get_or_create ir_id _ _ (item_rooms d))
    as [[[x ci] irs']|] eqn:GI; [|discriminate].
  inversion H as [Hd]. clear H.
  cbn [rooms item_rooms projects item_projects items_u items users
       user_projects item_logs set_rooms set_item_rooms].
  (* rooms *)
  assert (HR : exists extra,
             objects_save room_id ur rs' = rooms d ++ extra
             /\ In ur (rooms d ++ extra)
             /\ NoDup (map room_id (rooms d ++ extra))
             /\ is_unassigned p ur = true).
  { destruct (upsert_shape room_id _ _ _ _ _ ur _ GR Nr (fun k => eq_refl) eq_refl)
      as [(_ & t1 & t2 & Et & Fu & _ & _ & Es)|(_ & Eu & _ & Es)].
    - exists []. rewrite app_nil_r, Es, <- Et.
      repeat split; auto. rewrite Et. apply in_elt.
    - exists [ur]. rewrite Es. repeat split.
      + apply in_or_app. right. now left.
      + apply nodup_keys_insert; [exact Nr|]. now rewrite Eu.
      + rewrite Eu. unfold is_unassigned. cbn. now rewrite Z.eqb_refl. }
  destruct HR as (extra & Es & Iu & Nr' & Fu).
  exists ur, extra. rewrite Es.
  (* item rooms *)
  match goal with
  | |- context [objects_save ir_id ?b irs'] => set (x' := b)
  end.
  assert (Ex' : ir_id x' = ir_id x) by (subst x'; now destruct (negb ci)).
  destruct (upsert_shape ir_id _ _ _ _ _ x' _ GI Ni (fun k => eq_refl) Ex')
    as [(-> & t1 & t2 & Et & Fx & _ & _ & Esv)|(-> & Exf & _ & Esv)].
  - apply andb_prop in Fx as [Fi Fr].
    apply Z.eqb_eq in Fi, Fr.
    exists t1, [x], t2, x'. rewrite Esv. cbn [app].
    repeat split; auto.
    + assert (Em : map ir_id (t1 ++ x' :: t2) = map ir_id (item_rooms d))
        by (rewrite Et, !map_app; cbn [map]; now rewrite Ex').
      now rewrite Em.
    + left. exists x. subst x'. cbn. repeat split; auto.
  - exists (item_rooms d), [], [], x'. rewrite Esv, !app_nil_r.
    assert (Ek : ir_id x' = next_pk ir_id (item_rooms d))
      by (rewrite Ex', Exf; reflexivity).
    repeat split; auto.
    + now apply nodup_keys_insert.
    + subst x'. cbn. now rewrite Exf.
    + subst x'. cbn. now rewrite Exf.
Qed.

Lemma in_project_of_room (rs : list Room) (q : Z) (ir : ItemRoom) (ur : Room) :
  NoDup (map room_id rs) -> In ur rs -> ir_room_id ir = room_id ur ->
  in_project rs q ir = (room_project_id ur =? q).
Proof.
  intros N I E. unfold in_project. rewrite E.
  now rewrite (room_of_unique rs ur N I).
Qed.

Lemma sum_quantity_app (a b : list ItemRoom) :
  sum_quantity (a ++ b) = sum_quantity a + sum_quantity b.
Proof.
  unfold sum_quantity. induction a as [|x a IH]; cbn [app map fold_right]; lia.
Qed.

(** The rows of an (item, project) pair before and after a placement
    differ in one segment only, and only for the placed item in the
    target project, where the segment's quantity grows by one. *)
Lemma place_rows_split (p : Z) (item : Items) (d d' : DB) (i q : Z) :
  ledger_wf d ->
  place_in_unassigned p item d = Ok d' ->
  exists a old_f new_f b,
    item_rooms_of d i q = a ++ old_f ++ b
    /\ item_rooms_of d' i q = a ++ new_f ++ b
    /\ ((i =? item_id item) && (q =? p) = false -> old_f = [] /\ new_f = [])
    /\ ((i =? item_id item) && (q =? p) = true ->
        sum_quantity new_f = sum_quantity old_f + 1).
Proof.
  intros W H.
  destruct (place_shape p item d d' W H)
    as (ur & extra & t1 & old & t2 & x' & Er & Iu & Nr' & Fu & Et & Et' & _
        & Ei & Erm & Hold & _).
  destruct W as (Nr & Ni & Np & FK).
  apply andb_prop in Fu as [Fp _]. apply Z.eqb_eq in Fp.
  set (g := fun ir => (ir_item_id ir =? i) && in_project (rooms d) q ir).
  set (g' := fun ir => (ir_item_id ir =? i) && in_project (rooms d') q ir).
  assert (Hext : forall y, In y (item_rooms d) -> g' y = g y).
  { intros y Iy. unfold g, g'. rewrite Er.
    now rewrite (in_project_app_old _ _ _ _ (FK y Iy)). }
  assert (Hx' : g' x' = (i =? item_id item) && (q =? p)).
  { unfold g'. rewrite (in_project_of_room _ q x' ur Nr' Iu Erm), Ei, Fp.
    now rewrite (Z.eqb_sym (item_id item) i), (Z.eqb_sym p q). }
  exists (filter g t1), (filter g old), (filter g' [x']), (filter g t2).
  split; [|split; [|split]].
  - unfold item_rooms_of. fold g. now rewrite Et, !filter_app.
  - unfold item_rooms_of. fold g'. rewrite Et'.
    change (x' :: t2) with ([x'] ++ t2). rewrite !filter_app.
    f_equal; [|f_equal]; apply filter_ext_in; intros y Iy; apply Hext;
      rewrite Et; apply in_or_app; [left|right; apply in_or_app; right];
      exact Iy.
  - intro B. cbn [filter]. rewrite Hx', B. split; [|reflexivity].
    destruct Hold as [(x & -> & Exi & Exr & _)|(-> & _)]; [|reflexivity].
    cbn [filter].
    rewrite <- (Hext x) by (rewrite Et; apply in_or_app; right; now left).
    unfold g'. rewrite (in_project_of_room _ q x ur Nr' Iu Exr), Exi, Fp.
    now rewrite (Z.eqb_sym (item_id item) i), (Z.eqb_sym p q), B.
  - intro B. cbn [filter]. rewrite Hx', B.
    destruct Hold as [(x & -> & Exi & Exr & Eq & _)|(-> & Eq & _)].
    + cbn [filter].
      rewrite <- (Hext x) by (rewrite Et; apply in_or_app; right; now left).
      unfold g'. rewrite (in_project_of_room _ q x ur Nr' Iu Exr), Exi, Fp.
      rewrite (Z.eqb_sym (item_id item) i), (Z.eqb_sym p q), B.
      unfold sum_quantity. cbn [map fold_right]. lia.
    + unfold sum_quantity. cbn [filter map fold_right]. lia.
Qed.

Lemma place_rows_other (p : Z) (item : Items) (d d' : DB) (i q : Z) :
  ledger_wf d ->
  place_in_unassigned p item d = Ok d' ->
  (i =? item_id item) && (q =? p) = false ->
  item_rooms_of d' i q = item_rooms_of d i q.
Proof.
  intros W H B.
  destruct (place_rows_split p item d d' i q W H)
    as (a & o & n & b & E & E' & H0 & _).
  destruct (H0 B) as [-> ->]. now rewrite E, E'.
Qed.

Lemma place_sum_own (p : Z) (item : Items) (d d' : DB) :
  ledger_wf d ->
  place_in_unassigned p item d = Ok d' ->
  sum_quantity (item_rooms_of d' (item_id item) p)
  = sum_quantity (item_rooms_of d (item_id item) p) + 1.
Proof.
  intros W H.
  destruct (place_rows_split p item d d' (item_id item) p W H)
    as (a & o & n & b & E & E' & _ & H1).
  rewrite E, E', !sum_quantity_app, H1; [lia|].
  now rewrite !Z.eqb_refl.
Qed.

Lemma place_wf (p : Z) (item : Items) (d d' : DB) :
  ledger_wf d -> place_in_unassigned p item d = Ok d' -> ledger_wf d'.
Proof.
  intros W H.
  destruct (place_shape p item d d' W H)
    as (ur & extra & t1 & old & t2 & x' & Er & Iu & Nr' & Fu & Et & Et' & Ni'
        & Ei & Erm & Hold & _ & Eip & _).
  destruct W as (Nr & Ni & Np & FK).
  repeat split; auto; [now rewrite Eip|].
  intros ir I. rewrite Et' in I. apply in_app_or in I as [I|[<-|I]].
  - rewrite Er, map_app. apply in_or_app. left. apply FK. rewrite Et.
    apply in_or_app. now left.
  - rewrite Erm. now apply in_map.
  - rewrite Er, map_app. apply in_or_app. left. apply FK. rewrite Et.
    apply in_or_app. right. apply in_or_app. now right.
Qed.

(** The row a placement writes: the row of the item in the project's
    "Unassigned" room, with its three counters one up, or a new row with
    the three counters at 1. *)
Lemma place_row (p : Z) (item : Items) (d d' : DB) :
  ledger_wf d ->
  place_in_unassigned p item d = Ok d' ->
  exists ur placed,
    In ur (rooms d')
    /\ is_unassigned p ur = true
    /\ In placed (item_rooms d')
    /\ ir_item_id placed = item_id item
    /\ ir_room_id placed = room_id ur
    /\ ((exists x,
           In x (item_rooms d)
           /\ item_room_key (item_id item) (room_id ur) x = true
           /\ placed = mkItemRoom (ir_id x) (ir_item_id x) (ir_room_id x)
                                  (item_quantity x + 1)
                                  (item_quantity_holder x + 1)
                                  (all_reserved x + 1))
        \/ ((forall x, In x (item_rooms d) ->
                       item_room_key (item_id item) (room_id ur) x = false)
            /\ item_quantity placed = 1
            /\ item_quantity_holder placed = 1
            /\ all_reserved placed = 1)).
Proof.
  intros (Nr & Ni & Np & FK) H.
  unfold place_in_unassigned, bind in H.
  destruct (objects_get_or_create room_id _ _ (rooms d))
    as [[[ur c] rs']|] eqn:GR; [|discriminate].
  destruct (objects_get_or_create ir_id _ _ (item_rooms d))
    as [[[x ci] irs']|] eqn:GI; [|discriminate].
  inversion H as [Hd]. clear H.
  cbn [rooms item_rooms set_rooms set_item_rooms].
  assert (Hur : In ur (objects_save room_id ur rs')
                /\ is_unassigned p ur = true).
  { apply get_or_create_cases in GR as [(_ & -> & F)|(_ & -> & Eu & _)].
    - assert (I : In ur (filter (is_unassigned p) (rooms d)))
        by (rewrite F; now left).
      apply filter_In in I as [I U]. split; [|exact U].
      now apply (in_save_self room_id ur ur).
    - split.
      + apply (in_save_self room_id ur ur); [|reflexivity].
        apply in_or_app. right. now left.
      + rewrite Eu. unfold is_unassigned. cbn. now rewrite Z.eqb_refl. }
  destruct Hur as [Iur Uur].
  exists ur.
  apply get_or_create_cases in GI as [(-> & -> & F)|(-> & -> & Ex & F)];
    cbn [negb].
  - assert (I : In x (filter (fun ir => (ir_item_id ir =? item_id item)
                                        && (ir_room_id ir =? room_id ur))
                             (item_rooms d)))
      by (rewrite F; now left).
    apply filter_In in I as [I Kx]. pose proof Kx as Kx'.
    apply andb_prop in Kx' as [Ki Kr]. apply Z.eqb_eq in Ki, Kr.
    eexists. split; [exact Iur|]. split; [exact Uur|].
    split; [apply (in_save_self ir_id _ x); [exact I|reflexivity]|].
    split; [exact Ki|]. split; [exact Kr|].
    left. exists x. auto.
  - eexists. split; [exact Iur|]. split; [exact Uur|].
    split; [apply (in_save_self ir_id _ x);
            [apply in_or_app; right; now left|reflexivity]|].
    rewrite Ex. cbn. split; [reflexivity|]. split; [reflexivity|].
    right. split; [|auto].
    intros y Iy. exact (filter_nil_all _ _ F y Iy).
Qed.

Lemma place_total (p : Z) (item : Items) (d : DB) :
  natural_keys d -> exists d', place_in_unassigned p item d = Ok d'.
Proof.
  intros (Kr & Ki & _). unfold place_in_unassigned, bind.
  destruct (get_or_create_total room_id (is_unassigned p)
              (fun k => mkRoom k p "Unassigned" "Auto-created unassigned room")
              (rooms d) (Kr p)) as (ur & c & rs & ->).
  destruct (get_or_create_total ir_id
              (fun ir => (ir_item_id ir =? item_id item)
                         && (ir_room_id ir =? room_id ur))
              (fun k => mkItemRoom k (item_id item) (room_id ur) 0 0 0)
              (item_rooms d) (Ki (item_id item) (room_id ur)))
    as (x & ci & irs & ->).
  eexists. reflexivity.
Qed.

Lemma item_project_key_other (i p i' p' : Z) (ip : ItemProject) :
  item_project_key i p ip = true ->
  (i' =? i) && (p' =? p) = false ->
  item_project_key i' p' ip = false.
Proof.
  unfold item_project_key. intros K B.
  apply andb_prop in K as [Ki Kp]. apply Z.eqb_eq in Ki, Kp.
  rewrite Ki, Kp, (Z.eqb_sym i i'), (Z.eqb_sym p p'). exact B.
Qed.

Section SyncFacts.
Variable dq dh : Z.

Local Abbreviation sync := (sync_item_project dq dh).

(** [sync_item_project] rewrites one ItemProject row, the one of its
    (item, project) pair, and sets it to the sum over the ItemRoom rows. *)
Lemma sync_effect (i p : Z) (d d' : DB) :
  NoDup (map ip_id (item_projects d)) ->
  sync i p d = Ok d' ->
  NoDup (map ip_id (item_projects d'))
  /\ cached_reserved d' i p = Ok (sum_quantity (item_rooms_of d i p))
  /\ (forall i' p', (i' =? i) && (p' =? p) = false ->
                    filter (item_project_key i' p') (item_projects d')
                    = filter (item_project_key i' p') (item_projects d))
  /\ rooms d' = rooms d
  /\ item_rooms d' = item_rooms d
  /\ projects d' = projects d
  /\ items_u d' = items_u d
  /\ items d' = items d
  /\ users d' = users d
  /\ user_projects d' = user_projects d
  /\ item_logs d' = item_logs d.
Proof.
  intros N H. unfold sync_item_project, bind in H.
  destruct (objects_get_or_create ip_id _ _ (item_projects d))
    as [[[ip c] ips]|] eqn:G; [|discriminate].
  inversion H as [Hd]. clear H.
  cbn [rooms item_rooms projects item_projects items_u items users
       user_projects item_logs set_item_projects].
  match goal with
  | |- context [objects_save ip_id ?b ips] => set (ip' := b)
  end.
  assert (Eid : ip_id ip' = ip_id ip) by reflexivity.
  assert (S : exists t1 old t2,
             item_projects d = t1 ++ old ++ t2
             /\ objects_save ip_id ip' ips = t1 ++ ip' :: t2
             /\ item_project_key i p ip' = true
             /\ (forall y, In y (t1 ++ t2) -> item_project_key i p y = false)
             /\ (forall y, In y old -> item_project_key i p y = true)
             /\ map ip_id (t1 ++ ip' :: t2)
                = map ip_id (item_projects d)
                  ++ match old with [] => [next_pk ip_id (item_projects d)]
                                  | _ => [] end
             /\ (List.length old <= 1)%nat).
  { destruct (upsert_shape ip_id _ _ _ _ _ ip' _ G N (fun k => eq_refl) Eid)
      as [(_ & t1 & t2 & Et & Fx & F1 & F2 & Es)|(_ & Ex & Fa & Es)].
    - exists t1, [ip], t2. rewrite Es. cbn [app].
      repeat split; auto.
      + intros y Iy. apply in_app_or in Iy as [Iy|Iy];
          [apply F1|apply F2]; exact Iy.
      + intros y [<-|[]]. exact Fx.
      + rewrite Et, app_nil_r, !map_app. cbn [map]. now rewrite Eid.
    - exists (item_projects d), [], []. rewrite Es, !app_nil_r.
      repeat split; auto.
      + subst ip'. rewrite Ex. unfold item_project_key. cbn.
        now rewrite !Z.eqb_refl.
      + rewrite map_app. cbn [map]. now rewrite Eid, Ex. }
  destruct S as (t1 & old & t2 & Et & Es & Kx & Ko & Kold & Em & Lold).
  rewrite Es. split; [|split; [|split]]; auto 20.
  - rewrite Em. destruct old; [|now rewrite app_nil_r].
    pose proof (nodup_keys_insert ip_id
                  (mkItemProject (next_pk ip_id (item_projects d)) 0 0 0 0 0)
                  (item_projects d) N eq_refl) as Hn.
    rewrite map_app in Hn. exact Hn.
  - unfold cached_reserved, bind.
    assert (F : filter (item_project_key i p) (t1 ++ ip' :: t2) = [ip']).
    { change (ip' :: t2) with ([ip'] ++ t2). rewrite !filter_app.
      cbn [filter]. rewrite Kx.
      rewrite !filter_all_nil; [reflexivity| |]; intros y Iy; apply Ko;
        apply in_or_app; auto. }
    cbn [item_projects set_item_projects].
    now rewrite (filter_get _ _ _ F).
  - intros i' p' B.
    rewrite Et. change (ip' :: t2) with ([ip'] ++ t2). rewrite !filter_app.
    f_equal. f_equal.
    cbn [filter]. rewrite (item_project_key_other i p i' p' ip' Kx B).
    symmetry. apply filter_all_nil. intros y Iy.
    apply (item_project_key_other i p); auto.
Qed.

Lemma sync_total (i p : Z) (d : DB) :
  (List.length (filter (item_project_key i p) (item_projects d)) <= 1)%nat ->
  exists d', sync i p d = Ok d'.
Proof.
  intro K. unfold sync_item_project, bind.
  destruct (get_or_create_total ip_id (item_project_key i p)
              (fun k => mkItemProject k i p 0 dq dh) (item_projects d) K)
    as (ip & c & ips & E).
  unfold item_project_key in E. rewrite E. eexists. reflexivity.
Qed.
End SyncFacts.

Lemma filter_comm {A : Type} (f g : A -> bool) (l : list A) :
  filter f (filter g l) = filter g (filter f l).
Proof.
  induction l as [|a l IH]; cbn [filter]; [reflexivity|].
  destruct (f a) eqn:F, (g a) eqn:G; cbn [filter]; rewrite ?F, ?G, IH;
    reflexivity.
Qed.

Lemma filter_all_true {A : Type} (f : A -> bool) (l : list A) :
  Forall (fun x => f x = true) l -> filter f l = l.
Proof.
  induction 1 as [|a l Ha _ IH]; cbn [filter]; [reflexivity|].
  now rewrite Ha, IH.
Qed.

(** The per-iteration delete of line 66 keeps the rows of a project whose
    quantities are all positive. *)
Lemma prune_quantity_rows (d : DB) (i q : Z) :
  Forall (fun ir => 1 <= item_quantity ir) (item_rooms_of d i q) ->
  item_rooms_of
    (set_item_rooms
       (filter_delete (fun ir => item_quantity ir <? 1) (item_rooms d)) d) i q
  = item_rooms_of d i q.
Proof.
  intro F. unfold item_rooms_of, filter_delete.
  cbn [item_rooms rooms set_item_rooms].
  rewrite filter_comm. apply filter_all_true.
  eapply Forall_impl; [|exact F]. cbn. intros ir H.
  destruct (Z.ltb_spec (item_quantity ir) 1); [lia|reflexivity].
Qed.

Lemma prune_quantity_wf (d : DB) :
  ledger_wf d ->
  ledger_wf
    (set_item_rooms
       (filter_delete (fun ir => item_quantity ir <? 1) (item_rooms d)) d).
Proof.
  intros (Nr & Ni & Np & FK). unfold ledger_wf, filter_delete.
  cbn [item_rooms rooms item_projects set_item_rooms].
  repeat split; auto.
  - now apply nodup_keys_filter.
  - intros ir I. apply filter_In in I as [I _]. auto.
Qed.

Lemma first_match_prefix {A : Type} (pk : A -> Z) (g : A -> bool)
      (t1 l : list A) (x : A) :
  find g (t1 ++ l) = Some x ->
  (forall y, In y t1 -> pk y <> pk x) ->
  filter g t1 = [].
Proof.
  induction t1 as [|a t1 IH]; cbn [app find filter]; intros F H; [reflexivity|].
  destruct (g a).
  - inversion F; subst. exfalso. now apply (H x); [left|].
  - apply IH; [exact F|]. intros y I. apply H. now right.
Qed.

Section BackOutFacts.
Variable dq dh : Z.

Local Abbreviation back_out := (back_out_previous dq dh).

(** The compensation on the losing project when it holds a row for the
    item: its first row loses one unit (and is deleted at zero), and the
    cached reserved quantity follows the new sum. *)
Lemma back_out_effect (item : Items) (q : Z) (d : DB) (losing : Project) :
  ledger_wf d ->
  objects_get (fun x => project_id x =? q) (projects d) = Ok losing ->
  (List.length (filter (item_project_key (item_id item) q) (item_projects d))
   <= 1)%nat ->
  item_rooms_of d (item_id item) q <> [] ->
  Forall (fun ir => 1 <= item_quantity ir) (item_rooms_of d (item_id item) q) ->
  exists d',
    back_out item q d = Ok d'
    /\ cached_reserved d' (item_id item) q
       = Ok (sum_quantity (item_rooms_of d (item_id item) q) - 1)
    /\ sum_quantity (item_rooms_of d' (item_id item) q)
       = sum_quantity (item_rooms_of d (item_id item) q) - 1
    /\ (forall i' p', (i' =? item_id item) && (p' =? q) = false ->
                      filter (item_project_key i' p') (item_projects d')
                      = filter (item_project_key i' p') (item_projects d))
    /\ projects d' = projects d
    /\ items_u d' = items_u d
    /\ items d' = items d
    /\ users d' = users d
    /\ user_projects d' = user_projects d
    /\ item_logs d' = item_logs d
    /\ exists x rest,
         item_rooms_of d (item_id item) q = x :: rest
         /\ item_rooms_of d' (item_id item) q
            = (if item_quantity x - 1 <? 1 then rest
               else mkItemRoom (ir_id x) (ir_item_id x) (ir_room_id x)
                      (item_quantity x - 1) (item_quantity_holder x - 1)
                      (all_reserved x - 1) :: rest)
         /\ rooms d' = rooms d
         /\ (forall y, In y (item_rooms d) -> ir_id y <> ir_id x ->
                       In y (item_rooms d')).
Proof.
  intros (Nr & Ni & Np & FK) Gp K Ne Pos.
  set (g := fun ir => (ir_item_id ir =? item_id item)
                      && in_project (rooms d) q ir).
  assert (Hx : exists x rest,
             objects_first g (item_rooms d) = Some x
             /\ In x (item_rooms_of d (item_id item) q)
             /\ item_rooms_of d (item_id item) q = x :: rest).
  { unfold objects_first. rewrite find_filter.
    change (filter g (item_rooms d)) with (item_rooms_of d (item_id item) q).
    destruct (item_rooms_of d (item_id item) q) as [|x r]; [easy|].
    exists x, r. split; [reflexivity|]. split; [now left|reflexivity]. }
  destruct Hx as (x & rest & Fx & Ix & Erows).
  assert (Px : 1 <= item_quantity x)
    by (rewrite Forall_forall in Pos; now apply Pos).
  apply filter_In in Ix as [Ix Gx]. change (g x = true) in Gx.
  destruct (split_by_pk ir_id x (item_rooms d) Ni Ix) as (t1 & t2 & Et & H1 & H2).
  pose proof Gx as Gx'. unfold g in Gx'. apply andb_prop in Gx' as [Gi Gq].
  unfold in_project in Gq.
  destruct (room_of (rooms d) (ir_room_id x)) as [r|] eqn:Er; [|discriminate].
  apply Z.eqb_eq in Gq.
  pose proof (unique_by_pk room_id _ _ _ Nr Er) as Ur.
  apply filter_get in Ur.
  destruct (objects_get_in _ _ _ Gp) as [_ Eq]. apply Z.eqb_eq in Eq.
  set (x' := mkItemRoom (ir_id x) (ir_item_id x) (ir_room_id x)
                        (item_quantity x - 1) (item_quantity_holder x - 1)
                        (all_reserved x - 1)).
  set (irs' := if item_quantity x' <? 1 then t1 ++ t2 else t1 ++ x' :: t2).
  set (da := set_item_rooms irs' d).
  assert (Hs : sum_quantity (item_rooms_of da (item_id item) q)
               = sum_quantity (item_rooms_of d (item_id item) q) - 1).
  { unfold item_rooms_of, da. cbn [item_rooms rooms set_item_rooms].
    fold g. rewrite Et. subst irs'.
    change (x :: t2) with ([x] ++ t2). rewrite !filter_app, !sum_quantity_app.
    cbn [filter]. rewrite Gx.
    destruct (Z.ltb_spec (item_quantity x') 1) as [L|L]; cbn [item_quantity x'] in L.
    - rewrite filter_app, sum_quantity_app.
      assert (S1 : sum_quantity [x] = item_quantity x)
        by (unfold sum_quantity; cbn [map fold_right]; lia).
      lia.
    - change (x' :: t2) with ([x'] ++ t2).
      rewrite !filter_app, !sum_quantity_app. cbn [filter].
      replace (g x') with true by (symmetry; exact Gx).
      assert (S1 : sum_quantity [x] = item_quantity x)
        by (unfold sum_quantity; cbn [map fold_right]; lia).
      assert (S2 : sum_quantity [x'] = item_quantity x - 1)
        by (unfold sum_quantity; cbn [map fold_right item_quantity x']; lia).
      lia. }
  assert (Kda : (List.length (filter (item_project_key (item_id item) q)
                                     (item_projects da)) <= 1)%nat) by exact K.
  destruct (sync_total dq dh (item_id item) q da Kda) as (d' & Sd).
  destruct (sync_effect dq dh (item_id item) q da d' Np Sd)
    as (_ & Hc & Ho & Er' & Ei' & Fp & Fu & Fi & Fus & Fup & Fl).
  exists d'. split.
  - unfold back_out_previous. fold g. rewrite Fx. fold x'.
    assert (Ed : (if item_quantity x' <? 1
                  then set_item_rooms (objects_delete ir_id x' (item_rooms d)) d
                  else set_item_rooms (objects_save ir_id x' (item_rooms d)) d)
                 = da).
    { unfold da, irs'. rewrite Et.
      rewrite (delete_split ir_id x x' t1 t2 eq_refl H1 H2).
      rewrite (save_split ir_id x x' t1 t2 eq_refl H1 H2).
      now destruct (item_quantity x' <? 1). }
    rewrite Ed. cbn [ir_room_id x'].
    change (rooms da) with (rooms d). rewrite Ur. cbn [bind].
    change (projects da) with (projects d). rewrite Gq, Gp. cbn [bind].
    rewrite Eq. exact Sd.
  - rewrite Hc, Hs.
    split; [reflexivity|]. split; [unfold item_rooms_of; rewrite Er', Ei'; exact Hs|].
    do 7 (split; [auto|]).
    exists x, rest. split; [exact Erows|].
    assert (G1 : filter g t1 = []).
    { apply (first_match_prefix ir_id g t1 (x :: t2) x); [|exact H1].
      unfold objects_first in Fx. now rewrite <- Et. }
    assert (G2 : filter g t2 = rest).
    { unfold item_rooms_of in Erows. fold g in Erows. rewrite Et in Erows.
      rewrite filter_app, G1 in Erows. cbn [app filter] in Erows.
      rewrite Gx in Erows. now inversion Erows. }
    split; [|split; [exact Er'|]].
    + unfold item_rooms_of. rewrite Er', Ei'.
      unfold da. cbn [item_rooms rooms set_item_rooms]. fold g. unfold irs'.
      cbn [item_quantity x'].
      destruct (item_quantity x - 1 <? 1).
      * now rewrite filter_app, G1, G2.
      * rewrite filter_app, G1. cbn [app filter].
        replace (g x') with true by (symmetry; exact Gx).
        now rewrite G2.
    + intros y Iy Ny. rewrite Ei'. unfold da. cbn [item_rooms set_item_rooms].
      unfold irs'. rewrite Et in Iy.
      apply in_app_or in Iy as [Iy|[Iy|Iy]]; [|congruence|];
        destruct (item_quantity x' <? 1); apply in_or_app; auto.
      right. now right.
Qed.

End BackOutFacts.

Lemma cached_reserved_filter (d d' : DB) (i p : Z) :
  filter (item_project_key i p) (item_projects d')
  = filter (item_project_key i p) (item_projects d) ->
  cached_reserved d' i p = cached_reserved d i p.
Proof. unfold cached_reserved, objects_get. now intros ->. Qed.

Lemma item_rooms_of_ext (d d' : DB) (i p : Z) :
  rooms d' = rooms d -> item_rooms d' = item_rooms d ->
  item_rooms_of d' i p = item_rooms_of d i p.
Proof. unfold item_rooms_of. now intros -> ->. Qed.

Section StealFacts.
Variable dq dh : Z.
Variable log_fails : ItemsU -> bool.

Local Abbreviation process := (process_unit dq dh log_fails).
Local Abbreviation mark := (log_and_mark log_fails).

(** The ledger part of the first branch (lines 33-66) for a unit of
    [item] entering project [p]. *)
Lemma take_in_effect (p : Z) (item : Items) (d : DB) :
  ledger_wf d -> natural_keys d ->
  exists d1 d2,
    place_in_unassigned p item d = Ok d1
    /\ sync_item_project dq dh (item_id item) p d1 = Ok d2
    /\ ledger_wf d2
    /\ cached_reserved d2 (item_id item) p
       = Ok (sum_quantity (item_rooms_of d (item_id item) p) + 1)
    /\ (forall i' q, (i' =? item_id item) && (q =? p) = false ->
                     item_rooms_of d2 i' q = item_rooms_of d i' q
                     /\ filter (item_project_key i' q) (item_projects d2)
                        = filter (item_project_key i' q) (item_projects d))
    /\ projects d2 = projects d
    /\ items_u d2 = items_u d
    /\ items d2 = items d
    /\ users d2 = users d
    /\ user_projects d2 = user_projects d.
Proof.
  intros W K.
  destruct (place_total p item d K) as (d1 & P1).
  pose proof (place_wf p item d d1 W P1) as W1.
  destruct (place_shape p item d d1 W P1)
    as (? & ? & ? & ? & ? & ? & _ & _ & _ & _ & _ & _ & _ & _ & _ & _
        & Fp & Fip & Fu & Fi & Fus & Fup & _).
  destruct K as (_ & _ & Kp).
  assert (K1 : (List.length (filter (item_project_key (item_id item) p)
                                    (item_projects d1)) <= 1)%nat)
    by (rewrite Fip; apply Kp).
  destruct (sync_total dq dh (item_id item) p d1 K1) as (d2 & S2).
  destruct W1 as (Nr1 & Ni1 & Np1 & FK1).
  destruct (sync_effect dq dh (item_id item) p d1 d2 Np1 S2)
    as (Np2 & Hc & Ho & Er & Ei & Gp & Gu & Gi & Gus & Gup & _).
  exists d1, d2. split; [exact P1|]. split; [exact S2|].
  split; [|split; [|split]].
  - unfold ledger_wf. rewrite Er, Ei. auto.
  - rewrite Hc. f_equal. now apply place_sum_own.
  - intros i' q B. split.
    + rewrite (item_rooms_of_ext d1 d2 i' q Er Ei).
      now apply (place_rows_other p item).
    + rewrite (Ho i' q B). now rewrite Fip.
  - repeat split; congruence.
Qed.

(** C2, as the code has it: a unit of item X reserved on project Q and
    claimed by another project P, when Q holds at least one ItemRoom row
    for X and Q's rows for X have positive quantities.  The iteration
    returns normally; the reserved quantity cached for (X, Q) becomes the
    sum over Q's rows before, less one, and the one cached for (X, P) the
    sum over P's rows before, plus one (so each moves by one when it was in
    sync); the stolen-reservation list holds a single entry for (Q, sku),
    whose quantity is one more than what was recorded before; the unit ends
    checked out to P.  Q's rows for X are the ones it had, but for the
    first: its three counters are one down, and it is gone when its
    quantity falls below 1.  The row of X in P's "Unassigned" room has its
    three counters one up, or is new with the three counters at 1; it is
    in the table unless its quantity is below 1. *)
Theorem cross_project_steal :
  forall (p q uid : Z) (l : Loop) (item_u : ItemsU) (item : Items)
         (losing : Project),
    objects_get (fun u => item_u_id u =? uid) (items_u (l_db l)) = Ok item_u ->
    objects_get (fun i => item_id i =? iu_item_id item_u) (items (l_db l))
    = Ok item ->
    stage item_u = "r" ->
    iu_project_id item_u = Some q ->
    q <> p ->
    ledger_wf (l_db l) ->
    natural_keys (l_db l) ->
    objects_get (fun x => project_id x =? q) (projects (l_db l)) = Ok losing ->
    item_rooms_of (l_db l) (item_id item) q <> [] ->
    Forall (fun ir => 1 <= item_quantity ir)
           (item_rooms_of (l_db l) (item_id item) q) ->
    stolen_wf (stolen_projects l) ->
    exists l',
      process p l uid = Ok (Continue l')
      /\ cached_reserved (l_db l') (item_id item) q
         = Ok (sum_quantity (item_rooms_of (l_db l) (item_id item) q) - 1)
      /\ cached_reserved (l_db l') (item_id item) p
         = Ok (sum_quantity (item_rooms_of (l_db l) (item_id item) p) + 1)
      /\ (forall r, cached_reserved (l_db l) (item_id item) q = Ok r ->
                    r = sum_quantity (item_rooms_of (l_db l) (item_id item) q) ->
                    cached_reserved (l_db l') (item_id item) q = Ok (r - 1))
      /\ (forall r, cached_reserved (l_db l) (item_id item) p = Ok r ->
                    r = sum_quantity (item_rooms_of (l_db l) (item_id item) p) ->
                    cached_reserved (l_db l') (item_id item) p = Ok (r + 1))
      /\ stolen_projects l'
         = track_stolen q (sku_num item) (stolen_projects l)
      /\ events_for q (sku_num item) (stolen_projects l')
         = [1 + fold_right Z.add 0
                  (events_for q (sku_num item) (stolen_projects l))]
      /\ objects_get (fun u => item_u_id u =? uid) (items_u (l_db l'))
         = Ok (mkItemsU uid (iu_item_id item_u) "c" (Some p))
      /\ (exists previous_item_room rest,
            item_rooms_of (l_db l) (item_id item) q
            = previous_item_room :: rest
            /\ item_rooms_of (l_db l') (item_id item) q
               = (if item_quantity previous_item_room - 1 <? 1 then rest
                  else mkItemRoom (ir_id previous_item_room)
                         (ir_item_id previous_item_room)
                         (ir_room_id previous_item_room)
                         (item_quantity previous_item_room - 1)
                         (item_quantity_holder previous_item_room - 1)
                         (all_reserved previous_item_room - 1) :: rest))
      /\ (exists unassigned_room item_room,
            In unassigned_room (rooms (l_db l'))
            /\ is_unassigned p unassigned_room = true
            /\ ir_item_id item_room = item_id item
            /\ ir_room_id item_room = room_id unassigned_room
            /\ (1 <= item_quantity item_room ->
                In item_room (item_rooms (l_db l')))
            /\ ((exists x,
                   In x (item_rooms (l_db l))
                   /\ item_room_key (item_id item) (room_id unassigned_room) x
                      = true
                   /\ item_room
                      = mkItemRoom (ir_id x) (ir_item_id x) (ir_room_id x)
                                   (item_quantity x + 1)
                                   (item_quantity_holder x + 1)
                                   (all_reserved x + 1))
                \/ ((forall x, In x (item_rooms (l_db l)) ->
                               item_room_key (item_id item)
                                             (room_id unassigned_room) x
                               = false)
                    /\ item_quantity item_room = 1
                    /\ item_quantity_holder item_room = 1
                    /\ all_reserved item_room = 1))).
Proof.
  intros p q uid l item_u item losing Gu Gi Hs Hp Nqp W K Gq Ne Pos Wf.
  set (d := l_db l) in *.
  destruct (take_in_effect p item d W K)
    as (d1 & d2 & P1 & S2 & W2 & Cp & Oth & Fp & Fu & Fi & _).
  pose proof (place_wf p item d d1 W P1) as (_ & _ & Np1 & _).
  destruct (sync_effect dq dh (item_id item) p d1 d2 Np1 S2)
    as (_ & _ & _ & Er12 & Ei12 & _).
  assert (B : (item_id item =? item_id item) && (q =? p) = false).
  { apply andb_false_intro2. now apply Z.eqb_neq. }
  destruct (Oth _ _ B) as [Rq Kq].
  set (d3 := set_item_rooms
               (filter_delete (fun ir => item_quantity ir <? 1) (item_rooms d2))
               d2).
  assert (Pos2 : Forall (fun ir => 1 <= item_quantity ir)
                        (item_rooms_of d2 (item_id item) q))
    by now rewrite Rq.
  pose proof (prune_quantity_rows d2 (item_id item) q Pos2) as R3.
  fold d3 in R3.
  pose proof (prune_quantity_wf d2 W2) as W3. fold d3 in W3.
  assert (K3 : (List.length (filter (item_project_key (item_id item) q)
                                    (item_projects d3)) <= 1)%nat).
  { change (item_projects d3) with (item_projects d2). rewrite Kq.
    destruct K as (_ & _ & Kp). apply Kp. }
  assert (G3 : objects_get (fun x => project_id x =? q) (projects d3) = Ok losing)
    by (change (projects d3) with (projects d2); now rewrite Fp).
  assert (Ne3 : item_rooms_of d3 (item_id item) q <> [])
    by now rewrite R3, Rq.
  assert (Pos3 : Forall (fun ir => 1 <= item_quantity ir)
                        (item_rooms_of d3 (item_id item) q))
    by now rewrite R3.
  destruct (back_out_effect dq dh item q d3 losing W3 G3 K3 Ne3 Pos3)
    as (d4 & B4 & Cq & _ & Oth4 & _ & Fu4 & _ & _ & _ & _
        & x & rest & Erows & Erows' & Fr4 & Keep4).
  set (d5 := set_items (objects_save item_id item (items d4)) d4).
  destruct (log_and_mark_ledger log_fails p item_u d5)
    as (_ & Mr & Mir & Mip & _).
  exists (mkLoop (mark p item_u d5)
                 (track_stolen q (sku_num item) (stolen_projects l))
                 (item_id_list l ++ [iu_item_id item_u])).
  assert (Cq' : cached_reserved (mark p item_u d5) (item_id item) q
                = Ok (sum_quantity (item_rooms_of d (item_id item) q) - 1)).
  { rewrite <- Rq, <- R3, <- Cq. apply cached_reserved_filter.
    rewrite Mip. reflexivity. }
  assert (Cp' : cached_reserved (mark p item_u d5) (item_id item) p
                = Ok (sum_quantity (item_rooms_of d (item_id item) p) + 1)).
  { rewrite <- Cp. apply cached_reserved_filter.
    rewrite Mip.
    change (item_projects d5) with (item_projects d4).
    rewrite Oth4; [reflexivity|].
    apply andb_false_intro2. apply Z.eqb_neq. congruence. }
  cbn [l_db stolen_projects].
  split; [|split; [exact Cq'|split; [exact Cp'|split; [|split; [|split; [|split;
           [|split; [|split]]]]]]]].
  - unfold process_unit. fold d. rewrite Gu. cbn [bind]. rewrite Gi.
    cbn [bind]. unfold reserved_elsewhere. rewrite Hs, Hp.
    replace (q =? p) with false by (symmetry; now apply Z.eqb_neq).
    cbn [String.eqb Ascii.eqb Bool.eqb negb orb bind].
    rewrite P1. cbn [bind]. rewrite S2. cbn [bind].
    fold d3. rewrite B4. cbn [bind]. reflexivity.
  - intros r _ ->. exact Cq'.
  - intros r _ ->. exact Cp'.
  - reflexivity.
  - now apply track_stolen_events.
  - apply log_and_mark_unit.
    change (items_u d5) with (items_u d4). rewrite Fu4.
    change (items_u d3) with (items_u d2). now rewrite Fu.
  - exists x, rest. split; [now rewrite <- Rq, <- R3|].
    rewrite (item_rooms_of_ext d5 (mark p item_u d5) _ _ Mr Mir).
    exact Erows'.
  - destruct (place_row p item d d1 W P1)
      as (ur & placed & Iur & Uur & Ipl & Ei & Er & Hcase).
    assert (Iur3 : In ur (rooms d3))
      by (change (rooms d3) with (rooms d2); now rewrite Er12).
    exists ur, placed. split; [|split; [exact Uur|split; [exact Ei|
                                split; [exact Er|split; [|exact Hcase]]]]].
    + rewrite Mr. change (rooms d5) with (rooms d4). now rewrite Fr4.
    + intro Q1. rewrite Mir. change (item_rooms d5) with (item_rooms d4).
      assert (I3 : In placed (item_rooms d3)).
      { unfold d3, filter_delete. cbn [item_rooms set_item_rooms].
        apply filter_In. split; [now rewrite Ei12|].
        destruct (Z.ltb_spec (item_quantity placed) 1); [lia|reflexivity]. }
      apply Keep4; [exact I3|]. intro Eid.
      assert (Ix : In x (item_rooms_of d3 (item_id item) q))
        by (rewrite Erows; now left).
      unfold item_rooms_of in Ix. apply filter_In in Ix as [Ix Gx].
      destruct W3 as (Nr3 & Ni3 & _).
      assert (placed = x) by now apply (nodup_pk_inj ir_id (item_rooms d3)).
      subst x. apply andb_prop in Gx as [_ Gx].
      rewrite (in_project_of_room _ q placed ur Nr3 Iur3 Er) in Gx.
      apply andb_prop in Uur as [Up _]. apply Z.eqb_eq in Up, Gx. congruence.
Qed.
End StealFacts.

(** ** The sample stores are well formed *)

Ltac nodup_keys :=
  repeat constructor; cbn; intuition (try discriminate; try lia).

Opaque Z.eqb.

Lemma store0_wf : ledger_wf store0.
Proof.
  unfold ledger_wf. cbn.
  split; [nodup_keys|]. split; [nodup_keys|]. split; [nodup_keys|].
  intros ir [<-|[<-|[]]]; cbn; auto.
Qed.

Lemma store0_keys : natural_keys store0.
Proof.
  unfold natural_keys, is_unassigned, item_room_key, item_project_key. cbn.
  repeat split.
  - intro p. destruct (2 =? p); cbn; lia.
  - intros i r. destruct (Z.eqb_spec 10 i), (Z.eqb_spec 11 i);
      destruct (5 =? r); cbn; lia.
  - intros i p. destruct (Z.eqb_spec 10 i), (Z.eqb_spec 11 i);
      destruct (2 =? p); cbn; lia.
Qed.



Transparent Z.eqb.

(** C2 at a concrete store: unit 100 of item 10 is reserved on project 2,
    which holds two units of the item, and project 1 claims it. *)
Lemma cross_project_steal_witness :
  exists l',
    process0 1 (mkLoop store0 [] []) 100 = Ok (Continue l')
    /\ cached_reserved (l_db l') 10 2 = Ok (2 - 1)
    /\ cached_reserved (l_db l') 10 1 = Ok (0 + 1)
    /\ stolen_projects l' = [mkStolenProject 2 [mkStolenItem "SKU-X" 1]]
    /\ objects_get (fun u => item_u_id u =? 100) (items_u (l_db l'))
       = Ok (mkItemsU 100 10 "c" (Some 1))
    /\ item_rooms_of (l_db l') 10 2 = [mkItemRoom 1 10 5 1 1 1].
Proof.
  destruct (cross_project_steal 0 0 (@never ItemsU) 1 2 100
              (mkLoop store0 [] []) (mkItemsU 100 10 "r" (Some 2)) item_x
              (mkProject 2 "Beta" None))
    as (l' & P & Cq & Cp & _ & _ & St & _ & U & Rows & Placed);
    try reflexivity; try exact store0_wf; try exact store0_keys.
  - lia.
  - cbn. discriminate.
  - cbn. repeat constructor; cbn; lia.
  - split; constructor.
  - exists l'. repeat split; auto.
    destruct Rows as (x & rest & E & E'). vm_compute in E. inversion E; subst.
    exact E'.
Defined.

(** ** A steal from a project that holds no row for the item *)


Lemma recorded_pair (q : Z) (s : string) (sps : list StolenProject) :
  recorded q s sps ->
  exists si, In (q, si) (stolen_pairs sps) /\ si_sku_num si = s.
Proof.
  intros (n & E).
  assert (I : In n (events_for q s sps)) by (rewrite E; now left).
  unfold events_for in I. apply in_flat_map in I as (sp & Isp & I).
  destruct (Z.eqb_spec (sp_project_id sp) q) as [Eq|]; [|destruct I].
  unfold item_events in I. apply in_map_iff in I as (si & En & Isi).
  apply filter_In in Isi as [Isi Es]. apply String.eqb_eq in Es.
  exists si. split; [|exact Es].
  unfold stolen_pairs. apply in_flat_map. exists sp. split; [exact Isp|].
  rewrite Eq. now apply in_map.
Qed.

Lemma Forall2_in_r {A B : Type} (R : A -> B -> Prop) (l1 : list A)
      (l2 : list B) (y : B) :
  Forall2 R l1 l2 -> In y l2 -> exists x, In x l1 /\ R x y.
Proof.
  induction 1 as [|a b l1 l2 Hab _ IH]; intros I; [destruct I|].
  destruct I as [<-|I].
  - exists a. split; [now left|exact Hab].
  - destruct (IH I) as (x & Ix & Rx). exists x. split; [now right|exact Rx].
Qed.

Section NoRowFacts.
Variable dq dh : Z.
Variable log_fails : ItemsU -> bool.
Variable send_fails : EmailMessage -> bool.
Variable host : string.
Variable refresh : Z -> Z -> DB -> result DB.

Local Abbreviation process := (process_unit dq dh log_fails).
Local Abbreviation run := (run_units dq dh log_fails).
Local Abbreviation checkout :=
  (confirm_checkout dq dh log_fails send_fails host refresh).
Local Abbreviation mark := (log_and_mark log_fails).



End NoRowFacts.

(** C2 as stated fails: project 2 holds no ItemRoom row for item 10, its
    cached reserved quantity for the item is 0, and it is still 0 after
    project 1 has claimed unit 100, which was reserved on project 2. *)
Lemma steal_without_row_no_decrement :
  exists l',
    process0 1 (mkLoop store_no_row [] []) 100 = Ok (Continue l')
    /\ cached_reserved store_no_row 10 2 = Ok 0
    /\ cached_reserved (l_db l') 10 2 = Ok 0
    /\ cached_reserved (l_db l') 10 2 <> Ok (0 - 1)
    /\ objects_get (fun u => item_u_id u =? 100) (items_u (l_db l'))
       = Ok (mkItemsU 100 10 "c" (Some 1)).
Proof.
  eexists. split; [vm_compute; reflexivity|].
  repeat split; try (vm_compute; reflexivity).
  vm_compute. discriminate.
Qed.


(** C6 on the code: the moving unit 103 of item 10, checked out by project
    1.  The available unit 102 is promoted to "m" with no project and the
    ItemRoom table ends as it does when the available unit 102 is checked
    out instead; but no ItemProject row is written for (10, 1), so the
    cached reserved quantity is missing while the rows of the project sum
    to 1, whereas the available branch leaves it at 1. *)
Lemma moving_unit_skips_item_project_sync :
  exists lm la,
    process0 1 (mkLoop store0 [] []) 103 = Ok (Continue lm)
    /\ process0 1 (mkLoop store0 [] []) 102 = Ok (Continue la)
    /\ objects_get (fun u => item_u_id u =? 102) (items_u (l_db lm))
       = Ok (mkItemsU 102 10 "m" None)
    /\ objects_get (fun u => item_u_id u =? 103) (items_u (l_db lm))
       = Ok (mkItemsU 103 10 "c" (Some 1))
    /\ item_rooms (l_db lm) = item_rooms (l_db la)
    /\ sum_quantity (item_rooms_of (l_db lm) 10 1) = 1
    /\ cached_reserved (l_db la) 10 1 = Ok 1
    /\ item_projects (l_db lm) = item_projects store0
    /\ cached_reserved (l_db lm) 10 1 = Raise DoesNotExist.
Proof.
  do 2 eexists.
  split; [vm_compute; reflexivity|].
  split; [vm_compute; reflexivity|].
  repeat split; vm_compute; reflexivity.
Qed.


(** ** The upload diff *)

Lemma unique_by_in {A : Type} (eqb : A -> A -> bool) (seen l : list A) (x : A) :
  (forall a b, eqb a b = true <-> a = b) ->
  In x (unique_by eqb seen l) <-> In x l /\ ~ In x seen.
Proof.
  intro Heq. revert seen. induction l as [|a l IH]; intro seen; cbn [unique_by In].
  - tauto.
  - destruct (existsb (eqb a) seen) eqn:E.
    + rewrite IH. apply existsb_exists in E as (y & Iy & Ey).
      apply Heq in Ey. subst y.
      split; [tauto|]. intros [[->|I] N]; tauto.
    + cbn [In]. rewrite IH. cbn [In].
      assert (Na : ~ In a seen).
      { intro I. assert (T : existsb (eqb a) seen = true).
        { apply existsb_exists. exists a. split; [exact I|]. now apply Heq. }
        congruence. }
      split.
      * intros [->|[I N]]; [tauto|]. split; [tauto|]. intro Is. apply N. now right.
      * intros [[->|I] N]; [tauto|]. destruct (eqb a x) eqn:Eax.
        -- left. now apply Heq.
        -- right. split; [exact I|]. intros [->|Is]; [|tauto].
           assert (T : eqb x x = true) by now apply Heq.
           congruence.
Qed.

Lemma opt_string_eqb_eq (a b : option string) :
  opt_string_eqb a b = true <-> a = b.
Proof.
  destruct a as [x|], b as [y|]; cbn; try (split; congruence).
  rewrite String.eqb_eq. split; congruence.
Qed.

Lemma existsb_unique_strings (sid : string) (l : list string) :
  existsb (String.eqb sid) (unique_strings l) = existsb (String.eqb sid) l.
Proof.
  apply eq_true_iff_eq. rewrite !existsb_exists. unfold unique_strings.
  split; intros (y & I & E); exists y; split; auto.
  - now apply (unique_by_in _ _ _ _ String.eqb_eq) in I.
  - apply (unique_by_in _ _ _ _ String.eqb_eq). tauto.
Qed.

(** *** The checks before the diff *)

Section UploadFacts.
Context {ops : StrMethods}.
Variable qr : string -> string -> string -> Z -> list string.
Variable pdf : string.
Variable create_log : string -> DB -> result DB.

Local Abbreviation upload := (add_inventory qr pdf create_log).
Local Abbreviation diff := (diff_rows qr pdf create_log).

Lemma add_inventory_reaches (request : UploadRequest) (wb : Workbook) (d : DB)
      (s : Session) :
  reaches_diff request wb d ->
  upload request d s = diff request wb (refresh_rollups d) s.
Proof.
  intros (Hm & Hf & Hb & Hp & Ha & Hd). unfold add_inventory. cbv zeta.
  rewrite Hm, Hf, Hb, Hp, String.eqb_refl. cbn [negb is_empty].
  rewrite Ha, Hd. reflexivity.
Qed.

Lemma str_accessor_text (rows : list Row) (r : Row) (x : string) :
  In r rows -> inventory_id r = Some x -> str_accessor rows = Ok tt.
Proof.
  intros I E. unfold str_accessor. destruct rows as [|r0 rows0]; [reflexivity|].
  replace (forallb _ (r0 :: rows0)) with false; [reflexivity|].
  symmetry. apply not_true_is_false. intro F.
  rewrite forallb_forall in F. specialize (F r I). rewrite E in F.
  discriminate.
Qed.

Lemma str_accessor_cases (rows : list Row) :
  str_accessor rows = Ok tt \/ str_accessor rows = Raise AttributeError.
Proof.
  unfold str_accessor. destruct rows; [now left|].
  destruct (forallb _ _); auto.
Qed.

Lemma two_occurrences {A : Type} (f : A -> bool) (l : list A) (i j : nat)
      (a b : A) :
  nth_error l i = Some a -> nth_error l j = Some b -> i <> j ->
  f a = true -> f b = true ->
  (2 <= List.length (filter f l))%nat.
Proof.
  revert i j. induction l as [|x l IH]; intros i j Hi Hj N Fa Fb.
  - destruct i; discriminate.
  - destruct i as [|i], j as [|j]; cbn [nth_error] in *.
    + congruence.
    + inversion Hi; subst. cbn [filter]. rewrite Fa. cbn [List.length].
      apply nth_error_In in Hj.
      assert (I : In b (filter f l)) by now apply filter_In.
      destruct (filter f l); [destruct I|cbn; lia].
    + inversion Hj; subst. cbn [filter]. rewrite Fb. cbn [List.length].
      apply nth_error_In in Hi.
      assert (I : In a (filter f l)) by now apply filter_In.
      destruct (filter f l); [destruct I|cbn; lia].
    + assert (L : (2 <= List.length (filter f l))%nat)
        by (apply (IH i j); auto).
      cbn [filter]. destruct (f x); cbn [List.length]; lia.
Qed.

(** C7, as the code has it: once the request has passed the checks that
    precede the sheet, two rows carrying one identifier make the view
    answer with the duplicate-identifier response.  The message lists the
    identifiers of the rows whose normalized identifier occurs more than
    once, the shared one among them; the session is left as it was (nothing
    is staged); the store is the one the quantity rollup at the top of the
    view produced. *)
Theorem duplicate_ids_rejected :
  forall (request : UploadRequest) (wb : Workbook) (d : DB) (s : Session)
         (i j : nat) (r1 r2 : Row) (ident : string),
    method request = "POST" ->
    inventory_file request = Some wb ->
    blocking_projects (refresh_rollups d) = [] ->
    manual_changes_pending request = false ->
    nth_error (sheet_rows wb) i = Some r1 ->
    nth_error (sheet_rows wb) j = Some r2 ->
    i <> j ->
    inventory_id r1 = Some ident ->
    inventory_id r2 = Some ident ->
    (occurrences None (map normalized (sheet_rows wb)) <= 1)%nat ->
    exists ids,
      upload request d s
      = Ok (duplicates_response (join ", " ids), refresh_rollups d, s)
      /\ In ident ids
      /\ (forall x, In x ids ->
                    exists r, In r (dupes (sheet_rows wb))
                              /\ inventory_id r = Some x)
      /\ success (duplicates_response (join ", " ids)) = false.
Proof.
  intros request wb d s i j r1 r2 ident Hm Hf Hb Hp H1 H2 Nij E1 E2 Hn.
  set (rows := sheet_rows wb) in *.
  assert (D1 : In r1 (dupes rows)).
  { unfold dupes. apply filter_In. split; [now apply nth_error_In in H1|].
    apply Nat.leb_le. unfold occurrences.
    apply (two_occurrences _ _ i j (normalized r1) (normalized r2)).
    - rewrite nth_error_map, H1. reflexivity.
    - rewrite nth_error_map, H2. reflexivity.
    - exact Nij.
    - now apply opt_string_eqb_eq.
    - apply opt_string_eqb_eq. unfold normalized. now rewrite E1, E2. }
  assert (Dsome : forall r, In r (dupes rows) -> inventory_id r <> None).
  { intros r Ir En. unfold dupes in Ir. apply filter_In in Ir as [_ L].
    apply Nat.leb_le in L. unfold normalized at 1 in L. rewrite En in L. lia. }
  set (opts := unique_by opt_string_eqb [] (map inventory_id (dupes rows))).
  assert (Hopts : forall o, In o opts ->
                            exists r, In r (dupes rows) /\ inventory_id r = o).
  { intros o Io. apply (unique_by_in _ _ _ _ opt_string_eqb_eq) in Io as [Io _].
    apply in_map_iff in Io as (r & Er & Ir). eauto. }
  set (get := fun o : option string => match o with
                                       | Some x => x
                                       | None => EmptyString
                                       end).
  exists (map get opts). split; [|split; [|split]].
  - unfold add_inventory. cbv zeta.
    rewrite Hm, Hf, Hb, Hp, String.eqb_refl. cbn [negb is_empty]. fold rows.
    rewrite (str_accessor_text rows r1 _ (nth_error_In _ _ H1) E1).
    replace (0 <? List.length (dupes rows))%nat with true.
    2:{ symmetry. apply Nat.ltb_lt. destruct (dupes rows); [destruct D1|cbn; lia]. }
    unfold duplicate_ids. fold opts.
    replace (forallb _ opts) with true; [reflexivity|].
    symmetry. apply forallb_forall. intros o Io.
    destruct (Hopts o Io) as (r & Ir & Er).
    destruct o; [reflexivity|]. exfalso. now apply (Dsome r Ir).
  - apply in_map_iff. exists (Some ident). split; [reflexivity|].
    apply (unique_by_in _ _ _ _ opt_string_eqb_eq). split; [|easy].
    apply in_map_iff. exists r1. auto.
  - intros x Ix. apply in_map_iff in Ix as (o & Eo & Io).
    destruct (Hopts o Io) as (r & Ir & Er). exists r. split; [exact Ir|].
    destruct o as [y|]; [cbn in Eo; congruence|].
    exfalso. now apply (Dsome r Ir).
  - reflexivity.
Qed.
End UploadFacts.

Section DuplicateRuns.
(** The sample sheets are read with the sample string methods. *)
#[local] Existing Instance latin_text.

(** C7 at a concrete upload: the sheet lists ST-X twice. *)
Lemma duplicate_ids_rejected_witness :
  exists ids,
    upload0 (upload_of [row_x; row_x]) store_up no_session
    = Ok (duplicates_response (join ", " ids), refresh_rollups store_up,
          no_session)
    /\ In "ST-X" ids
    /\ (forall x, In x ids ->
                  exists r, In r (dupes [row_x; row_x])
                            /\ inventory_id r = Some x)
    /\ success (duplicates_response (join ", " ids)) = false.
Proof.
  apply (duplicate_ids_rejected one_label "/media/qr_stickers.pdf"
           (fun _ d => Ok d) (upload_of [row_x; row_x]) (mkWorkbook [row_x; row_x] [])
           store_up no_session 0%nat 1%nat row_x row_x "ST-X");
    try reflexivity.
  - discriminate.
  - cbn. lia.
Defined.

(** C7 as stated fails: the stored total of item S is 4 while its parts
    add up to 5; an upload that lists ST-X twice is rejected for the
    duplicate, and the stored total is 5 afterwards. *)
Lemma duplicate_upload_still_rewrites_totals :
  exists resp d',
    upload0 (upload_of [row_x; row_x]) store_stale no_session
    = Ok (resp, d', no_session)
    /\ success resp = false
    /\ map total_quantity (items store_stale) = [Some 4]
    /\ map total_quantity (items d') = [Some 5]
    /\ map previous_total_quantity (items store_stale) = [Some 4]
    /\ map previous_total_quantity (items d') = [Some 5]
    /\ items d' <> items store_stale.
Proof.
  do 2 eexists. split; [vm_compute; reflexivity|].
  repeat split; try reflexivity. vm_compute. discriminate.
Qed.
End DuplicateRuns.

(** *** The first pass *)

Lemma first_none_existsb {A : Type} (f : A -> bool) (l : list A) :
  objects_first f l = None <-> existsb f l = false.
Proof.
  unfold objects_first. induction l as [|a l IH]; cbn [find existsb]; [tauto|].
  destruct (f a); cbn [orb]; [split; discriminate|exact IH].
Qed.

Lemma unmatched_items_spec (d : DB) (sid : string) (its : list Items)
      (acc : list string) :
  (forall i, In i its -> total_of i <> None) ->
  ((exists i, In i its /\ positive_total i = true
              /\ has_reserved_unit d i = true)
   /\ unmatched_items d sid its acc = Ok (inl (irreconcilable sid)))
  \/ ((forall i, In i its -> positive_total i = true ->
                 has_reserved_unit d i = false)
      /\ unmatched_items d sid its acc
         = Ok (inr (acc ++ map sku_num (filter positive_total its)))).
Proof.
  revert acc. induction its as [|item its IH]; intros acc Hn.
  - right. split; [intros i []|]. cbn. now rewrite app_nil_r.
  - assert (Hn' : forall i, In i its -> total_of i <> None)
      by (intros i I; apply Hn; now right).
    cbn [unmatched_items filter]. unfold positive_total at 3.
    pose proof (Hn item (or_introl eq_refl)) as Ht.
    unfold total_of in *.
    destruct (add_nullable (available_quantity item) (reserved_quantity item))
      as [total|] eqn:Et; [|congruence].
    destruct (total >? 0) eqn:Pt.
    + destruct (objects_first _ (items_u d)) as [u|] eqn:F.
      * left. split; [|reflexivity]. exists item.
        split; [now left|]. split.
        -- unfold positive_total, total_of. now rewrite Et.
        -- unfold has_reserved_unit.
           destruct (existsb _ (items_u d)) eqn:Ex; [reflexivity|].
           apply first_none_existsb in Ex. congruence.
      * apply first_none_existsb in F.
        destruct (IH (acc ++ [sku_num item]) Hn')
          as [((i & I & P & R) & E)|(Hall & E)].
        -- left. split; [|exact E]. exists i. split; [now right|auto].
        -- right. split.
           ++ intros i [<-|I] P; [exact F|auto].
           ++ rewrite E. cbn [map]. now rewrite <- app_assoc.
    + destruct (IH acc Hn') as [((i & I & P & R) & E)|(Hall & E)].
      * left. split; [|exact E]. exists i. split; [now right|auto].
      * right. split; [|exact E].
        intros i [<-|I] P; [|auto].
        unfold positive_total, total_of in P. rewrite Et in P. congruence.
Qed.

Lemma first_pass_spec (d : DB) (present sids acc : list string) :
  (forall i, In i (visited d present sids) -> total_of i <> None) ->
  (exists i, In i (visited d present sids)
             /\ positive_total i = true
             /\ has_reserved_unit d i = true
             /\ first_pass d present sids acc
                = Ok (inl (irreconcilable (studio_id i))))
  \/ ((forall i, In i (visited d present sids) -> positive_total i = true ->
                 has_reserved_unit d i = false)
      /\ first_pass d present sids acc
         = Ok (inr (acc ++ map sku_num
                             (filter positive_total
                                     (visited d present sids))))).
Proof.
  revert acc. induction sids as [|sid sids IH]; intros acc Hn.
  - right. split; [intros i []|]. cbn. now rewrite app_nil_r.
  - cbn [visited flat_map first_pass] in *. fold (visited d present sids) in *.
    destruct (negb (existsb (String.eqb sid) present)).
    + set (its := filter (fun i => (studio_id i =? sid)%string) (items d)) in *.
      assert (Hn1 : forall i, In i its -> total_of i <> None)
        by (intros i I; apply Hn, in_or_app; now left).
      assert (Hn2 : forall i, In i (visited d present sids) -> total_of i <> None)
        by (intros i I; apply Hn, in_or_app; now right).
      destruct (unmatched_items_spec d sid its acc Hn1)
        as [((i & I & P & R) & E)|(Hall & E)].
      * left. exists i. split; [apply in_or_app; now left|].
        split; [exact P|]. split; [exact R|]. rewrite E. cbn [bind].
        subst its. apply filter_In in I as [_ Es]. apply String.eqb_eq in Es.
        now rewrite Es.
      * rewrite E. cbn [bind].
        destruct (IH (acc ++ map sku_num (filter positive_total its)) Hn2)
          as [(i & I & P & R & E2)|(Hall2 & E2)].
        -- left. exists i. split; [apply in_or_app; now right|auto].
        -- right. split.
           ++ intros i I P. apply in_app_or in I as [I|I]; auto.
           ++ rewrite E2, filter_app, map_app. now rewrite app_assoc.
    + cbn [app]. apply IH. exact Hn.
Qed.

Lemma existsb_ordered_rows {ops : StrMethods} (sid : string) (rows : list Row) (k : Z) :
  existsb (String.eqb sid)
          (map (fun ir => strip (id_text (snd ir)))
               (filter (fun ir => quantity_ordered (snd ir) >? 0)
                       (with_excel_row k rows)))
  = existsb (fun r => (quantity_ordered r >? 0)
                      && (sid =? strip (id_text r))%string) rows.
Proof.
  revert k. induction rows as [|r rows IH]; intro k;
    cbn [with_excel_row filter map existsb snd]; [reflexivity|].
  destruct (quantity_ordered r >? 0); cbn [map existsb snd andb];
    now rewrite IH.
Qed.

Lemma visited_iff {ops : StrMethods} (d : DB) (wb : Workbook) (i : Items) :
  In i (visited d
          (unique_strings (map (fun ir => strip (id_text (snd ir)))
                               (ordered_rows (sheet_rows wb))))
          (unique_strings (map studio_id (items d))))
  <-> In i (items d) /\ listed wb (studio_id i) = false.
Proof.
  unfold visited. rewrite in_flat_map. split.
  - intros (sid & Isid & I).
    rewrite existsb_unique_strings in I. unfold ordered_rows in I.
    rewrite existsb_ordered_rows in I. fold (listed wb sid) in I.
    destruct (listed wb sid) eqn:L; [destruct I|].
    cbn [negb] in I. apply filter_In in I as [I E].
    apply String.eqb_eq in E. rewrite E. auto.
  - intros [I L]. exists (studio_id i). split.
    + apply (unique_by_in _ _ _ _ String.eqb_eq). split; [|easy].
      now apply in_map.
    + rewrite existsb_unique_strings. unfold ordered_rows.
      rewrite existsb_ordered_rows. fold (listed wb (studio_id i)).
      rewrite L. cbn [negb]. apply filter_In. split; [exact I|].
      apply String.eqb_refl.
Qed.

Section FirstPassFacts.
Context {ops : StrMethods}.
Variable qr : string -> string -> string -> Z -> list string.
Variable pdf : string.
Variable create_log : string -> DB -> result DB.

Local Abbreviation upload := (add_inventory qr pdf create_log).
Local Abbreviation diff := (diff_rows qr pdf create_log).

(** What the view does with the outcome of its first pass. *)
Lemma diff_rows_conflict (request : UploadRequest) (wb : Workbook) (d : DB)
      (s : Session) (resp : JsonResponse) :
  first_pass d
    (unique_strings (map (fun ir => strip (id_text (snd ir)))
                         (ordered_rows (sheet_rows wb))))
    (unique_strings (map studio_id (items d))) [] = Ok (inl resp) ->
  diff request wb d s = Ok (resp, d, s).
Proof. intro E. unfold diff_rows. cbv zeta. now rewrite E. Qed.

Lemma diff_rows_staged (request : UploadRequest) (wb : Workbook) (d d' : DB)
      (s s' : Session) (resp : JsonResponse) (dels : list string) :
  first_pass d
    (unique_strings (map (fun ir => strip (id_text (snd ir)))
                         (ordered_rows (sheet_rows wb))))
    (unique_strings (map studio_id (items d))) [] = Ok (inr dels) ->
  diff request wb d s = Ok (resp, d', s') ->
  success resp = true
  /\ exists st,
       second_pass qr (image_data_map wb)
                   (unique_strings (map studio_id (items d)))
                   (mkDiff d [] [] [] [] (random_tape request))
                   (ordered_rows (sheet_rows wb)) = Ok st
       /\ s' = stage_bundle s st dels.
Proof.
  intros E. unfold diff_rows. cbv zeta. rewrite E. cbn [bind].
  unfold bind.
  destruct (second_pass _ _ _ _ _) as [st|]; [|discriminate].
  destruct (create_log _ _); [|discriminate].
  intro H. inversion H; subst. split; [reflexivity|].
  exists st. auto.
Qed.

End FirstPassFacts.

Section OmittedRuns.
(** The sample sheets are read with the sample string methods. *)
#[local] Existing Instance latin_text.


End OmittedRuns.

(** *** The second pass *)

Lemma dict_set_keys {V : Type} (k k0 : string) (v0 : V)
      (l : list (string * V)) :
  In k (map fst (dict_set k0 v0 l)) -> k = k0 \/ In k (map fst l).
Proof.
  induction l as [|[k' v'] l IH]; cbn [dict_set map fst In].
  - intuition.
  - destruct (String.eqb_spec k' k0) as [E|N]; cbn [map fst In].
    + intros [<-|I]; auto.
    + intros [<-|I]; auto. destruct (IH I); auto.
Qed.

Lemma dict_set_entries {V : Type} (k k0 : string) (v v0 : V)
      (l : list (string * V)) :
  In (k, v) (dict_set k0 v0 l) -> (k = k0 /\ v = v0) \/ In (k, v) l.
Proof.
  induction l as [|[k' v'] l IH]; cbn [dict_set In].
  - intros [E|[]]. inversion E. auto.
  - destruct (String.eqb_spec k' k0) as [E|N]; cbn [In].
    + intros [H|I]; [inversion H; subst; auto|auto].
    + intros [H|I]; [auto|]. destruct (IH I); auto.
Qed.

Lemma register_changes_keys (sku_num k : string)
      (cs : list (string * FieldValue))
      (acc : list (string * list (string * FieldValue))) :
  In k (map fst (fold_left (register_change sku_num) cs acc)) ->
  k = sku_num \/ In k (map fst acc).
Proof.
  revert acc. induction cs as [|c cs IH]; intro acc; cbn [fold_left]; [auto|].
  intro I. apply IH in I as [E|I]; [auto|].
  unfold register_change in I. now apply dict_set_keys in I.
Qed.

Lemma fix_quantities_identity (item : Items) :
  item_id (fst (fix_quantities item)) = item_id item
  /\ sku_num (fst (fix_quantities item)) = sku_num item
  /\ studio_id (fst (fix_quantities item)) = studio_id item.
Proof.
  unfold fix_quantities.
  destruct (available_quantity item), (reserved_quantity item),
    (total_quantity item);
    repeat match goal with
           | |- context [if ?c then _ else _] => destruct c
           end; cbn; auto.
Qed.

Lemma save_keeps_pairs (item item' : Items) (l : list Items) :
  In item l ->
  sku_num item' = sku_num item -> studio_id item' = studio_id item ->
  incl (identity_pairs (objects_save item_id item' l)) (identity_pairs l).
Proof.
  intros I Es Est pr Ipr. unfold identity_pairs, objects_save in *.
  rewrite map_map in Ipr. apply in_map_iff in Ipr as (y & E & Iy).
  destruct (item_id y =? item_id item').
  - rewrite <- E, Es, Est. apply in_map_iff. exists item. auto.
  - rewrite <- E. apply in_map_iff. exists y. auto.
Qed.

Lemma with_excel_row_in (rows : list Row) (k : Z) (ir : Z * Row) :
  In ir (with_excel_row k rows) -> In (snd ir) rows.
Proof.
  revert k. induction rows as [|r rows IH]; intros k I;
    cbn [with_excel_row In] in *; [easy|].
  destruct I as [<-|I]; [now left|right; eauto].
Qed.

Lemma ordered_rows_in (rows : list Row) (ir : Z * Row) :
  In ir (ordered_rows rows) ->
  In (snd ir) rows /\ 0 < quantity_ordered (snd ir).
Proof.
  unfold ordered_rows. intro I. apply filter_In in I as [I Q].
  split; [now apply with_excel_row_in in I|lia].
Qed.

Section SecondPassFacts.
Context {ops : StrMethods}.
Variable qr : string -> string -> string -> Z -> list string.

Lemma diff_row_staged (images : list (Z * string)) (sids : list string)
      (df : list (Z * Row)) (pairs : list (string * string))
      (st st' : Diff) (ir : Z * Row) :
  In ir df ->
  incl (identity_pairs (items (d_db st))) pairs ->
  staged_from df pairs (d_new_items st) (map fst (d_items_to_change st))
              (map fst (d_items_to_subtract st)) ->
  diff_row qr images sids st ir = Ok st' ->
  incl (identity_pairs (items (d_db st'))) pairs
  /\ staged_from df pairs (d_new_items st') (map fst (d_items_to_change st'))
                 (map fst (d_items_to_subtract st')).
Proof.
  intros Iir Hp (Hnew & Hold) H. unfold diff_row in H.
  destruct (objects_first _ (items (d_db st))) as [item|] eqn:F.
  - unfold objects_first in F. apply find_some in F as [Iitem Est].
    apply String.eqb_eq in Est.
    destruct (fix_quantities_identity item) as (Eid & Esku & Estu).
    destruct (fix_quantities item) as [item' fixes]. cbn [fst] in *.
    assert (Ipair : In (sku_num item', strip (id_text (snd ir))) pairs).
    { apply Hp. unfold identity_pairs. apply in_map_iff. exists item.
      split; [|exact Iitem]. now rewrite Esku, Est. }
    assert (Hp' : incl (identity_pairs
                          (items (if fixes
                                  then set_items
                                         (objects_save item_id item'
                                                       (items (d_db st)))
                                         (d_db st)
                                  else d_db st))) pairs).
    { destruct fixes; [|exact Hp]. cbn [items set_items].
      intros pr Ipr. apply Hp.
      now apply (save_keeps_pairs item item' _ Iitem Esku Estu). }
    assert (Hchg : forall sku,
               In sku (map fst (fold_left (register_change (sku_num item'))
                                          (field_changes item' (snd ir))
                                          (d_items_to_change st))) ->
               exists ir0, In ir0 df
                           /\ In (sku, strip (id_text (snd ir0))) pairs).
    { intros sku I. apply register_changes_keys in I as [->|I]; [eauto|].
      apply Hold. now left. }
    destruct (previous_total_quantity item') as [previous|]; [|discriminate].
    destruct (total_quantity item') as [total|]; [|discriminate].
    destruct (quantity_available (snd ir) >? previous);
      [|destruct (quantity_available (snd ir) <? total)];
      inversion H; subst; cbn [d_db d_new_items d_items_to_change
                                d_items_to_subtract];
      (split; [exact Hp'|]); (split; [exact Hnew|]);
      intros sku [I|I]; auto.
    apply dict_set_keys in I as [->|I]; eauto.
  - unfold bind in H.
    destruct (draw_sku sids (tape st)) as [[sku tp]|]; [|discriminate].
    inversion H; subst.
    cbn [d_db d_new_items d_items_to_change d_items_to_subtract].
    split; [exact Hp|]. split; [|exact Hold].
    intros k payload I. apply dict_set_entries in I as [[-> ->]|I]; [|eauto].
    exists ir. split; [exact Iir|reflexivity].
Qed.

Lemma second_pass_staged (images : list (Z * string)) (sids : list string)
      (df : list (Z * Row)) (pairs : list (string * string))
      (rows : list (Z * Row)) (st st' : Diff) :
  incl rows df ->
  incl (identity_pairs (items (d_db st))) pairs ->
  staged_from df pairs (d_new_items st) (map fst (d_items_to_change st))
              (map fst (d_items_to_subtract st)) ->
  second_pass qr images sids st rows = Ok st' ->
  staged_from df pairs (d_new_items st') (map fst (d_items_to_change st'))
              (map fst (d_items_to_subtract st')).
Proof.
  revert st. induction rows as [|ir rows IH]; intros st Hin Hp Hs;
    cbn [second_pass].
  - intro H. now inversion H; subst.
  - unfold bind. destruct (diff_row qr images sids st ir) as [st1|] eqn:E;
      [|discriminate].
    intro H.
    destruct (diff_row_staged images sids df pairs st st1 ir
                (Hin ir (or_introl eq_refl)) Hp Hs E) as [Hp1 Hs1].
    apply (IH st1); auto. intros x Ix. apply Hin. now right.
Qed.
End SecondPassFacts.

Lemma unlisted_when_unordered {ops : StrMethods} (wb : Workbook) (sid : string) :
  (forall row, In row (sheet_rows wb) -> strip (id_text row) = sid ->
               quantity_ordered row <= 0) ->
  listed wb sid = false.
Proof.
  intro H. unfold listed. destruct (existsb _ (sheet_rows wb)) eqn:E;
    [|reflexivity].
  apply existsb_exists in E as (row & I & B).
  apply andb_prop in B as [Q Es]. apply String.eqb_eq in Es.
  specialize (H row I (eq_sym Es)). lia.
Qed.

Section UnorderedFacts.
Context {ops : StrMethods}.
Variable qr : string -> string -> string -> Z -> list string.
Variable pdf : string.
Variable create_log : string -> DB -> result DB.

Local Abbreviation upload := (add_inventory qr pdf create_log).

(** C10, as the code has it.  The request has passed the checks before the
    diff (the duplicate check among them, which reads every row) and no
    item the upload omits has a NULL quantity.  Call an item unordered when
    every sheet row carrying its studio id has a "Quantity Ordered" that is
    not positive; such an item counts as omitted.  If an unordered item has
    a positive total and a reserved unit, the view answers with an
    irreconcilable response.  If the view answers with the success
    response, then every staged new item and every sku under
    [items_to_change] or [items_to_subtract] comes from a row with a
    positive "Quantity Ordered"; an unordered item with a positive total has
    no reserved unit and its sku is staged for deletion; and every sku
    staged for deletion belongs to an omitted item with a positive total, so
    an unordered item whose total is not positive is passed over. *)
Theorem unordered_rows_dropped :
  forall (request : UploadRequest) (wb : Workbook) (d : DB) (s : Session),
    reaches_diff request wb d ->
    (forall item, In item (items (refresh_rollups d)) ->
                  listed wb (studio_id item) = false ->
                  total_of item <> None) ->
    (forall item,
        In item (items (refresh_rollups d)) ->
        (forall row, In row (sheet_rows wb) ->
                     strip (id_text row) = studio_id item ->
                     quantity_ordered row <= 0) ->
        positive_total item = true ->
        has_reserved_unit (refresh_rollups d) item = true ->
        exists sid,
          upload request d s = Ok (irreconcilable sid, refresh_rollups d, s))
    /\ (forall resp d' s',
           upload request d s = Ok (resp, d', s') ->
           success resp = true ->
           exists news changed subtracted dels,
             new_items s' = Some news
             /\ items_to_change s' = Some changed
             /\ items_to_subtract s' = Some subtracted
             /\ items_to_delete s' = Some dels
             /\ (forall sku payload,
                    In (sku, payload) news ->
                    exists row,
                      In row (sheet_rows wb)
                      /\ 0 < quantity_ordered row
                      /\ ni_studio_id payload = strip (id_text row))
             /\ (forall sku,
                    In sku (map fst changed) \/ In sku (map fst subtracted) ->
                    exists row item,
                      In row (sheet_rows wb)
                      /\ 0 < quantity_ordered row
                      /\ In item (items (refresh_rollups d))
                      /\ studio_id item = strip (id_text row)
                      /\ sku_num item = sku)
             /\ (forall item,
                    In item (items (refresh_rollups d)) ->
                    (forall row, In row (sheet_rows wb) ->
                                 strip (id_text row) = studio_id item ->
                                 quantity_ordered row <= 0) ->
                    positive_total item = true ->
                    has_reserved_unit (refresh_rollups d) item = false
                    /\ In (sku_num item) dels)
             /\ (forall sku,
                    In sku dels ->
                    exists item,
                      In item (items (refresh_rollups d))
                      /\ listed wb (studio_id item) = false
                      /\ positive_total item = true
                      /\ sku_num item = sku)).
Proof.
  intros request wb d s Hr Hn.
  set (d0 := refresh_rollups d) in *.
  rewrite (add_inventory_reaches qr pdf create_log request wb d s Hr).
  fold d0.
  set (present := unique_strings (map (fun ir => strip (id_text (snd ir)))
                                      (ordered_rows (sheet_rows wb)))).
  set (sids := unique_strings (map studio_id (items d0))).
  assert (Hv : forall i, In i (visited d0 present sids)
                         <-> In i (items d0) /\ listed wb (studio_id i) = false)
    by (intro i; apply visited_iff).
  assert (Hn' : forall i, In i (visited d0 present sids) -> total_of i <> None).
  { intros i I. apply Hv in I as [I L]. now apply Hn. }
  destruct (first_pass_spec d0 present sids [] Hn')
    as [(i & I & P & R & E)|(Hall & E)].
  - split.
    + intros _ _ _ _ _. eexists.
      apply (diff_rows_conflict qr pdf create_log). exact E.
    + intros resp d' s' H S.
      rewrite (diff_rows_conflict qr pdf create_log request wb d0 s _ E) in H.
      inversion H; subst. discriminate.
  - split.
    + intros item I Hu P R.
      rewrite (Hall item) in R; [discriminate| |exact P].
      apply Hv. split; [exact I|]. now apply unlisted_when_unordered.
    + intros resp d' s' H S.
      destruct (diff_rows_staged qr pdf create_log request wb d0 d' s s' resp
                  _ E H) as (_ & st & Sp & ->).
      assert (St : staged_from (ordered_rows (sheet_rows wb))
                               (identity_pairs (items d0))
                               (d_new_items st)
                               (map fst (d_items_to_change st))
                               (map fst (d_items_to_subtract st))).
      { apply (second_pass_staged qr (image_data_map wb) sids _ _
                 (ordered_rows (sheet_rows wb))
                 (mkDiff d0 [] [] [] [] (random_tape request)) st).
        - apply incl_refl.
        - apply incl_refl.
        - split; [intros ? ? []|intros ? [[]|[]]].
        - exact Sp. }
      destruct St as [Hnew Hold].
      exists (d_new_items st), (d_items_to_change st),
        (d_items_to_subtract st), ([] ++ map sku_num
                                      (filter positive_total
                                              (visited d0 present sids))).
      cbn [stage_bundle new_items items_to_change items_to_subtract
                        items_to_delete].
      split; [reflexivity|]. split; [reflexivity|]. split; [reflexivity|].
      split; [reflexivity|]. split; [|split; [|split]].
      * intros sku payload Inew.
        destruct (Hnew sku payload Inew) as (ir & Iir & En).
        apply ordered_rows_in in Iir as [Irow Q].
        exists (snd ir). auto.
      * intros sku Hsku.
        destruct (Hold sku Hsku) as (ir & Iir & Ipair).
        apply ordered_rows_in in Iir as [Irow Q].
        unfold identity_pairs in Ipair.
        apply in_map_iff in Ipair as (item & Ep & Iitem).
        inversion Ep; subst. exists (snd ir), item. auto.
      * intros item I Hu P.
        assert (Iv : In item (visited d0 present sids)).
        { apply Hv. split; [exact I|]. now apply unlisted_when_unordered. }
        split; [now apply Hall|].
        cbn [app]. apply in_map. now apply filter_In.
      * intros sku Isku. cbn [app] in Isku.
        apply in_map_iff in Isku as (item & Es & If).
        apply filter_In in If as [Iv P]. apply Hv in Iv as [I L].
        exists item. auto.
Qed.
End UnorderedFacts.

Section UnorderedRuns.
(** The sample sheets are read with the sample string methods. *)
#[local] Existing Instance latin_text.

(** C10 at a concrete upload against [store_up]: the rows of Z and W are
    present with "Quantity Ordered" 0.  W (two available units) is staged
    for deletion; nothing is staged as new or changed. *)
Lemma unordered_rows_dropped_witness :
  exists resp d' s',
    upload0 (upload_of [row_x; row_y; row_z_unordered; row_w_unordered])
            store_up no_session = Ok (resp, d', s')
    /\ success resp = true
    /\ exists news changed subtracted dels,
         new_items s' = Some news
         /\ items_to_change s' = Some changed
         /\ items_to_subtract s' = Some subtracted
         /\ items_to_delete s' = Some dels
         /\ has_reserved_unit (refresh_rollups store_up) item_w = false
         /\ In (sku_num item_w) dels.
Proof.
  do 3 eexists. split; [vm_compute; reflexivity|]. split; [reflexivity|].
  destruct (unordered_rows_dropped one_label "/media/qr_stickers.pdf"
              (fun _ d => Ok d)
              (upload_of [row_x; row_y; row_z_unordered; row_w_unordered])
              (mkWorkbook [row_x; row_y; row_z_unordered; row_w_unordered] [])
              store_up no_session) as [_ Hs].
  - repeat split; vm_compute; reflexivity.
  - intros item I _. vm_compute in I.
    destruct I as [<-|[<-|[<-|[<-|[]]]]]; discriminate.
  - match goal with
    | |- context [new_items ?s'] =>
        destruct (Hs (mkJson true (Some "File processed successfully")
                             (Some true) (Some None))
                     (refresh_rollups store_up) s')
          as (news & changed & subtracted & dels & E1 & E2 & E3 & E4 & _ & _
              & Hw & _); [vm_compute; reflexivity|reflexivity|]
    end.
    assert (W : has_reserved_unit (refresh_rollups store_up) item_w = false
                /\ In (sku_num item_w) dels).
    { apply (Hw item_w).
      - vm_compute. auto 6.
      - intros row I Es. vm_compute in I.
        destruct I as [<-|[<-|[<-|[<-|[]]]]]; vm_compute in Es;
          try discriminate; vm_compute; discriminate.
      - reflexivity. }
    exists news, changed, subtracted, dels. tauto.
Defined.

(** C10 as stated fails.  Item Z has no quantity and its only row has
    "Quantity Ordered" 0: the view succeeds, Z is neither staged for
    deletion nor reported as a conflict.  And a row with "Quantity Ordered"
    0 is not absent for the duplicate check: added to a sheet that already
    lists ST-W, it turns a successful upload into the duplicate error. *)
Lemma unordered_row_not_simply_absent :
  (exists resp d' s',
      upload0 (upload_of [row_x; row_y; row_z_unordered; row_w])
              store_up no_session = Ok (resp, d', s')
      /\ success resp = true
      /\ items_to_delete s' = Some []
      /\ ~ In (sku_num item_z) [])
  /\ (exists resp d' s',
         upload0 (upload_of [row_x; row_y; row_z; row_w])
                 store_up no_session = Ok (resp, d', s')
         /\ success resp = true)
  /\ (exists resp d' s',
         upload0 (upload_of [row_x; row_y; row_z; row_w; row_w_unordered])
                 store_up no_session = Ok (resp, d', s')
         /\ success resp = false
         /\ resp = duplicates_response "ST-W").
Proof.
  split; [|split].
  - do 3 eexists. split; [vm_compute; reflexivity|].
    repeat split. cbn. tauto.
  - do 3 eexists. split; [vm_compute; reflexivity|]. reflexivity.
  - do 3 eexists. split; [vm_compute; reflexivity|]. split; reflexivity.
Qed.
End UnorderedRuns.

(** * Further properties of the two views *)

(** ** add_inventory: what a response says about store and session *)

Lemma is_empty_nil {A : Type} (l : list A) : is_empty l = true <-> l = [].
Proof. destruct l; cbn; split; intro; congruence. Qed.

Lemma unmatched_items_inl (d : DB) (sid : string) (its : list Items)
      (acc : list string) (r : JsonResponse) :
  unmatched_items d sid its acc = Ok (inl r) -> r = irreconcilable sid.
Proof.
  revert acc. induction its as [|item its IH]; intro acc;
    cbn [unmatched_items]; [discriminate|].
  destruct (add_nullable _ _) as [total|]; [|discriminate].
  destruct (total >? 0); [|apply IH].
  destruct (objects_first _ _); [|apply IH].
  intro H. now inversion H.
Qed.

Lemma first_pass_inl (d : DB) (present sids acc : list string)
      (r : JsonResponse) :
  first_pass d present sids acc = Ok (inl r) ->
  exists sid, In sid sids /\ r = irreconcilable sid.
Proof.
  revert acc. induction sids as [|sid sids IH]; intro acc;
    cbn [first_pass]; [discriminate|].
  destruct (negb (existsb (String.eqb sid) present)).
  - unfold bind.
    destruct (unmatched_items d sid _ acc) as [[r'|acc']|] eqn:E;
      [| |discriminate].
    + intro H. inversion H; subst. apply unmatched_items_inl in E.
      exists sid. split; [now left|exact E].
    + intro H. destruct (IH _ H) as (x & I & Ex). exists x.
      split; [now right|exact Ex].
  - intro H. destruct (IH _ H) as (x & I & Ex). exists x.
    split; [now right|exact Ex].
Qed.

Section ResponseFacts.
Context {ops : StrMethods}.
Variable qr : string -> string -> string -> Z -> list string.
Variable pdf : string.
Variable create_log : string -> DB -> result DB.

Local Abbreviation upload := (add_inventory qr pdf create_log).
Local Abbreviation diff := (diff_rows qr pdf create_log).

(** Every exit of [add_inventory] with a failure response (bad request,
    Studio behind, manual changes waiting, duplicate identifiers,
    irreconcilable item) hands back the session it was given and the store
    as the rollup of lines 14-17 left it. *)
Theorem rejected_upload_stages_nothing :
  forall (request : UploadRequest) (d d' : DB) (s s' : Session)
         (resp : JsonResponse),
    upload request d s = Ok (resp, d', s') ->
    success resp = false ->
    s' = s /\ d' = refresh_rollups d.
Proof.
  intros request d d' s s' resp H S.
  unfold add_inventory in H. cbv zeta in H.
  destruct (if negb (method request =? "POST")%string
            then None else inventory_file request) as [wb|];
    [|inversion H; auto].
  destruct (negb (is_empty (blocking_projects (refresh_rollups d))));
    [inversion H; auto|].
  destruct (manual_changes_pending request); [inversion H; auto|].
  destruct (str_accessor (sheet_rows wb)); [|discriminate].
  destruct (0 <? List.length (dupes (sheet_rows wb)))%nat.
  - unfold bind in H. destruct (duplicate_ids _); [|discriminate].
    inversion H; auto.
  - unfold diff_rows in H. cbv zeta in H. unfold bind in H.
    destruct (first_pass _ _ _ _) as [[r|dels]|]; [| |discriminate].
    + inversion H; auto.
    + destruct (second_pass _ _ _ _ _); [|discriminate].
      destruct (create_log _ _); [|discriminate].
      inversion H; subst. discriminate.
Qed.

Lemma accepted_reaches (request : UploadRequest) (d d' : DB) (s s' : Session)
      (resp : JsonResponse) :
  upload request d s = Ok (resp, d', s') ->
  success resp = true ->
  exists wb, reaches_diff request wb d.
Proof.
  intros H S. unfold add_inventory in H. cbv zeta in H.
  unfold reaches_diff.
  destruct (String.eqb_spec (method request) "POST") as [Em|_];
    cbn [negb] in H; [|inversion H; subst; discriminate].
  destruct (inventory_file request) as [wb|];
    [|inversion H; subst; discriminate].
  exists wb.
  destruct (blocking_projects (refresh_rollups d)) as [|b bs];
    cbn [is_empty negb] in H; [|inversion H; subst; discriminate].
  destruct (manual_changes_pending request);
    [inversion H; subst; discriminate|].
  destruct (str_accessor (sheet_rows wb)) as [[]|]; [|discriminate].
  destruct (dupes (sheet_rows wb)) as [|r rs]; [auto 7|].
  cbn [List.length Nat.ltb Nat.leb] in H. unfold bind in H.
  destruct (duplicate_ids _); [|discriminate].
  inversion H; subst. discriminate.
Qed.

(** An accepted upload writes all four staging keys, leaves the two
    checkout keys of the session alone, and reports [changes] as false
    exactly when the four staged collections are all empty. *)
Theorem accepted_upload_stages_bundle :
  forall (request : UploadRequest) (d d' : DB) (s s' : Session)
         (resp : JsonResponse),
    upload request d s = Ok (resp, d', s') ->
    success resp = true ->
    exists news changed dels subtracted,
      new_items s' = Some news
      /\ items_to_change s' = Some changed
      /\ items_to_delete s' = Some dels
      /\ items_to_subtract s' = Some subtracted
      /\ checkout_session_item_us s' = checkout_session_item_us s
      /\ checkout_session_items s' = checkout_session_items s
      /\ message resp = Some "File processed successfully"
      /\ (changes resp = Some false
          <-> news = [] /\ changed = [] /\ dels = [] /\ subtracted = [])
      /\ (changes resp = Some true
          <-> ~ (news = [] /\ changed = [] /\ dels = [] /\ subtracted = [])).
Proof.
  intros request d d' s s' resp H S.
  destruct (accepted_reaches request d d' s s' resp H S) as (wb & Hr).
  rewrite (add_inventory_reaches qr pdf create_log request wb d s Hr) in H.
  unfold diff_rows in H. cbv zeta in H. unfold bind in H.
  destruct (first_pass _ _ _ _) as [[r|dels]|] eqn:F; [| |discriminate].
  - apply first_pass_inl in F as (sid & _ & ->).
    inversion H; subst. discriminate.
  - destruct (second_pass _ _ _ _ _) as [st|]; [|discriminate].
    destruct (create_log _ _); [|discriminate].
    inversion H; subst.
    exists (d_new_items st), (d_items_to_change st), dels,
      (d_items_to_subtract st).
    cbn [stage_bundle new_items items_to_change items_to_delete
                      items_to_subtract checkout_session_item_us
                      checkout_session_items message changes].
    repeat (split; [reflexivity|]).
    set (e := is_empty (d_new_items st) && is_empty (d_items_to_change st)
              && is_empty dels && is_empty (d_items_to_subtract st)).
    assert (He : e = true
                 <-> d_new_items st = [] /\ d_items_to_change st = []
                     /\ dels = [] /\ d_items_to_subtract st = []).
    { unfold e. rewrite !andb_true_iff, !is_empty_nil. tauto. }
    destruct e; cbn [negb]; split; split; intro X.
    + now apply He.
    + reflexivity.
    + discriminate.
    + exfalso. apply X. now apply He.
    + discriminate.
    + apply He in X. discriminate.
    + intro Y. apply He in Y. discriminate.
    + reflexivity.
Qed.
End ResponseFacts.

Section ResponseRuns.
(** The sample sheets are read with the sample string methods. *)
#[local] Existing Instance latin_text.

(** The failure exit for an omitted item with a reserved unit: the session
    and the rolled-up store come back. *)
Lemma rejected_upload_stages_nothing_witness :
  exists resp d' s',
    upload0 (upload_of [row_x; row_z; row_w]) store_up no_session
    = Ok (resp, d', s')
    /\ success resp = false
    /\ s' = no_session /\ d' = refresh_rollups store_up.
Proof.
  do 3 eexists. split; [vm_compute; reflexivity|]. split; [reflexivity|].
  eapply (rejected_upload_stages_nothing one_label "/media/qr_stickers.pdf"
            (fun _ d => Ok d) (upload_of [row_x; row_z; row_w]) store_up _
            no_session);
    [vm_compute; reflexivity|reflexivity].
Defined.

(** An accepted upload that omits item W: one deletion staged, so
    [changes] is true. *)
Lemma accepted_upload_stages_bundle_witness :
  exists resp d' s' news changed dels subtracted,
    upload0 (upload_of [row_x; row_y; row_z]) store_up no_session
    = Ok (resp, d', s')
    /\ success resp = true
    /\ new_items s' = Some news
    /\ items_to_change s' = Some changed
    /\ items_to_delete s' = Some dels
    /\ items_to_subtract s' = Some subtracted
    /\ (changes resp = Some true
        <-> ~ (news = [] /\ changed = [] /\ dels = [] /\ subtracted = [])).
Proof.
  do 3 eexists.
  match goal with
  | |- exists _ _ _ _, ?u = Ok (?resp, ?d', ?s') /\ _ =>
      destruct (accepted_upload_stages_bundle one_label "/media/qr_stickers.pdf"
                  (fun _ d => Ok d) (upload_of [row_x; row_y; row_z])
                  store_up
                  (refresh_rollups store_up) no_session
                  (mkSession None None (Some []) (Some []) (Some ["SKU-W"])
                             (Some []))
                  (mkJson true (Some "File processed successfully")
                          (Some true) (Some None)))
        as (news & changed & dels & subtracted & E1 & E2 & E3 & E4 & _ & _ & _
            & _ & Ht);
      [vm_compute; reflexivity|reflexivity|]
  end.
  exists news, changed, dels, subtracted.
  split; [vm_compute; reflexivity|]. split; [reflexivity|].
  cbn [new_items items_to_change items_to_delete items_to_subtract changes]
    in *.
  auto 8.
Defined.
End ResponseRuns.

(** ** add_inventory: the quantity rollup *)

Lemma rollup_one (i : Items) :
  rolled_up i (raise_previous_total (rollup_total i)).
Proof.
  destruct i as [id sk st de ve di sa lo c1 c2 ca sp uc a r t p].
  unfold rolled_up, raise_previous_total, rollup_total, set_quantities.
  cbn.
  destruct p as [p|], (add_nullable a r) as [t'|]; cbn; auto 10.
  destruct (Z.ltb_spec p t'); cbn; repeat split; auto; f_equal; lia.
Qed.


Lemma rollup_twice (i : Items) :
  raise_previous_total (rollup_total (raise_previous_total (rollup_total i)))
  = raise_previous_total (rollup_total i).
Proof.
  destruct i as [id sk st de ve di sa lo c1 c2 ca sp uc a r t p].
  unfold raise_previous_total, rollup_total, set_quantities. cbn.
  destruct p as [p|], a as [a|], r as [r|]; cbn; try reflexivity.
  destruct (p <? a + r) eqn:E; cbn.
  - now rewrite Z.ltb_irrefl.
  - now rewrite E.
Qed.

(** Running the rollup again changes nothing: a second upload request right
    after a first one finds the quantity columns as it would leave them. *)
Theorem rollup_idempotent :
  forall d : DB, refresh_rollups (refresh_rollups d) = refresh_rollups d.
Proof.
  intro d. unfold refresh_rollups. cbn [items set_items].
  unfold set_items. cbn. f_equal.
  rewrite !map_map. apply map_ext. intro i. apply rollup_twice.
Qed.

(** ** add_inventory: what the second pass stages and what it leaves *)

Lemma fix_consistent (item : Items) :
  quantities_consistent item -> fix_quantities item = (item, false).
Proof.
  intros (a & r & Ea & Er & Et).
  destruct item as [id sk st de ve di sa lo c1 c2 ca sp uc a0 r0 t0 p0].
  cbn in Ea, Er, Et. subst. unfold fix_quantities, set_quantities. cbn.
  now rewrite Z.eqb_refl.
Qed.

Lemma draw_sku_fresh (sids tp rest : list string) (sku : string) :
  draw_sku sids tp = Ok (sku, rest) ->
  existsb (String.eqb sku) sids = false /\ In sku tp.
Proof.
  induction tp as [|x tp IH]; cbn [draw_sku]; [discriminate|].
  destruct (existsb (String.eqb x) sids) eqn:E; cbn [negb].
  - intro H. destruct (IH H). split; [assumption|now right].
  - intro H. inversion H; subst. split; [exact E|now left].
Qed.

Section StagingFacts.
Context {ops : StrMethods}.
Variable qr : string -> string -> string -> Z -> list string.
Variable pdf : string.
Variable create_log : string -> DB -> result DB.

Local Abbreviation upload := (add_inventory qr pdf create_log).

Lemma diff_row_keeps_store (images : list (Z * string)) (sids : list string)
      (st st' : Diff) (ir : Z * Row) :
  (forall item, In item (items (d_db st)) -> quantities_consistent item) ->
  diff_row qr images sids st ir = Ok st' ->
  d_db st' = d_db st.
Proof.
  intros Hc H. unfold diff_row in H.
  destruct (objects_first _ (items (d_db st))) as [item|] eqn:F.
  - unfold objects_first in F. apply find_some in F as [I _].
    rewrite (fix_consistent item (Hc item I)) in H.
    destruct (previous_total_quantity item); [|discriminate].
    destruct (total_quantity item); [|discriminate].
    destruct (quantity_available (snd ir) >? z);
      [|destruct (quantity_available (snd ir) <? z0)];
      inversion H; reflexivity.
  - unfold bind in H.
    destruct (draw_sku sids (tape st)) as [[sku tp]|]; [|discriminate].
    inversion H; reflexivity.
Qed.

Lemma second_pass_keeps_store (images : list (Z * string))
      (sids : list string) (rows : list (Z * Row)) (st st' : Diff) :
  (forall item, In item (items (d_db st)) -> quantities_consistent item) ->
  second_pass qr images sids st rows = Ok st' ->
  d_db st' = d_db st.
Proof.
  revert st. induction rows as [|ir rows IH]; intros st Hc; cbn [second_pass].
  - intro H. now inversion H.
  - unfold bind. destruct (diff_row qr images sids st ir) as [st1|] eqn:E;
      [|discriminate].
    intro H. pose proof (diff_row_keeps_store _ _ _ _ _ Hc E) as E1.
    rewrite <- E1. apply IH; [|exact H]. now rewrite E1.
Qed.

Lemma diff_row_new_items (images : list (Z * string)) (sids : list string)
      (df : list (Z * Row)) (st st' : Diff) (ir : Z * Row) :
  In ir df ->
  (forall e, In e (d_new_items st) -> new_item_from sids df e) ->
  diff_row qr images sids st ir = Ok st' ->
  forall e, In e (d_new_items st') -> new_item_from sids df e.
Proof.
  intros Iir Hn H. unfold diff_row in H.
  destruct (objects_first _ (items (d_db st))) as [item|] eqn:F.
  - destruct (fix_quantities item) as [item' fixes].
    destruct (previous_total_quantity item'); [|discriminate].
    destruct (total_quantity item'); [|discriminate].
    destruct (quantity_available (snd ir) >? z);
      [|destruct (quantity_available (snd ir) <? z0)];
      inversion H; subst; cbn [d_new_items]; auto.
  - unfold bind in H.
    destruct (draw_sku sids (tape st)) as [[sku tp]|] eqn:D; [|discriminate].
    apply draw_sku_fresh in D as [Dn _].
    inversion H; subst. cbn [d_new_items d_db].
    intros [k v] I. apply dict_set_entries in I as [[-> ->]|I]; auto.
    split; [exact Dn|]. exists ir. cbn [snd]. repeat split; auto.
Qed.

Lemma diff_row_new_unmatched (images : list (Z * string))
      (sids : list string) (st st' : Diff) (ir : Z * Row) :
  diff_row qr images sids st ir = Ok st' ->
  forall e, In e (d_new_items st') ->
            In e (d_new_items st)
            \/ objects_first
                 (fun i => (studio_id i =? ni_studio_id (snd e))%string)
                 (items (d_db st)) = None.
Proof.
  intros H. unfold diff_row in H.
  destruct (objects_first _ (items (d_db st))) as [item|] eqn:F.
  - destruct (fix_quantities item) as [item' fixes].
    destruct (previous_total_quantity item'); [|discriminate].
    destruct (total_quantity item'); [|discriminate].
    destruct (quantity_available (snd ir) >? z);
      [|destruct (quantity_available (snd ir) <? z0)];
      inversion H; subst; cbn [d_new_items]; auto.
  - unfold bind in H.
    destruct (draw_sku sids (tape st)) as [[sku tp]|]; [|discriminate].
    inversion H; subst. cbn [d_new_items d_db].
    intros [k v] I. apply dict_set_entries in I as [[-> ->]|I]; auto.
Qed.

Lemma diff_row_subtract (images : list (Z * string)) (sids : list string)
      (st st' : Diff) (ir : Z * Row) :
  (forall k n, In (k, n) (d_items_to_subtract st) -> 0 < n) ->
  diff_row qr images sids st ir = Ok st' ->
  forall k n, In (k, n) (d_items_to_subtract st') -> 0 < n.
Proof.
  intros Hs H. unfold diff_row in H.
  destruct (objects_first _ (items (d_db st))) as [item|].
  - destruct (fix_quantities item) as [item' fixes].
    destruct (previous_total_quantity item'); [|discriminate].
    destruct (total_quantity item'); [|discriminate].
    destruct (quantity_available (snd ir) >? z);
      [|destruct (Z.ltb_spec (quantity_available (snd ir)) z0)];
      inversion H; subst; cbn [d_items_to_subtract]; auto.
    intros k n I. apply dict_set_entries in I as [[-> ->]|I]; [lia|eauto].
  - unfold bind in H.
    destruct (draw_sku sids (tape st)) as [[sku tp]|]; [|discriminate].
    inversion H; subst. exact Hs.
Qed.

Lemma second_pass_new_items (images : list (Z * string)) (sids : list string)
      (df rows : list (Z * Row)) (st st' : Diff) :
  incl rows df ->
  (forall e, In e (d_new_items st) -> new_item_from sids df e) ->
  second_pass qr images sids st rows = Ok st' ->
  forall e, In e (d_new_items st') -> new_item_from sids df e.
Proof.
  revert st. induction rows as [|ir rows IH]; intros st Hin Hn;
    cbn [second_pass].
  - intro H. now inversion H; subst.
  - unfold bind. destruct (diff_row qr images sids st ir) as [st1|] eqn:E;
      [|discriminate].
    intro H.
    pose proof (diff_row_new_items images sids df st st1 ir
                  (Hin ir (or_introl eq_refl)) Hn E) as Hn1.
    apply (IH st1); auto. intros x Ix. apply Hin. now right.
Qed.

Lemma second_pass_subtract (images : list (Z * string)) (sids : list string)
      (rows : list (Z * Row)) (st st' : Diff) :
  (forall k n, In (k, n) (d_items_to_subtract st) -> 0 < n) ->
  second_pass qr images sids st rows = Ok st' ->
  forall k n, In (k, n) (d_items_to_subtract st') -> 0 < n.
Proof.
  revert st. induction rows as [|ir rows IH]; intros st Hs; cbn [second_pass].
  - intro H. now inversion H; subst.
  - unfold bind. destruct (diff_row qr images sids st ir) as [st1|] eqn:E;
      [|discriminate].
    apply IH. exact (diff_row_subtract images sids st st1 ir Hs E).
Qed.

Lemma second_pass_unknown (images : list (Z * string)) (sids : list string)
      (rows : list (Z * Row)) (st st' : Diff) :
  (forall item, In item (items (d_db st)) -> quantities_consistent item) ->
  (forall e item, In e (d_new_items st) -> In item (items (d_db st)) ->
                  studio_id item <> ni_studio_id (snd e)) ->
  second_pass qr images sids st rows = Ok st' ->
  forall e item, In e (d_new_items st') -> In item (items (d_db st)) ->
                 studio_id item <> ni_studio_id (snd e).
Proof.
  revert st. induction rows as [|ir rows IH]; intros st Hc Hu;
    cbn [second_pass].
  - intro H. now inversion H; subst.
  - unfold bind. destruct (diff_row qr images sids st ir) as [st1|] eqn:E;
      [|discriminate].
    intro H. pose proof (diff_row_keeps_store _ _ _ _ _ Hc E) as E1.
    rewrite <- E1. apply (IH st1); [now rewrite E1| |exact H].
    rewrite E1. intros e item Ie Iitem.
    destruct (diff_row_new_unmatched images sids st st1 ir E e Ie)
      as [Iold|Fn]; [now apply Hu|].
    unfold objects_first in Fn.
    pose proof (find_none _ _ Fn item Iitem) as Ne.
    now apply String.eqb_neq in Ne.
Qed.
End StagingFacts.

Lemma rollup_consistent (d : DB) :
  (forall item, In item (items d) ->
                available_quantity item <> None
                /\ reserved_quantity item <> None) ->
  forall item, In item (items (refresh_rollups d)) ->
               quantities_consistent item.
Proof.
  intros Hn item I. unfold refresh_rollups in I. cbn [items set_items] in I.
  rewrite map_map in I. apply in_map_iff in I as (old & <- & Iold).
  destruct (rollup_one old) as (_ & _ & _ & Ea & Er & Et & _).
  destruct (Hn old Iold) as [Na Nr].
  destruct (available_quantity old) as [a|] eqn:A; [|congruence].
  destruct (reserved_quantity old) as [r|] eqn:R; [|congruence].
  exists a, r. auto.
Qed.

Lemma rollup_studio_ids (d : DB) (item : Items) :
  In item (items d) ->
  exists item', In item' (items (refresh_rollups d))
                /\ studio_id item' = studio_id item.
Proof.
  intro I. exists (raise_previous_total (rollup_total item)). split.
  - unfold refresh_rollups. cbn [items set_items]. rewrite map_map.
    now apply in_map with (f := fun x => raise_previous_total (rollup_total x)).
  - now destruct (rollup_one item) as (_ & _ & E & _).
Qed.

Section StagedFacts.
Context {ops : StrMethods}.
Variable qr : string -> string -> string -> Z -> list string.
Variable pdf : string.
Variable create_log : string -> DB -> result DB.

Local Abbreviation upload := (add_inventory qr pdf create_log).

(** The run behind an accepted upload. *)
Lemma accepted_run (request : UploadRequest) (d d' : DB) (s s' : Session)
      (resp : JsonResponse) :
  upload request d s = Ok (resp, d', s') ->
  success resp = true ->
  exists wb dels st,
    inventory_file request = Some wb
    /\ second_pass qr (image_data_map wb)
         (unique_strings (map studio_id (items (refresh_rollups d))))
         (mkDiff (refresh_rollups d) [] [] [] [] (random_tape request))
         (ordered_rows (sheet_rows wb)) = Ok st
    /\ create_log "NI" (d_db st) = Ok d'
    /\ s' = stage_bundle s st dels.
Proof.
  intros H S.
  destruct (accepted_reaches qr pdf create_log request d d' s s' resp H S)
    as (wb & Hr).
  rewrite (add_inventory_reaches qr pdf create_log request wb d s Hr) in H.
  unfold diff_rows in H. cbv zeta in H. unfold bind in H.
  destruct (first_pass _ _ _ _) as [[r|dels]|] eqn:F; [| |discriminate].
  - apply first_pass_inl in F as (sid & _ & ->).
    inversion H; subst. discriminate.
  - destruct (second_pass _ _ _ _ _) as [st|] eqn:P; [|discriminate].
    destruct (create_log _ _) as [dl|] eqn:L; [|discriminate].
    inversion H; subst. exists wb, dels, st.
    destruct Hr as (_ & Hf & _). auto.
Qed.

(** When no stored item has a NULL available or reserved quantity, an
    accepted upload leaves the store as the rollup made it: the second pass
    saves no item, and the store handed back is the activity-log helper's
    result on the rolled-up store. *)
Theorem accepted_upload_keeps_store :
  forall (request : UploadRequest) (d d' : DB) (s s' : Session)
         (resp : JsonResponse),
    (forall item, In item (items d) ->
                  available_quantity item <> None
                  /\ reserved_quantity item <> None) ->
    upload request d s = Ok (resp, d', s') ->
    success resp = true ->
    create_log "NI" (refresh_rollups d) = Ok d'.
Proof.
  intros request d d' s s' resp Hn H S.
  destruct (accepted_run request d d' s s' resp H S)
    as (wb & dels & st & _ & P & L & _).
  apply (second_pass_keeps_store qr) in P.
  - cbn [d_db] in P. now rewrite <- P.
  - cbn [d_db]. now apply rollup_consistent.
Qed.

(** The key generated for a staged new item is never the studio id of a
    stored item (lines 234-237). *)
Theorem new_sku_is_no_studio_id :
  forall (request : UploadRequest) (d d' : DB) (s s' : Session)
         (resp : JsonResponse) (news : list (string * NewItem))
         (sku : string) (payload : NewItem) (item : Items),
    upload request d s = Ok (resp, d', s') ->
    success resp = true ->
    new_items s' = Some news ->
    In (sku, payload) news ->
    In item (items d) ->
    studio_id item <> sku.
Proof.
  intros request d d' s s' resp news sku payload item H S En I Iitem.
  destruct (accepted_run request d d' s s' resp H S)
    as (wb & dels & st & _ & P & _ & ->).
  cbn [stage_bundle new_items] in En. inversion En; subst news.
  assert (N : new_item_from
                (unique_strings (map studio_id (items (refresh_rollups d))))
                (ordered_rows (sheet_rows wb)) (sku, payload)).
  { eapply (second_pass_new_items qr); [apply incl_refl| |exact P|exact I].
    intros ? []. }
  destruct N as [Hfresh _].
  cbn [fst] in Hfresh. intro E.
  destruct (rollup_studio_ids d item Iitem) as (item' & I' & E').
  assert (T : existsb (String.eqb sku)
                      (unique_strings
                         (map studio_id (items (refresh_rollups d)))) = true).
  { rewrite existsb_unique_strings. apply existsb_exists.
    exists (studio_id item'). split; [now apply in_map|].
    apply String.eqb_eq. congruence. }
  congruence.
Qed.

(** A staged new item comes from a sheet row with a positive "Quantity
    Ordered": it carries the row's stripped identifier, and its six
    quantity fields all hold the row's "Quantity Available" (lines
    229, 252-270). *)
Theorem new_item_mirrors_available :
  forall (request : UploadRequest) (wb : Workbook) (d d' : DB)
         (s s' : Session) (resp : JsonResponse)
         (news : list (string * NewItem)) (sku : string) (payload : NewItem),
    upload request d s = Ok (resp, d', s') ->
    success resp = true ->
    inventory_file request = Some wb ->
    new_items s' = Some news ->
    In (sku, payload) news ->
    exists row,
      In row (sheet_rows wb)
      /\ 0 < quantity_ordered row
      /\ ni_studio_id payload = strip (id_text row)
      /\ ni_available_quantity payload = quantity_available row
      /\ ni_available_quantity_holder payload = quantity_available row
      /\ ni_total_quantity payload = quantity_available row
      /\ ni_total_quantity_holder payload = quantity_available row
      /\ ni_previous_total_quantity payload = quantity_available row
      /\ ni_previous_total_quantity_holder payload = quantity_available row.
Proof.
  intros request wb d d' s s' resp news sku payload H S Hf En I.
  destruct (accepted_run request d d' s s' resp H S)
    as (wb' & dels & st & Hf' & P & _ & ->).
  assert (wb' = wb) by congruence. subst wb'.
  cbn [stage_bundle new_items] in En. inversion En; subst news.
  assert (N : new_item_from
                (unique_strings (map studio_id (items (refresh_rollups d))))
                (ordered_rows (sheet_rows wb)) (sku, payload)).
  { eapply (second_pass_new_items qr); [apply incl_refl| |exact P|exact I].
    intros ? []. }
  destruct N as [_ (ir & Iir & Hrest)].
  apply ordered_rows_in in Iir as [Irow Q].
  exists (snd ir). cbn [snd] in Hrest. tauto.
Qed.

(** Every quantity staged under [items_to_subtract] is positive (lines
    223-225). *)
Theorem staged_reductions_are_positive :
  forall (request : UploadRequest) (d d' : DB) (s s' : Session)
         (resp : JsonResponse) (subtracted : list (string * Z))
         (sku : string) (n : Z),
    upload request d s = Ok (resp, d', s') ->
    success resp = true ->
    items_to_subtract s' = Some subtracted ->
    In (sku, n) subtracted ->
    0 < n.
Proof.
  intros request d d' s s' resp subtracted sku n H S Es I.
  destruct (accepted_run request d d' s s' resp H S)
    as (wb & dels & st & _ & P & _ & ->).
  cbn [stage_bundle items_to_subtract] in Es. inversion Es; subst.
  eapply (second_pass_subtract qr); [|exact P|exact I].
  intros ? ? [].
Qed.

(** When no stored item has a NULL available or reserved quantity, a staged
    new item never carries the studio id of a stored item: a row is staged
    as new only if no stored item matches its stripped identifier (lines
    156-160, 227). *)
Theorem new_item_is_unknown :
  forall (request : UploadRequest) (d d' : DB) (s s' : Session)
         (resp : JsonResponse) (news : list (string * NewItem))
         (sku : string) (payload : NewItem) (item : Items),
    (forall i, In i (items d) ->
               available_quantity i <> None /\ reserved_quantity i <> None) ->
    upload request d s = Ok (resp, d', s') ->
    success resp = true ->
    new_items s' = Some news ->
    In (sku, payload) news ->
    In item (items d) ->
    studio_id item <> ni_studio_id payload.
Proof.
  intros request d d' s s' resp news sku payload item Hn H S En I Iitem.
  destruct (accepted_run request d d' s s' resp H S)
    as (wb & dels & st & _ & P & _ & ->).
  cbn [stage_bundle new_items] in En. inversion En; subst news.
  destruct (rollup_studio_ids d item Iitem) as (item' & I' & E').
  rewrite <- E'.
  change (ni_studio_id payload) with (ni_studio_id (snd (sku, payload))).
  eapply (second_pass_unknown qr); [| |exact P|exact I|exact I'].
  - exact (rollup_consistent d Hn).
  - intros ? ? [].
Qed.
End StagedFacts.

Lemma store_up_no_null (item : Items) :
  In item (items store_up) ->
  available_quantity item <> None /\ reserved_quantity item <> None.
Proof.
  cbn. intros [<-|[<-|[<-|[<-|[]]]]]; cbn; split; discriminate.
Qed.

Section StagedRuns.
(** The sample sheets are read with the sample string methods. *)
#[local] Existing Instance latin_text.

Lemma upload_n_accepted :
  upload0 upload_n store_up no_session
  = Ok (accepted_n, refresh_rollups store_up, staged_n).
Proof. vm_compute. reflexivity. Qed.

(** The sample upload leaves the rolled-up store as it is. *)
Lemma accepted_upload_keeps_store_witness :
  upload0 upload_n store_up no_session
  = Ok (accepted_n, refresh_rollups store_up, staged_n)
  /\ Ok (refresh_rollups store_up) = Ok (refresh_rollups store_up) :> result DB.
Proof.
  split; [exact upload_n_accepted|].
  exact (accepted_upload_keeps_store one_label "/media/qr_stickers.pdf"
           (fun _ d => Ok d) upload_n store_up (refresh_rollups store_up)
           no_session staged_n accepted_n store_up_no_null upload_n_accepted
           eq_refl).
Defined.

(** The key drawn for the bench is the studio id of no stored item. *)
Lemma new_sku_is_no_studio_id_witness :
  In ("12345678", payload_n) [("12345678", payload_n)]
  /\ In item_x (items store_up)
  /\ studio_id item_x <> "12345678".
Proof.
  split; [now left|]. split; [now left|].
  apply (new_sku_is_no_studio_id one_label "/media/qr_stickers.pdf"
           (fun _ d => Ok d) upload_n store_up (refresh_rollups store_up)
           no_session staged_n accepted_n [("12345678", payload_n)]
           "12345678" payload_n item_x upload_n_accepted eq_refl eq_refl).
  - now left.
  - now left.
Defined.

(** The bench is staged from its sheet row, with four units in each of the
    six quantity fields. *)
Lemma new_item_mirrors_available_witness :
  exists row,
    In row [row_x_short; row_y; row_z; row_w; row_n]
    /\ 0 < quantity_ordered row
    /\ ni_studio_id payload_n = strip (id_text row)
    /\ ni_available_quantity payload_n = quantity_available row
    /\ ni_available_quantity_holder payload_n = quantity_available row
    /\ ni_total_quantity payload_n = quantity_available row
    /\ ni_total_quantity_holder payload_n = quantity_available row
    /\ ni_previous_total_quantity payload_n = quantity_available row
    /\ ni_previous_total_quantity_holder payload_n = quantity_available row.
Proof.
  apply (new_item_mirrors_available one_label "/media/qr_stickers.pdf"
           (fun _ d => Ok d) upload_n
           (mkWorkbook [row_x_short; row_y; row_z; row_w; row_n] [])
           store_up (refresh_rollups store_up)
           no_session staged_n accepted_n [("12345678", payload_n)]
           "12345678" payload_n upload_n_accepted eq_refl eq_refl eq_refl).
  now left.
Defined.

(** Two units of X are staged for removal. *)
Lemma staged_reductions_are_positive_witness :
  items_to_subtract staged_n = Some [("SKU-X", 2)] /\ 0 < 2.
Proof.
  split; [reflexivity|].
  apply (staged_reductions_are_positive one_label "/media/qr_stickers.pdf"
           (fun _ d => Ok d) upload_n store_up (refresh_rollups store_up)
           no_session staged_n accepted_n [("SKU-X", 2)] "SKU-X" 2
           upload_n_accepted eq_refl eq_refl).
  now left.
Defined.

(** The bench carries a studio id no stored item has. *)
Lemma new_item_is_unknown_witness :
  In item_w (items store_up)
  /\ studio_id item_w <> ni_studio_id payload_n.
Proof.
  split; [cbn; tauto|].
  apply (new_item_is_unknown one_label "/media/qr_stickers.pdf"
           (fun _ d => Ok d) upload_n store_up (refresh_rollups store_up)
           no_session staged_n accepted_n [("12345678", payload_n)]
           "12345678" payload_n item_w store_up_no_null upload_n_accepted
           eq_refl eq_refl).
  - now left.
  - cbn. tauto.
Defined.
End StagedRuns.

(** ** confirm_checkout: the units of a batch *)

Section SaveOtherFacts.
Context {A : Type}.
Variable pk : A -> Z.

Lemma filter_key_save_other (k : Z) (x : A) (t : list A) :
  pk x <> k ->
  filter (fun y => pk y =? k) (objects_save pk x t)
  = filter (fun y => pk y =? k) t.
Proof.
  intro N. unfold objects_save.
  induction t as [|a t IH]; cbn [map filter]; [reflexivity|].
  destruct (Z.eqb_spec (pk a) (pk x)) as [Ea|Na].
  - replace (pk x =? k) with false by (symmetry; now apply Z.eqb_neq).
    replace (pk a =? k) with false
      by (symmetry; apply Z.eqb_neq; congruence).
    exact IH.
  - destruct (pk a =? k); [now rewrite IH|exact IH].
Qed.

(** A row read by key after a save is the saved row, or was there before. *)
Lemma get_save_cases (k : Z) (x u : A) (t : list A) :
  objects_get (fun y => pk y =? k) (objects_save pk x t) = Ok u ->
  u = x \/ objects_get (fun y => pk y =? k) t = Ok u.
Proof.
  intro G. apply objects_get_filter in G.
  destruct (Z.eq_dec (pk x) k) as [E|N].
  - left. rewrite (filter_key_save pk k x t E) in G.
    destruct (filter _ t) as [|y r]; [discriminate|].
    cbn [map] in G. now inversion G.
  - right. rewrite (filter_key_save_other k x t N) in G.
    now apply filter_get.
Qed.

Lemma get_save_some (k : Z) (x u : A) (t : list A) :
  objects_get (fun y => pk y =? k) t = Ok u ->
  exists u', objects_get (fun y => pk y =? k) (objects_save pk x t) = Ok u'.
Proof.
  intro G. destruct (Z.eq_dec (pk x) k) as [E|N].
  - exists x. now apply (get_after_save pk k u).
  - exists u. apply filter_get. rewrite (filter_key_save_other k x t N).
    now apply objects_get_filter.
Qed.

(** A row read by key survives the save of a row it differs from in some
    column, when the saved row was read from the table. *)
Lemma get_save_kept (k : Z) (x' n u : A) (t : list A) :
  objects_get (fun y => pk y =? k) t = Ok u ->
  In n t -> pk x' = pk n -> n <> u ->
  objects_get (fun y => pk y =? k) (objects_save pk x' t) = Ok u.
Proof.
  intros G I E N. apply filter_get. rewrite filter_key_save_other.
  - now apply objects_get_filter.
  - intro Ek. apply N. apply objects_get_filter in G.
    assert (In n (filter (fun y => pk y =? k) t)).
    { apply filter_In. split; [exact I|]. apply Z.eqb_eq. congruence. }
    rewrite G in H. now destruct H.
Qed.
End SaveOtherFacts.

Section UnitFacts.
Variable dq dh : Z.
Variable log_fails : ItemsU -> bool.
Variable send_fails : EmailMessage -> bool.
Variable host : string.
Variable refresh : Z -> Z -> DB -> result DB.

Local Abbreviation process := (process_unit dq dh log_fails).
Local Abbreviation run := (run_units dq dh log_fails).
Local Abbreviation checkout :=
  (confirm_checkout dq dh log_fails send_fails host refresh).
Local Abbreviation mark := (log_and_mark log_fails).

Lemma place_units (p : Z) (item : Items) (d d' : DB) :
  place_in_unassigned p item d = Ok d' -> items_u d' = items_u d.
Proof.
  unfold place_in_unassigned, bind.
  destruct (objects_get_or_create room_id _ _ (rooms d)) as [[[ur c] rs]|];
    [|discriminate].
  destruct (objects_get_or_create ir_id _ _ (item_rooms d)) as [[[x ci] irs]|];
    [|discriminate].
  intro H. now inversion H.
Qed.

Lemma sync_units (i p : Z) (d d' : DB) :
  sync_item_project dq dh i p d = Ok d' -> items_u d' = items_u d.
Proof.
  unfold sync_item_project, bind.
  destruct (objects_get_or_create ip_id _ _ (item_projects d))
    as [[[ip c] ips]|]; [|discriminate].
  intro H. now inversion H.
Qed.

Lemma back_out_units (item : Items) (q : Z) (d d' : DB) :
  back_out_previous dq dh item q d = Ok d' -> items_u d' = items_u d.
Proof.
  unfold back_out_previous, bind.
  destruct (objects_first _ (item_rooms d)) as [prev|];
    [|intro H; now inversion H].
  cbv zeta.
  match goal with
  | |- context [sync_item_project _ _ _ _ ?dd] => set (d3 := dd)
  end.
  assert (E3 : items_u d3 = items_u d) by (unfold d3; now destruct (_ <? 1)).
  destruct (objects_get _ (rooms d3)) as [room|]; [|discriminate].
  destruct (objects_get _ (projects d3)) as [prj|]; [|discriminate].
  intro H. apply sync_units in H. congruence.
Qed.

Lemma promote_units (u : ItemsU) (d : DB) :
  items_u (promote_available u d) = items_u d
  \/ exists n,
       In n (items_u d)
       /\ stage n = "a"
       /\ items_u (promote_available u d)
          = objects_save item_u_id
              (mkItemsU (item_u_id n) (iu_item_id n) "m" None) (items_u d).
Proof.
  unfold promote_available, objects_first.
  destruct (find _ (items_u d)) as [n|] eqn:F; [|now left].
  right. exists n. apply find_some in F as [I B].
  apply andb_prop in B as [_ B]. apply String.eqb_eq in B. auto.
Qed.

(** What an iteration that falls through does to the unit table: the unit
    it read, found in a stage other than "c", is saved as checked out;
    a moving unit may first have promoted an available one. *)
Lemma process_units (p uid : Z) (l l' : Loop) :
  process p l uid = Ok (Continue l') ->
  exists item_u,
    objects_get (fun y => item_u_id y =? uid) (items_u (l_db l)) = Ok item_u
    /\ stage item_u <> "c"
    /\ (items_u (l_db l')
        = objects_save item_u_id
            (mkItemsU (item_u_id item_u) (iu_item_id item_u) "c" (Some p))
            (items_u (l_db l))
        \/ items_u (l_db l')
           = objects_save item_u_id
               (mkItemsU (item_u_id item_u) (iu_item_id item_u) "c" (Some p))
               (items_u (promote_available item_u (l_db l)))).
Proof.
  intro H. unfold process_unit, bind in H.
  destruct (objects_get _ (items_u (l_db l))) as [u|] eqn:Gu; [|discriminate].
  destruct (objects_get _ (items (l_db l))) as [item|] eqn:Gi; [|discriminate].
  exists u. split; [reflexivity|]. split.
  - intro E. unfold reserved_elsewhere in H. rewrite E in H. cbn in H.
    discriminate.
  - destruct (if (stage u =? "a")%string then Ok false
              else reserved_elsewhere p u) as [elsewhere|]; [|discriminate].
    destruct ((stage u =? "a")%string || elsewhere).
    + destruct (place_in_unassigned p item (l_db l)) as [d1|] eqn:P;
        [|discriminate].
      destruct (sync_item_project dq dh (item_id item) p d1) as [d2|] eqn:S;
        [|discriminate].
      apply place_units in P. apply sync_units in S.
      destruct (reserved_elsewhere p u) as [[|]|]; [| |discriminate].
      * destruct (iu_project_id u) as [q|]; [|discriminate].
        destruct (back_out_previous dq dh item q _) as [d4|] eqn:B;
          [|discriminate].
        apply back_out_units in B. cbn [items_u set_item_rooms] in B.
        inversion H; subst. cbn [l_db]. left.
        rewrite log_and_mark_units. cbn [items_u set_items]. congruence.
      * inversion H; subst. cbn [l_db]. left.
        rewrite log_and_mark_units. cbn [items_u set_item_rooms]. congruence.
    + destruct (stage u =? "m")%string.
      * destruct (place_in_unassigned p item _) as [d1|] eqn:P;
          [|discriminate].
        apply place_units in P.
        inversion H; subst. cbn [l_db]. right.
        rewrite log_and_mark_units. congruence.
      * destruct (negb (stage u =? "r")%string); [discriminate|].
        inversion H; subst. cbn [l_db]. left.
        now rewrite log_and_mark_units.
Qed.

Lemma checked_out_once (p uid : Z) (d : DB) (u : ItemsU) :
  objects_get (fun y => item_u_id y =? uid) (items_u d) = Ok u ->
  stage u <> "c" -> ~ checked_out_to p uid d.
Proof.
  intros G N (u' & G' & S & _). rewrite G in G'. inversion G'. congruence.
Qed.

Lemma save_checked (p k : Z) (x : ItemsU) (t : list ItemsU) (d d' : DB) :
  items_u d = t ->
  items_u d' = objects_save item_u_id x t ->
  (item_u_id x = k -> stage x = "c" /\ iu_project_id x = Some p) ->
  checked_out_to p k d -> checked_out_to p k d'.
Proof.
  intros Et E Hx (u & G & S & Q). unfold checked_out_to. rewrite E.
  rewrite Et in G.
  destruct (Z.eq_dec (item_u_id x) k) as [Ek|Nk].
  - exists x. destruct (Hx Ek) as [Sx Qx]. split; [|auto].
    now apply (get_after_save item_u_id k u).
  - exists u. split; [|auto]. apply filter_get.
    rewrite (filter_key_save_other item_u_id k x t Nk).
    now apply objects_get_filter.
Qed.

Lemma promote_checked (p k : Z) (u : ItemsU) (d : DB) :
  checked_out_to p k d -> checked_out_to p k (promote_available u d).
Proof.
  intros (c & G & S & Q).
  destruct (promote_units u d) as [E|(n & I & Sn & E)];
    unfold checked_out_to; rewrite E; [now exists c|].
  exists c. split; [|auto].
  apply (get_save_kept item_u_id k _ n c); auto. congruence.
Qed.

(** An iteration that falls through leaves its unit checked out to the
    target project, and keeps the units that already were. *)
Lemma process_checks_out (p uid : Z) (l l' : Loop) :
  process p l uid = Ok (Continue l') ->
  ~ checked_out_to p uid (l_db l)
  /\ checked_out_to p uid (l_db l')
  /\ forall k, checked_out_to p k (l_db l) -> checked_out_to p k (l_db l').
Proof.
  intro H. destruct (process_units p uid l l' H) as (u & G & N & E).
  split; [now apply (checked_out_once p uid _ u)|].
  destruct (objects_get_in _ _ _ G) as [_ Eu]. apply Z.eqb_eq in Eu.
  split.
  - unfold checked_out_to.
    exists (mkItemsU (item_u_id u) (iu_item_id u) "c" (Some p)).
    split; [|auto]. destruct E as [-> | ->].
    + now apply (get_after_save item_u_id uid u).
    + destruct (promote_units u (l_db l)) as [-> | (n & I & Sn & ->)].
      * now apply (get_after_save item_u_id uid u).
      * destruct (get_save_some item_u_id uid
                    (mkItemsU (item_u_id n) (iu_item_id n) "m" None) u
                    (items_u (l_db l)) G) as [u' G'].
        now apply (get_after_save item_u_id uid u').
  - intros k C. destruct E as [E|E].
    + apply (save_checked p k _ (items_u (l_db l)) (l_db l) (l_db l')
               eq_refl E); [|exact C].
      cbn. auto.
    + apply (save_checked p k _ _ (promote_available u (l_db l)) (l_db l')
               eq_refl E); [cbn; auto|].
      now apply promote_checked.
Qed.

Lemma run_checks_out (p : Z) (uids done : list Z) (l l' : Loop) :
  run p l uids = Ok (Continue l') ->
  NoDup done ->
  (forall k, In k done -> checked_out_to p k (l_db l)) ->
  NoDup (done ++ uids)
  /\ forall k, In k (done ++ uids) -> checked_out_to p k (l_db l').
Proof.
  revert l done. induction uids as [|uid uids IH]; intros l done;
    cbn [run_units bind].
  - intros H N C. inversion H; subst. rewrite app_nil_r. auto.
  - destruct (process p l uid) as [[l1|r d]|e] eqn:E; try discriminate.
    intros H N C.
    destruct (process_checks_out p uid l l1 E) as (Nc & Cu & Keep).
    replace (done ++ uid :: uids) with ((done ++ [uid]) ++ uids)
      by (rewrite <- app_assoc; reflexivity).
    apply (IH l1 (done ++ [uid]) H).
    + apply NoDup_app; [exact N|repeat constructor; intros []|].
      intros k Ik [<-|[]]. apply Nc. now apply C.
    + intros k Ik. apply in_app_or in Ik as [Ik|[<-|[]]]; auto.
Qed.

Lemma recalc_units (p : Z) (ids : list Z) (d d' : DB) :
  (forall i q d0 d1, refresh i q d0 = Ok d1 -> items_u d1 = items_u d0) ->
  recalc_items refresh p ids d = Ok d' -> items_u d' = items_u d.
Proof.
  intro Hr. revert d. induction ids as [|i ids IH]; intro d;
    cbn [recalc_items bind].
  - intro H. now inversion H.
  - destruct (refresh i p d) as [d1|] eqn:E; [|discriminate].
    intro H. apply IH in H. apply Hr in E. congruence.
Qed.

(** The run behind a success response for a staged list. *)
Lemma checkout_success_run (request : Request) (w w' : World)
      (resp : JsonResponse) (uids : list Z) :
  checkout_session_item_us (session w) = Some uids ->
  checkout request w = Ok (resp, w') ->
  success resp = true ->
  exists (new_project : Project) (l : Loop) (d1 : DB),
    run (body_project_id request) (mkLoop (db w) [] []) uids
    = Ok (Continue l)
    /\ send_alerts send_fails host request new_project (l_db l)
                   (stolen_projects l) (outbox w) = Ok (outbox w')
    /\ recalc_items refresh (body_project_id request) (item_id_list l) (l_db l)
       = Ok d1
    /\ db w' = prune_zero_reservations d1.
Proof.
  intros Hs H S. unfold confirm_checkout, bind in H.
  destruct (objects_get _ (projects (db w))) as [np|]; [|discriminate].
  rewrite Hs in H.
  destruct (run _ _ uids) as [[l|r d]|] eqn:R; [| |discriminate].
  - destruct (send_alerts _ _ _ _ _ _ _) as [out|] eqn:A; [|discriminate].
    destruct (recalc_items _ _ _ _) as [d1|] eqn:Rc; [|discriminate].
    inversion H; subst. exists np, l, d1. cbn [db outbox]. auto.
  - inversion H; subst. apply run_return in R. subst. discriminate.
Qed.

(** After a successful request, every unit of the staged list is checked
    out to the target project, provided the helper that refreshes the
    item aggregates leaves the unit table alone (lines 22-26, 130-134,
    175-178, 218-230). *)
Theorem successful_batch_checks_out_units :
  forall (request : Request) (w w' : World) (resp : JsonResponse)
         (uids : list Z) (uid : Z),
    (forall i q d0 d1, refresh i q d0 = Ok d1 -> items_u d1 = items_u d0) ->
    checkout_session_item_us (session w) = Some uids ->
    checkout request w = Ok (resp, w') ->
    success resp = true ->
    In uid uids ->
    checked_out_to (body_project_id request) uid (db w').
Proof.
  intros request w w' resp uids uid Hr Hs H S I.
  destruct (checkout_success_run request w w' resp uids Hs H S)
    as (np & l & d1 & R & _ & Rc & E).
  destruct (run_checks_out _ uids [] _ l R (NoDup_nil _)
              (fun k (F : In k []) => match F with end)) as [_ C].
  apply (recalc_units _ _ _ _ Hr) in Rc.
  destruct (C uid I) as (u & G & Su & Pu).
  exists u. rewrite E. unfold prune_zero_reservations.
  cbn [items_u set_item_rooms]. rewrite Rc. auto.
Qed.

(** A request that ends with the success response did not list a unit
    twice: the second visit finds the unit checked out and ends the
    request with the failure response (lines 160-165, 176). *)
Theorem successful_batch_lists_units_once :
  forall (request : Request) (w w' : World) (resp : JsonResponse)
         (uids : list Z),
    checkout_session_item_us (session w) = Some uids ->
    checkout request w = Ok (resp, w') ->
    success resp = true ->
    NoDup uids.
Proof.
  intros request w w' resp uids Hs H S.
  destruct (checkout_success_run request w w' resp uids Hs H S)
    as (np & l & d1 & R & _).
  now destruct (run_checks_out _ uids [] _ l R (NoDup_nil _)
                  (fun k (F : In k []) => match F with end)) as [N _].
Qed.

Lemma checkout_response_cases (request : Request) (w w' : World)
      (resp : JsonResponse) :
  checkout request w = Ok (resp, w') ->
  success resp = true
  \/ (resp = failure_response /\ session w' = session w
      /\ outbox w' = outbox w).
Proof.
  intro H. unfold confirm_checkout, bind in H.
  destruct (objects_get _ (projects (db w))) as [np|]; [|discriminate].
  destruct (checkout_session_item_us (session w)) as [uids|].
  - destruct (run _ _ uids) as [[l|r d]|] eqn:R; [| |discriminate].
    + destruct (send_alerts _ _ _ _ _ _ _) as [out|]; [|discriminate].
      destruct (recalc_items _ _ _ _) as [d1|]; [|discriminate].
      left. now inversion H.
    + right. inversion H; subst. apply run_return in R. subst. cbn. auto.
  - left. now inversion H.
Qed.

(** The two responses and the session: with the success response both
    checkout keys are gone and the staged upload is kept; otherwise the
    response is the failure response, and session and sent mail are as
    they were (lines 159-165, 223-227). *)
Theorem checkout_response_and_session :
  forall (request : Request) (w w' : World) (resp : JsonResponse),
    checkout request w = Ok (resp, w') ->
    (success resp = true
     /\ checkout_session_item_us (session w') = None
     /\ checkout_session_items (session w') = None
     /\ new_items (session w') = new_items (session w)
     /\ items_to_change (session w') = items_to_change (session w)
     /\ items_to_delete (session w') = items_to_delete (session w)
     /\ items_to_subtract (session w') = items_to_subtract (session w))
    \/ (resp = failure_response
        /\ success resp = false
        /\ session w' = session w
        /\ outbox w' = outbox w).
Proof.
  intros request w w' resp H. unfold confirm_checkout, bind in H.
  destruct (objects_get _ (projects (db w))) as [np|]; [|discriminate].
  destruct (checkout_session_item_us (session w)) as [uids|] eqn:Hs.
  - destruct (run _ _ uids) as [[l|r d]|] eqn:R; [| |discriminate].
    + destruct (send_alerts _ _ _ _ _ _ _) as [out|]; [|discriminate].
      destruct (recalc_items _ _ _ _) as [d1|]; [|discriminate].
      left. cbn [session db outbox] in H.
      destruct (session w) as [a b c e f g].
      cbn in H. destruct b; inversion H; subst; cbn; auto 10.
    + right. inversion H; subst. apply run_return in R. subst. cbn. auto.
  - left. destruct w as [dw [a b c e f g] ow]. cbn in Hs. subst a.
    cbn in H. destruct b; inversion H; subst; cbn; auto 10.
Qed.

Lemma process_keeps_reserved (p uid k : Z) (l l' : Loop) (u : ItemsU) :
  process p l uid = Ok (Continue l') ->
  objects_get (fun y => item_u_id y =? k) (items_u (l_db l')) = Ok u ->
  stage u = "r" ->
  objects_get (fun y => item_u_id y =? k) (items_u (l_db l)) = Ok u.
Proof.
  intros H G S. destruct (process_units p uid l l' H) as (x & _ & _ & E).
  destruct E as [E|E]; rewrite E in G;
    apply get_save_cases in G as [->|G]; try discriminate; auto.
  destruct (promote_units x (l_db l)) as [Ep|(n & _ & _ & Ep)];
    rewrite Ep in G; [exact G|].
  apply get_save_cases in G as [->|G]; [discriminate|exact G].
Qed.

Lemma process_no_steal (p uid : Z) (l l' : Loop) :
  process p l uid = Ok (Continue l') ->
  none_reserved_elsewhere p [uid] (l_db l) ->
  stolen_projects l' = stolen_projects l.
Proof.
  intros H Hn. unfold process_unit, bind in H.
  destruct (objects_get _ (items_u (l_db l))) as [u|] eqn:Gu; [|discriminate].
  destruct (objects_get _ (items (l_db l))) as [item|]; [|discriminate].
  specialize (Hn uid u (or_introl eq_refl) Gu).
  assert (R : reserved_elsewhere p u = Ok false
              \/ exists e, reserved_elsewhere p u = Raise e).
  { unfold reserved_elsewhere.
    destruct (stage u =? "r")%string eqn:Sr; [|now left].
    apply String.eqb_eq in Sr. rewrite (Hn Sr), Z.eqb_refl. now left. }
  destruct (stage u =? "a")%string.
  - cbn [orb] in H.
    destruct (place_in_unassigned _ _ _); [|discriminate].
    destruct (sync_item_project _ _ _ _ _); [|discriminate].
    destruct R as [R|[e R]]; rewrite R in H; [|discriminate].
    now inversion H.
  - destruct R as [R|[e R]]; rewrite R in H; [|discriminate].
    cbn [orb] in H.
    destruct (stage u =? "m")%string.
    + destruct (place_in_unassigned _ _ _); [|discriminate]. now inversion H.
    + destruct (negb _); [discriminate|]. now inversion H.
Qed.

Lemma run_no_steal (p : Z) (uids : list Z) (l l' : Loop) :
  run p l uids = Ok (Continue l') ->
  none_reserved_elsewhere p uids (l_db l) ->
  stolen_projects l' = stolen_projects l.
Proof.
  revert l. induction uids as [|uid uids IH]; intro l; cbn [run_units bind].
  - intros H _. now inversion H.
  - destruct (process p l uid) as [[l1|r d]|e] eqn:E; try discriminate.
    intros H Hn. rewrite (IH l1 H).
    + apply (process_no_steal p uid l l1 E).
      intros k u [<-|[]]. apply Hn. now left.
    + intros k u Ik G S. apply (Hn k u); [now right| |exact S].
      now apply (process_keeps_reserved p uid k l l1).
Qed.

(** A batch none of whose staged units is reserved on another project
    sends no mail, whatever the response (lines 69, 101-125, 181-216). *)
Theorem no_steal_no_mail :
  forall (request : Request) (w w' : World) (resp : JsonResponse)
         (uids : list Z),
    checkout_session_item_us (session w) = Some uids ->
    none_reserved_elsewhere (body_project_id request) uids (db w) ->
    checkout request w = Ok (resp, w') ->
    outbox w' = outbox w.
Proof.
  intros request w w' resp uids Hs Hn H.
  destruct (success resp) eqn:S.
  - destruct (checkout_success_run request w w' resp uids Hs H S)
      as (np & l & d1 & R & A & _).
    rewrite (run_no_steal _ uids _ l R Hn) in A. cbn in A. now inversion A.
  - destruct (checkout_response_cases request w w' resp H) as [E|E];
      [congruence|tauto].
Qed.
End UnitFacts.

Lemma recompute_total_units (i q : Z) (d0 d1 : DB) :
  recompute_total i q d0 = Ok d1 -> items_u d1 = items_u d0.
Proof. unfold recompute_total. intro H. now inversion H. Qed.

Lemma world_own_no_steal : none_reserved_elsewhere 1 [102; 105] store0.
Proof.
  intros uid u [<-|[<-|[]]] G S; vm_compute in G; inversion G; subst;
    [discriminate|reflexivity].
Qed.

(** Units 102 and 105 end checked out to project 1. *)
Lemma successful_batch_checks_out_units_witness :
  exists w',
    checkout0 request_own world_own = Ok (mkJson true None None None, w')
    /\ checked_out_to 1 102 (db w')
    /\ checked_out_to 1 105 (db w').
Proof.
  eexists. split; [vm_compute; reflexivity|].
  match goal with
  | |- checked_out_to _ _ (db ?w') /\ _ =>
      split;
      [apply (successful_batch_checks_out_units 0 0 (@never ItemsU)
                (@never EmailMessage) "noreply@example.org" recompute_total
                request_own world_own w' (mkJson true None None None)
                [102; 105] 102 recompute_total_units);
       [reflexivity|vm_compute; reflexivity|reflexivity|now left]
      |apply (successful_batch_checks_out_units 0 0 (@never ItemsU)
                (@never EmailMessage) "noreply@example.org" recompute_total
                request_own world_own w' (mkJson true None None None)
                [102; 105] 105 recompute_total_units);
       [reflexivity|vm_compute; reflexivity|reflexivity|right; now left]]
  end.
Defined.

(** The accepted batch lists its two units once each. *)
Lemma successful_batch_lists_units_once_witness :
  exists w',
    checkout0 request_own world_own = Ok (mkJson true None None None, w')
    /\ NoDup [102; 105].
Proof.
  eexists. split.
  2:{ eapply (successful_batch_lists_units_once 0 0 (@never ItemsU)
                (@never EmailMessage) "noreply@example.org" recompute_total
                request_own world_own _ (mkJson true None None None)
                [102; 105]);
      [reflexivity|vm_compute; reflexivity|reflexivity]. }
  vm_compute. reflexivity.
Defined.

(** The accepted batch leaves a session without the two checkout keys. *)
Lemma checkout_response_and_session_witness :
  exists w',
    checkout0 request_own world_own = Ok (mkJson true None None None, w')
    /\ checkout_session_item_us (session w') = None
    /\ checkout_session_items (session w') = None.
Proof.
  eexists. split; [vm_compute; reflexivity|].
  match goal with
  | |- checkout_session_item_us (session ?w') = None /\ _ =>
      destruct (checkout_response_and_session 0 0 (@never ItemsU)
                  (@never EmailMessage) "noreply@example.org" recompute_total
                  request_own world_own w' (mkJson true None None None))
        as [(_ & E1 & E2 & _)|(E & _)];
      [vm_compute; reflexivity|split; [exact E1|exact E2]|discriminate E]
  end.
Defined.

(** Nobody loses a reservation to the batch, and no mail goes out. *)
Lemma no_steal_no_mail_witness :
  exists w',
    checkout0 request_own world_own = Ok (mkJson true None None None, w')
    /\ outbox w' = [].
Proof.
  eexists. split; [vm_compute; reflexivity|].
  match goal with
  | |- outbox ?w' = [] =>
      apply (no_steal_no_mail 0 0 (@never ItemsU)
               (@never EmailMessage) "noreply@example.org" recompute_total
               request_own world_own w' (mkJson true None None None)
               [102; 105]);
      [reflexivity|exact world_own_no_steal|vm_compute; reflexivity]
  end.
Defined.

(** ** confirm_checkout: the alerts and the units of the batch *)

Lemma save_read {A : Type} (pk : A -> Z) (k : Z) (x : A) (t : list A) :
  objects_get (fun y => pk y =? k) t = Ok x -> objects_save pk x t = t.
Proof.
  intro G. pose proof (objects_get_in _ _ _ G) as [_ Ek].
  apply Z.eqb_eq in Ek. apply objects_get_filter in G.
  unfold objects_save. rewrite <- (map_id t) at 2.
  apply map_ext_in. intros y Iy.
  destruct (Z.eqb_spec (pk y) (pk x)) as [E|_]; [|reflexivity].
  assert (I : In y (filter (fun y => pk y =? k) t)).
  { apply filter_In. split; [exact Iy|]. apply Z.eqb_eq. congruence. }
  rewrite G in I. now destruct I as [<-|[]].
Qed.

Lemma pair_event (q : Z) (si : StolenItem) (sps : list StolenProject) :
  In (q, si) (stolen_pairs sps) ->
  In (si_quantity si) (events_for q (si_sku_num si) sps).
Proof.
  unfold stolen_pairs, events_for. intro I.
  apply in_flat_map in I as (sp & Isp & I).
  apply in_map_iff in I as (si' & E & Isi). inversion E; subst.
  apply in_flat_map. exists sp. split; [exact Isp|].
  rewrite Z.eqb_refl. unfold item_events.
  apply in_map. apply filter_In. split; [exact Isi|apply String.eqb_refl].
Qed.

Lemma Forall2_in_l {A B : Type} (R : A -> B -> Prop) (l1 : list A)
      (l2 : list B) (x : A) :
  Forall2 R l1 l2 -> In x l1 -> exists y, In y l2 /\ R x y.
Proof.
  induction 1 as [|a b l1 l2 Hab _ IH]; intros I; [destruct I|].
  destruct I as [<-|I].
  - exists b. split; [now left|exact Hab].
  - destruct (IH I) as (y & Iy & Ry). exists y. split; [now right|exact Ry].
Qed.

Section StolenCountFacts.
Variable dq dh : Z.
Variable log_fails : ItemsU -> bool.
Variable send_fails : EmailMessage -> bool.
Variable host : string.
Variable refresh : Z -> Z -> DB -> result DB.

Local Abbreviation process := (process_unit dq dh log_fails).
Local Abbreviation run := (run_units dq dh log_fails).
Local Abbreviation checkout :=
  (confirm_checkout dq dh log_fails send_fails host refresh).
Local Abbreviation mark := (log_and_mark log_fails).

Lemma place_items (p : Z) (item : Items) (d d' : DB) :
  place_in_unassigned p item d = Ok d' -> items d' = items d.
Proof.
  unfold place_in_unassigned, bind.
  destruct (objects_get_or_create room_id _ _ (rooms d)) as [[[ur c] rs]|];
    [|discriminate].
  destruct (objects_get_or_create ir_id _ _ (item_rooms d)) as [[[x ci] irs]|];
    [|discriminate].
  intro H. now inversion H.
Qed.

Lemma sync_items (i p : Z) (d d' : DB) :
  sync_item_project dq dh i p d = Ok d' -> items d' = items d.
Proof.
  unfold sync_item_project, bind.
  destruct (objects_get_or_create ip_id _ _ (item_projects d))
    as [[[ip c] ips]|]; [|discriminate].
  intro H. now inversion H.
Qed.

Lemma back_out_items (item : Items) (q : Z) (d d' : DB) :
  back_out_previous dq dh item q d = Ok d' -> items d' = items d.
Proof.
  unfold back_out_previous, bind.
  destruct (objects_first _ (item_rooms d)) as [prev|];
    [|intro H; now inversion H].
  cbv zeta.
  match goal with
  | |- context [sync_item_project _ _ _ _ ?dd] => set (d3 := dd)
  end.
  assert (E3 : items d3 = items d) by (unfold d3; now destruct (_ <? 1)).
  destruct (objects_get _ (rooms d3)) as [room|]; [|discriminate].
  destruct (objects_get _ (projects d3)) as [prj|]; [|discriminate].
  intro H. apply sync_items in H. congruence.
Qed.

(** An iteration that falls through leaves the item table as it was: the
    only write is the save of the item as it was read. *)
Lemma process_items (p uid : Z) (l l' : Loop) :
  process p l uid = Ok (Continue l') -> items (l_db l') = items (l_db l).
Proof.
  intro H. unfold process_unit, bind in H.
  destruct (objects_get _ (items_u (l_db l))) as [u|]; [|discriminate].
  destruct (objects_get _ (items (l_db l))) as [item|] eqn:Gi; [|discriminate].
  destruct (if (stage u =? "a")%string then Ok false
            else reserved_elsewhere p u) as [elsewhere|]; [|discriminate].
  destruct ((stage u =? "a")%string || elsewhere).
  - destruct (place_in_unassigned p item (l_db l)) as [d1|] eqn:P;
      [|discriminate].
    destruct (sync_item_project dq dh (item_id item) p d1) as [d2|] eqn:S;
      [|discriminate].
    apply place_items in P. apply sync_items in S.
    destruct (reserved_elsewhere p u) as [[|]|]; [| |discriminate].
    + destruct (iu_project_id u) as [q|]; [|discriminate].
      destruct (back_out_previous dq dh item q _) as [d4|] eqn:B;
        [|discriminate].
      apply back_out_items in B. cbn [items set_item_rooms] in B.
      inversion H; subst. cbn [l_db].
      destruct (log_and_mark_ledger log_fails p u
                  (set_items (objects_save item_id item (items d4)) d4))
        as (_ & _ & _ & _ & ->).
      cbn [items set_items]. rewrite B, S, P.
      now apply (save_read item_id (iu_item_id u)).
    + inversion H; subst. cbn [l_db].
      match goal with
      | |- items (mark p u ?dd) = _ =>
          destruct (log_and_mark_ledger log_fails p u dd)
            as (_ & _ & _ & _ & ->)
      end.
      cbn [items set_item_rooms]. congruence.
  - destruct (stage u =? "m")%string.
    + destruct (place_in_unassigned p item _) as [d1|] eqn:P;
        [|discriminate].
      apply place_items in P.
      inversion H; subst. cbn [l_db].
      destruct (log_and_mark_ledger log_fails p u d1) as (_ & _ & _ & _ & ->).
      rewrite P. unfold promote_available.
      now destruct (objects_first _ (items_u (l_db l))).
    + destruct (negb (stage u =? "r")%string); [discriminate|].
      inversion H; subst. cbn [l_db].
      now destruct (log_and_mark_ledger log_fails p u (l_db l))
        as (_ & _ & _ & _ & ->).
Qed.
(** Whether an iteration that falls through takes a reservation, and what
    it then records. *)
Lemma process_steal_cases (p uid : Z) (l l1 : Loop) :
  process p l uid = Ok (Continue l1) ->
  (stolen_projects l1 = stolen_projects l
   /\ forall q sku_num0, steals (l_db l) p q sku_num0 uid = false)
  \/ (exists q0 s0,
        stolen_projects l1 = track_stolen q0 s0 (stolen_projects l)
        /\ forall q sku_num0,
             steals (l_db l) p q sku_num0 uid
             = (q =? q0) && (sku_num0 =? s0)%string).
Proof.
  intro H. unfold process_unit, bind in H. unfold steals.
  destruct (objects_get _ (items_u (l_db l))) as [u|] eqn:Gu; [|discriminate].
  destruct (objects_get _ (items (l_db l))) as [item|] eqn:Gi; [|discriminate].
  unfold reserved_elsewhere in H.
  destruct (stage u =? "r")%string eqn:Sr.
  - apply String.eqb_eq in Sr. rewrite Sr in H.
    cbn [String.eqb Ascii.eqb Bool.eqb negb orb] in H.
    destruct (iu_project_id u) as [q'|]; [|discriminate].
    destruct (Z.eqb_spec q' p) as [Ep|Np]; cbn [negb bind orb] in H.
    + subst q'. left. inversion H; subst. cbn [stolen_projects]. split; [reflexivity|].
      intros q sku_num0. destruct (Z.eqb_spec p q) as [<-|_]; [|reflexivity].
      now rewrite Z.eqb_refl.
    + destruct (place_in_unassigned p item (l_db l)) as [d1|]; [|discriminate].
      destruct (sync_item_project dq dh (item_id item) p d1) as [d2|];
        [|discriminate].
      destruct (back_out_previous dq dh item q' _) as [d4|]; [|discriminate].
      right. exists q', (sku_num item). inversion H; subst.
      cbn [stolen_projects]. split; [reflexivity|].
      intros q sku_num0. rewrite (Z.eqb_sym q q'), (String.eqb_sym sku_num0).
      destruct (Z.eqb_spec q' q) as [<-|_]; [|reflexivity].
      replace (q' =? p) with false by (symmetry; now apply Z.eqb_neq).
      reflexivity.
  - left. split; [|reflexivity].
    repeat match type of H with
           | context [match ?c with _ => _ end] =>
               destruct c eqn:?; try discriminate
           end;
      inversion H; reflexivity.
Qed.

Lemma process_events (p uid : Z) (l l1 : Loop) (q : Z) (sku_num0 : string) :
  process p l uid = Ok (Continue l1) ->
  stolen_wf (stolen_projects l) ->
  events_for q sku_num0 (stolen_projects l1)
  = if steals (l_db l) p q sku_num0 uid
    then [1 + total_events q sku_num0 (stolen_projects l)]
    else events_for q sku_num0 (stolen_projects l).
Proof.
  intros H W.
  destruct (process_steal_cases p uid l l1 H)
    as [[-> Hn]|(q0 & s0 & -> & Hs)].
  - now rewrite Hn.
  - rewrite Hs.
    destruct (Z.eqb_spec q q0) as [->|Nq]; cbn [andb].
    + destruct (String.eqb_spec sku_num0 s0) as [->|Ns].
      * now apply track_stolen_events.
      * apply track_stolen_other. now right.
    + apply track_stolen_other. now left.
Qed.

Lemma process_positive (p uid : Z) (l l1 : Loop) :
  process p l uid = Ok (Continue l1) ->
  stolen_wf (stolen_projects l) ->
  positive_events (stolen_projects l) ->
  positive_events (stolen_projects l1).
Proof.
  intros H W Pos q sku_num0.
  rewrite (process_events p uid l l1 q sku_num0 H W).
  destruct (steals _ _ _ _ _); [|apply Pos].
  right. eexists. split; [|reflexivity].
  unfold total_events.
  destruct (Pos q sku_num0) as [->|(n & Hn & ->)]; cbn [fold_right]; lia.
Qed.

Lemma process_keeps_reserved_fwd (p uid k : Z) (l l' : Loop) (u : ItemsU) :
  process p l uid = Ok (Continue l') ->
  k <> uid ->
  objects_get (fun y => item_u_id y =? k) (items_u (l_db l)) = Ok u ->
  stage u = "r" ->
  objects_get (fun y => item_u_id y =? k) (items_u (l_db l')) = Ok u.
Proof.
  intros H N G S.
  destruct (process_units dq dh log_fails p uid l l' H) as (x & Gx & _ & E).
  destruct (objects_get_in _ _ _ Gx) as [_ Ex]. apply Z.eqb_eq in Ex.
  assert (G0 : objects_get (fun y => item_u_id y =? k)
                           (items_u (promote_available x (l_db l))) = Ok u).
  { destruct (promote_units x (l_db l)) as [->|(n & In_ & Sn & ->)];
      [exact G|].
    apply (get_save_kept item_u_id k _ n u); auto. congruence. }
  destruct E as [-> | ->]; apply filter_get;
    rewrite filter_key_save_other by (cbn [item_u_id]; congruence);
    now apply objects_get_filter.
Qed.

(** Whether a unit other than the one just visited takes a reservation is
    not changed by the visit. *)
Lemma process_keeps_steals (p uid k q : Z) (sku_num0 : string) (l l' : Loop) :
  process p l uid = Ok (Continue l') ->
  k <> uid ->
  steals (l_db l') p q sku_num0 k = steals (l_db l) p q sku_num0 k.
Proof.
  intros H N. unfold steals. rewrite (process_items p uid l l' H).
  destruct (objects_get _ (items_u (l_db l'))) as [u1|e1] eqn:G1;
    destruct (objects_get _ (items_u (l_db l))) as [u0|e0] eqn:G0.
  - destruct (String.eqb_spec (stage u1) "r") as [S1|S1].
    + rewrite (process_keeps_reserved dq dh log_fails p uid k l l' u1 H G1 S1)
        in G0.
      inversion G0; subst. now rewrite S1.
    + destruct (String.eqb_spec (stage u0) "r") as [S0|S0]; [|reflexivity].
      rewrite (process_keeps_reserved_fwd p uid k l l' u0 H N G0 S0) in G1.
      inversion G1; subst. contradiction.
  - destruct (String.eqb_spec (stage u1) "r") as [S1|S1]; [|reflexivity].
    rewrite (process_keeps_reserved dq dh log_fails p uid k l l' u1 H G1 S1)
      in G0.
    discriminate.
  - destruct (String.eqb_spec (stage u0) "r") as [S0|S0]; [|reflexivity].
    rewrite (process_keeps_reserved_fwd p uid k l l' u0 H N G0 S0) in G1.
    discriminate.
  - reflexivity.
Qed.

(** What the stolen-reservation list holds after a batch that ran through:
    for each (project, sku) pair, what it held before plus the number of
    units of the batch that took a reservation of the sku from the
    project. *)
Lemma run_events (p : Z) (uids : list Z) (l l' : Loop) :
  run p l uids = Ok (Continue l') ->
  stolen_wf (stolen_projects l) ->
  positive_events (stolen_projects l) ->
  positive_events (stolen_projects l')
  /\ forall q sku_num0,
       total_events q sku_num0 (stolen_projects l')
       = total_events q sku_num0 (stolen_projects l)
         + stolen_count (l_db l) p q sku_num0 uids.
Proof.
  revert l. induction uids as [|uid uids IH]; intros l H W Pos.
  - cbn [run_units] in H. inversion H; subst. split; [exact Pos|].
    intros q s. unfold stolen_count. cbn. lia.
  - pose proof H as Hall. cbn [run_units bind] in H.
    destruct (process p l uid) as [[l1|r d]|e] eqn:E; try discriminate.
    destruct (run_checks_out dq dh log_fails p (uid :: uids) [] l l' Hall
                (NoDup_nil _) (fun k (F : In k []) => match F with end))
      as [Nd _].
    cbn [app] in Nd. inversion Nd as [|? ? Nuid _]; subst.
    destruct (IH l1 H (process_stolen_wf dq dh log_fails p uid l l1 E W)
                 (process_positive p uid l l1 E W Pos)) as [Pos' Ht].
    split; [exact Pos'|]. intros q s. rewrite Ht.
    assert (Ec : stolen_count (l_db l1) p q s uids
                 = stolen_count (l_db l) p q s uids).
    { unfold stolen_count. do 2 f_equal. apply filter_ext_in.
      intros k Ik. apply (process_keeps_steals p uid k q s l l1 E).
      intros ->. contradiction. }
    rewrite Ec. unfold total_events at 1.
    rewrite (process_events p uid l l1 q s E W).
    unfold stolen_count. cbn [filter].
    destruct (steals (l_db l) p q s uid); cbn [List.length fold_right];
      unfold total_events; lia.
Qed.

(** The entries of the list a batch builds from nothing. *)
Lemma batch_events (p : Z) (uids : list Z) (d : DB) (l : Loop) :
  run p (mkLoop d [] []) uids = Ok (Continue l) ->
  forall q sku_num0,
    events_for q sku_num0 (stolen_projects l)
    = if stolen_count d p q sku_num0 uids =? 0 then []
      else [stolen_count d p q sku_num0 uids].
Proof.
  intros H q s.
  destruct (run_events p uids _ l H) as [Pos Ht].
  - split; constructor.
  - intros q' s'. now left.
  - specialize (Ht q s). cbn [stolen_projects l_db] in Ht.
    unfold total_events in Ht. cbn [events_for flat_map fold_right] in Ht.
    assert (0 <= stolen_count d p q s uids)
      by (unfold stolen_count; lia).
    destruct (Pos q s) as [E|(n & Hn & E)]; rewrite E in *;
      cbn [fold_right] in Ht.
    + replace (stolen_count d p q s uids) with 0 by lia. reflexivity.
    + replace (stolen_count d p q s uids) with n by lia.
      destruct (Z.eqb_spec n 0); [lia|reflexivity].
Qed.

(** C4, as the code has it: when the request ends with the success
    response, the mail sent is, in order, one message for each (losing
    project, sku) entry of the stolen-reservation list the batch built, and
    no two entries share their project and sku.  The message for an entry
    is addressed to [recipient_emails] of the losing project, names the
    sku and carries the quantity accumulated for that entry; an address is
    in [recipient_emails] exactly when it belongs to a user linked to the
    project or to a superuser.  The entries are tied to the units of the
    batch: the quantity of an entry, and of its message, is the number of
    staged units that were reserved on the losing project and are units of
    the item with that sku, and every (project, sku) pair some staged unit
    was taken from has its message. *)
Theorem one_alert_per_project_and_sku :
  forall (request : Request) (w w' : World) (resp : JsonResponse)
         (uids : list Z),
    checkout_session_item_us (session w) = Some uids ->
    checkout request w = Ok (resp, w') ->
    success resp = true ->
    exists (new_project : Project) (l : Loop) (sent : list EmailMessage),
      objects_get (fun x => project_id x =? body_project_id request)
                  (projects (db w)) = Ok new_project
      /\ run (body_project_id request) (mkLoop (db w) [] []) uids
         = Ok (Continue l)
      /\ outbox w' = outbox w ++ sent
      /\ Forall2 (alert_matches (l_db l) new_project) sent
                 (stolen_pairs (stolen_projects l))
      /\ NoDup (map (fun qe => (fst qe, si_sku_num (snd qe)))
                    (stolen_pairs (stolen_projects l)))
      /\ (forall q e,
             In e (recipient_emails q (l_db l))
             <-> exists u,
                   In u (users (l_db l)) /\ email u = e
                   /\ (is_superuser u = true
                       \/ exists up, In up (user_projects (l_db l))
                                     /\ up_project_id up = q
                                     /\ up_user_id up = user_id u))
      /\ (forall q si,
             In (q, si) (stolen_pairs (stolen_projects l)) ->
             si_quantity si
             = stolen_count (db w) (body_project_id request) q
                            (si_sku_num si) uids
             /\ 1 <= si_quantity si)
      /\ (forall q sku_num0,
             1 <= stolen_count (db w) (body_project_id request) q sku_num0
                               uids ->
             exists m si,
               In m sent
               /\ alert_matches (l_db l) new_project m (q, si)
               /\ si_sku_num si = sku_num0
               /\ adjusted_quantity m
                  = stolen_count (db w) (body_project_id request) q sku_num0
                                 uids)
      /\ (forall m,
             In m sent ->
             exists q si,
               alert_matches (l_db l) new_project m (q, si)
               /\ adjusted_quantity m
                  = stolen_count (db w) (body_project_id request) q (sku m)
                                 uids
               /\ 1 <= adjusted_quantity m).
Proof.
  intros request w w' resp uids Hs H S.
  destruct (checkout_success_alerts dq dh log_fails send_fails host refresh
              request w w' resp uids Hs H S)
    as (np & l & sent & G & R & Ho & F).
  pose proof (batch_events (body_project_id request) uids (db w) l R) as Ev.
  assert (Hq : forall q si,
             In (q, si) (stolen_pairs (stolen_projects l)) ->
             si_quantity si
             = stolen_count (db w) (body_project_id request) q
                            (si_sku_num si) uids
             /\ 1 <= si_quantity si).
  { intros q si I. apply pair_event in I. rewrite Ev in I.
    destruct (Z.eqb_spec (stolen_count (db w) (body_project_id request) q
                                       (si_sku_num si) uids) 0) as [_|Nz];
      [destruct I|].
    destruct I as [<-|[]]. split; [reflexivity|].
    unfold stolen_count in *. lia. }
  exists np, l, sent.
  split; [exact G|]. split; [exact R|]. split; [exact Ho|].
  split; [exact F|]. split; [|split; [|split; [exact Hq|split]]].
  - apply stolen_pairs_distinct.
    apply (run_stolen_wf dq dh log_fails _ _ _ _ R). split; constructor.
  - intros q e. apply recipient_emails_spec.
  - intros q s Hc.
    assert (Rc : recorded q s (stolen_projects l)).
    { eexists. rewrite Ev.
      destruct (Z.eqb_spec (stolen_count (db w) (body_project_id request) q s
                                         uids) 0); [lia|reflexivity]. }
    destruct (recorded_pair q s _ Rc) as (si & Isi & Es).
    destruct (Forall2_in_r _ _ _ _ F Isi) as (m & Im & Am).
    exists m, si. split; [exact Im|]. split; [exact Am|].
    split; [exact Es|].
    destruct Am as (_ & _ & -> & _). cbn [snd].
    destruct (Hq q si Isi) as [-> _]. now rewrite Es.
  - intros m Im.
    destruct (Forall2_in_l _ _ _ _ F Im) as ([q si] & Isi & Am).
    exists q, si. split; [exact Am|].
    destruct (Hq q si Isi) as [Eq Pq].
    destruct Am as (_ & Esku & Eqty & _). cbn [snd] in Esku, Eqty.
    rewrite Esku, Eqty. auto.
Qed.
End StolenCountFacts.

(** C4 at a concrete batch: units 100 (reserved on project 2) and 102
    (available), checked out by project 1: one message, for the unit of
    SKU-X taken from project 2. *)
Lemma one_alert_per_project_and_sku_witness :
  exists resp w',
    checkout0 (mkRequest 1 "Ann A") (mkWorld store0 (session_of [100; 102]) [])
    = Ok (resp, w')
    /\ success resp = true
    /\ exists new_project l sent,
         run0 1 (mkLoop store0 [] []) [100; 102] = Ok (Continue l)
         /\ outbox w' = [] ++ sent
         /\ Forall2 (alert_matches (l_db l) new_project) sent
                    (stolen_pairs (stolen_projects l))
         /\ exists m, In m sent /\ sku m = "SKU-X" /\ adjusted_quantity m = 1.
Proof.
  do 2 eexists. split; [vm_compute; reflexivity|]. split; [reflexivity|].
  match goal with
  | |- context [outbox ?w'] =>
      destruct (one_alert_per_project_and_sku 0 0 (@never ItemsU)
                  (@never EmailMessage) "noreply@example.org" recompute_total
                  (mkRequest 1 "Ann A")
                  (mkWorld store0 (session_of [100; 102]) []) w'
                  (mkJson true None None None) [100; 102])
        as (np & l & sent & _ & R & Ho & F & _ & _ & _ & Hm & _);
      [reflexivity | vm_compute; reflexivity | reflexivity |]
  end.
  exists np, l, sent. split; [exact R|]. split; [exact Ho|].
  split; [exact F|].
  destruct (Hm 2 "SKU-X") as (m & si & Im & Am & Es & Eq);
    [vm_compute; discriminate|].
  exists m. split; [exact Im|].
  destruct Am as (_ & Esku & _). cbn [snd] in Esku.
  split; [congruence|exact Eq].
Defined.

(** C4 as stated fails: units 100 (item X) and 101 (item Y) are both taken
    from project 2, the only losing project, and two messages go out to
    it, one per sku. *)
Lemma two_alerts_for_one_project :
  exists w' l,
    checkout0 (mkRequest 1 "Ann A") (mkWorld store0 (session_of [100; 101]) [])
    = Ok (mkJson true None None None, w')
    /\ run0 1 (mkLoop store0 [] []) [100; 101] = Ok (Continue l)
    /\ map sp_project_id (stolen_projects l) = [2]
    /\ map stolen_project_name (outbox w') = ["Beta"; "Beta"]
    /\ map sku (outbox w') = ["SKU-X"; "SKU-Y"]
    /\ List.length (outbox w') <> List.length (stolen_projects l).
Proof.
  do 2 eexists.
  split; [vm_compute; reflexivity|].
  split; [vm_compute; reflexivity|].
  cbn. repeat split. discriminate.
Qed.


(** ** confirm_checkout: an available unit *)

Lemma sum_filter_nonneg (rows : list ItemRoom) :
  Forall (fun ir => 0 <= item_quantity ir) rows ->
  sum_quantity (filter (fun ir => negb (item_quantity ir <? 1)) rows)
  = sum_quantity rows.
Proof.
  unfold sum_quantity.
  induction 1 as [|x rows Hx _ IH]; cbn [filter map fold_right];
    [reflexivity|].
  destruct (Z.ltb_spec (item_quantity x) 1); cbn [negb map fold_right]; lia.
Qed.

(** The per-iteration delete of line 66 keeps the sum of a project's rows
    when none of them is negative. *)
Lemma prune_quantity_sum (d : DB) (i q : Z) :
  Forall (fun ir => 0 <= item_quantity ir) (item_rooms_of d i q) ->
  sum_quantity
    (item_rooms_of
       (set_item_rooms
          (filter_delete (fun ir => item_quantity ir <? 1) (item_rooms d)) d)
       i q)
  = sum_quantity (item_rooms_of d i q).
Proof.
  intro F. unfold item_rooms_of, filter_delete.
  cbn [item_rooms rooms set_item_rooms].
  rewrite filter_comm. now apply sum_filter_nonneg.
Qed.

Lemma place_rows_nonneg (p : Z) (item : Items) (d d' : DB) (i q : Z) :
  ledger_wf d ->
  place_in_unassigned p item d = Ok d' ->
  Forall (fun ir => 0 <= item_quantity ir) (item_rooms_of d i q) ->
  Forall (fun ir => 0 <= item_quantity ir) (item_rooms_of d' i q).
Proof.
  intros W H F.
  destruct (place_shape p item d d' W H)
    as (ur & extra & t1 & old & t2 & x' & Er & Iu & Nr' & Fu & Et & Et' & _
        & Ei & Erm & Hold & _).
  destruct W as (Nr & Ni & Np & FK).
  set (g := fun ir => (ir_item_id ir =? i) && in_project (rooms d) q ir).
  set (g' := fun ir => (ir_item_id ir =? i) && in_project (rooms d') q ir).
  assert (Hext : forall y, In y (item_rooms d) -> g' y = g y).
  { intros y Iy. unfold g, g'. rewrite Er.
    now rewrite (in_project_app_old _ _ _ _ (FK y Iy)). }
  assert (Hold_rows : forall y, In y (item_rooms d) -> g' y = true ->
                                0 <= item_quantity y).
  { intros y Iy Gy. rewrite (Hext y Iy) in Gy.
    rewrite Forall_forall in F. apply F. unfold item_rooms_of.
    apply filter_In. auto. }
  apply Forall_forall. intros y Iy. unfold item_rooms_of in Iy.
  apply filter_In in Iy as [Iy Gy]. change (g' y = true) in Gy.
  rewrite Et' in Iy. apply in_app_or in Iy as [Iy|[<-|Iy]].
  - apply Hold_rows; [|exact Gy]. rewrite Et. apply in_or_app. now left.
  - destruct Hold as [(x & -> & Exi & Exr & Eq & _)|(-> & Eq & _)]; [|lia].
    assert (Ix : In x (item_rooms d))
      by (rewrite Et; apply in_or_app; right; now left).
    assert (Gx : g' x = true).
    { rewrite <- Gy. unfold g'.
      rewrite (in_project_of_room _ q x ur Nr' Iu Exr),
        (in_project_of_room _ q x' ur Nr' Iu Erm). congruence. }
    specialize (Hold_rows x Ix Gx). lia.
  - apply Hold_rows; [|exact Gy]. rewrite Et. apply in_or_app. right.
    apply in_or_app. now right.
Qed.

Section AvailableFacts.
Variable dq dh : Z.
Variable log_fails : ItemsU -> bool.

Local Abbreviation process := (process_unit dq dh log_fails).
Local Abbreviation mark := (log_and_mark log_fails).

(** An available unit of item X checked out to project P (lines 29-66,
    167-178): the iteration falls through; the reserved quantity cached
    for (X, P) becomes the sum over P's rows before, plus one, and equals
    the sum over P's rows after when none of them was negative; the cached
    quantities of the other (item, project) pairs, the item table and the
    stolen-reservation list are left alone; the unit ends checked out to
    P. *)
Theorem available_unit_checkout :
  forall (p uid : Z) (l : Loop) (item_u : ItemsU) (item : Items),
    objects_get (fun u => item_u_id u =? uid) (items_u (l_db l)) = Ok item_u ->
    objects_get (fun i => item_id i =? iu_item_id item_u) (items (l_db l))
    = Ok item ->
    stage item_u = "a" ->
    ledger_wf (l_db l) ->
    natural_keys (l_db l) ->
    exists l',
      process p l uid = Ok (Continue l')
      /\ cached_reserved (l_db l') (item_id item) p
         = Ok (sum_quantity (item_rooms_of (l_db l) (item_id item) p) + 1)
      /\ (Forall (fun ir => 0 <= item_quantity ir)
                 (item_rooms_of (l_db l) (item_id item) p) ->
          cached_reserved (l_db l') (item_id item) p
          = Ok (sum_quantity (item_rooms_of (l_db l') (item_id item) p)))
      /\ (forall i' q, (i' =? item_id item) && (q =? p) = false ->
                       filter (item_project_key i' q) (item_projects (l_db l'))
                       = filter (item_project_key i' q)
                                (item_projects (l_db l)))
      /\ items (l_db l') = items (l_db l)
      /\ stolen_projects l' = stolen_projects l
      /\ objects_get (fun u => item_u_id u =? uid) (items_u (l_db l'))
         = Ok (mkItemsU uid (iu_item_id item_u) "c" (Some p)).
Proof.
  intros p uid l item_u item Gu Gi Hs W K.
  set (d := l_db l) in *.
  destruct (take_in_effect dq dh p item d W K)
    as (d1 & d2 & P1 & S2 & W2 & Cp & Oth & Fp & Fu & Fi & _).
  pose proof (place_wf p item d d1 W P1) as (_ & _ & Np1 & _).
  destruct (sync_effect dq dh (item_id item) p d1 d2 Np1 S2)
    as (_ & _ & _ & Er & Ei & _).
  set (d3 := set_item_rooms
               (filter_delete (fun ir => item_quantity ir <? 1) (item_rooms d2))
               d2).
  destruct (log_and_mark_ledger log_fails p item_u d3)
    as (_ & Mr & Mir & Mip & Mi).
  exists (mkLoop (mark p item_u d3) (stolen_projects l)
                 (item_id_list l ++ [iu_item_id item_u])).
  cbn [l_db stolen_projects].
  assert (Cp' : cached_reserved (mark p item_u d3) (item_id item) p
                = Ok (sum_quantity (item_rooms_of d (item_id item) p) + 1)).
  { rewrite <- Cp. apply cached_reserved_filter. now rewrite Mip. }
  split; [|split; [exact Cp'|split; [|split; [|split; [|split]]]]].
  - unfold process_unit. fold d. rewrite Gu. cbn [bind]. rewrite Gi.
    cbn [bind]. unfold reserved_elsewhere. rewrite Hs.
    cbn [String.eqb Ascii.eqb Bool.eqb negb orb bind].
    rewrite P1. cbn [bind]. rewrite S2. cbn [bind]. reflexivity.
  - intro F. rewrite Cp'. f_equal.
    rewrite (item_rooms_of_ext d3 (mark p item_u d3) (item_id item) p Mr Mir).
    unfold d3. rewrite prune_quantity_sum.
    + rewrite (item_rooms_of_ext d1 d2 (item_id item) p Er Ei).
      symmetry. now apply place_sum_own.
    + rewrite (item_rooms_of_ext d1 d2 (item_id item) p Er Ei).
      now apply (place_rows_nonneg p item d d1).
  - intros i' q B. rewrite Mip. change (item_projects d3) with (item_projects d2).
    now destruct (Oth i' q B).
  - rewrite Mi. exact Fi.
  - reflexivity.
  - apply log_and_mark_unit. change (items_u d3) with (items_u d2).
    now rewrite Fu.
Qed.
End AvailableFacts.

(** Unit 102 of item X, available, is checked out to project 1, which
    held no row for X. *)
Lemma available_unit_checkout_witness :
  exists l',
    process0 1 (mkLoop store0 [] []) 102 = Ok (Continue l')
    /\ cached_reserved (l_db l') 10 1
       = Ok (sum_quantity (item_rooms_of store0 10 1) + 1)
    /\ objects_get (fun u => item_u_id u =? 102) (items_u (l_db l'))
       = Ok (mkItemsU 102 10 "c" (Some 1)).
Proof.
  destruct (available_unit_checkout 0 0 (@never ItemsU) 1 102
              (mkLoop store0 [] []) (mkItemsU 102 10 "a" None) item_x)
    as (l' & P & C & _ & _ & _ & _ & U);
    [reflexivity|reflexivity|reflexivity|exact store0_wf|exact store0_keys|].
  exists l'. auto.
Defined.

(** ** add_inventory: identifiers that differ by case or padding *)

Lemma occurrences_nodup (l : list (option string)) :
  (forall x, In x l -> (occurrences x l <= 1)%nat) -> NoDup l.
Proof.
  unfold occurrences.
  induction l as [|a l IH]; intro H; constructor.
  - intro I. specialize (H a (or_introl eq_refl)). cbn [filter] in H.
    rewrite (proj2 (opt_string_eqb_eq a a) eq_refl) in H.
    assert (In a (filter (opt_string_eqb a) l)).
    { apply filter_In. split; [exact I|]. now apply opt_string_eqb_eq. }
    destruct (filter (opt_string_eqb a) l); [easy|]. cbn in H. lia.
  - apply IH. intros x I. specialize (H x (or_intror I)). cbn [filter] in H.
    destruct (opt_string_eqb x a); cbn [List.length] in H; lia.
Qed.

Lemma no_dupes_distinct {ops : StrMethods} (rows : list Row) :
  dupes rows = [] -> NoDup (map normalized rows).
Proof.
  intro E. apply occurrences_nodup. intros x I.
  apply in_map_iff in I as (r & <- & Ir).
  pose proof (filter_nil_all _ rows E r Ir) as L. cbv beta in L.
  apply Nat.leb_gt in L. lia.
Qed.

Section IdentifierFacts.
Context {ops : StrMethods}.
Variable qr : string -> string -> string -> Z -> list string.
Variable pdf : string.
Variable create_log : string -> DB -> result DB.

Local Abbreviation upload := (add_inventory qr pdf create_log).

(** The sheet of an accepted upload holds no two rows whose identifiers
    are equal once lower-cased and stripped (lines 83-93). *)
Theorem accepted_upload_has_distinct_ids :
  forall (request : UploadRequest) (wb : Workbook) (d d' : DB)
         (s s' : Session) (resp : JsonResponse),
    upload request d s = Ok (resp, d', s') ->
    success resp = true ->
    inventory_file request = Some wb ->
    NoDup (map normalized (sheet_rows wb)).
Proof.
  intros request wb d d' s s' resp H S Hf.
  destruct (accepted_reaches qr pdf create_log request d d' s s' resp H S)
    as (wb' & _ & Hf' & _ & _ & Hd).
  assert (wb' = wb) by congruence. subst wb'.
  now apply no_dupes_distinct.
Qed.

End IdentifierFacts.

Section IdentifierRuns.
(** The sample sheets are read with the sample string methods. *)
#[local] Existing Instance latin_text.

(** The sample upload is accepted, and its five identifiers are distinct. *)
Lemma accepted_upload_has_distinct_ids_witness :
  NoDup (map normalized [row_x_short; row_y; row_z; row_w; row_n]).
Proof.
  exact (accepted_upload_has_distinct_ids one_label "/media/qr_stickers.pdf"
           (fun _ d => Ok d) upload_n
           (mkWorkbook [row_x_short; row_y; row_z; row_w; row_n] [])
           store_up (refresh_rollups store_up) no_session staged_n accepted_n
           upload_n_accepted eq_refl eq_refl).
Defined.

End IdentifierRuns.

(** ** add_inventory: a report that agrees with the store *)

Lemma find_map {A B : Type} (f : B -> bool) (g : A -> B) (l : list A) :
  find f (map g l) = option_map g (find (fun x => f (g x)) l).
Proof.
  induction l as [|a l IH]; cbn [map find option_map]; [reflexivity|].
  destruct (f (g a)); [reflexivity|exact IH].
Qed.

Lemma find_same {A : Type} (f g : A -> bool) (l : list A) :
  (forall x, f x = g x) -> find f l = find g l.
Proof.
  intro H. induction l as [|a l IH]; cbn [find]; [reflexivity|].
  now rewrite H, IH.
Qed.

Lemma matches_rolled_up {ops : StrMethods} (item : Items) (row : Row) :
  matches_row item row -> raise_previous_total (rollup_total item) = item.
Proof.
  intros (_ & _ & _ & _ & _ & _ & _ & _ & _ & _
          & a & r & prev & Ea & Er & Et & Ep & Hq).
  destruct item as [id sk st de ve di sa lo c1 c2 ca sp uc a0 r0 t0 p0].
  cbn in Ea, Er, Et, Ep. subst.
  unfold raise_previous_total, rollup_total, set_quantities. cbn.
  destruct (Z.ltb_spec prev (a + r)); [lia|reflexivity].
Qed.

Lemma matches_fields {ops : StrMethods} (item : Items) (row : Row) :
  matches_row item row -> field_changes item row = [].
Proof.
  intros (E1 & E2 & E3 & E4 & E5 & E6 & E7 & E8 & E9 & E10 & _).
  unfold field_changes, text_change, money_change.
  rewrite E1, E2, E3, E4, E5, E6, E7, E8, E9, E10.
  rewrite !String.eqb_refl, !Z.eqb_refl. reflexivity.
Qed.

Lemma matches_consistent {ops : StrMethods} (item : Items) (row : Row) :
  matches_row item row -> quantities_consistent item.
Proof.
  intros (_ & _ & _ & _ & _ & _ & _ & _ & _ & _
          & a & r & prev & Ea & Er & Et & _).
  exists a, r. auto.
Qed.

Lemma first_pass_present (d : DB) (present sids acc : list string) :
  (forall sid, In sid sids -> existsb (String.eqb sid) present = true) ->
  first_pass d present sids acc = Ok (inr acc).
Proof.
  induction sids as [|sid sids IH]; intro H; cbn [first_pass];
    [reflexivity|].
  rewrite (H sid) by now left. cbn [negb]. apply IH.
  intros x I. apply H. now right.
Qed.

Section AgreementFacts.
Context {ops : StrMethods}.
Variable qr : string -> string -> string -> Z -> list string.
Variable pdf : string.
Variable create_log : string -> DB -> result DB.

Local Abbreviation upload := (add_inventory qr pdf create_log).

Lemma diff_row_agreeing (images : list (Z * string)) (sids : list string)
      (st : Diff) (ir : Z * Row) (item : Items) :
  objects_first (fun i => (studio_id i =? strip (id_text (snd ir)))%string)
                (items (d_db st)) = Some item ->
  matches_row item (snd ir) ->
  diff_row qr images sids st ir = Ok st.
Proof.
  intros F M. unfold diff_row. cbv zeta. rewrite F.
  rewrite (fix_consistent item (matches_consistent item (snd ir) M)).
  rewrite (matches_fields item (snd ir) M). cbn [fold_left].
  destruct M as (_ & _ & _ & _ & _ & _ & _ & _ & _ & _
                 & a & r & prev & _ & _ & Et & Ep & Hq).
  rewrite Ep, Et.
  destruct (Z.gtb_spec (quantity_available (snd ir)) prev); [lia|].
  destruct (Z.ltb_spec (quantity_available (snd ir)) (a + r)); [lia|].
  now destruct st.
Qed.

Lemma second_pass_agreeing (images : list (Z * string)) (sids : list string)
      (st : Diff) (rows : list (Z * Row)) :
  (forall ir, In ir rows ->
              exists item,
                objects_first
                  (fun i => (studio_id i =? strip (id_text (snd ir)))%string)
                  (items (d_db st)) = Some item
                /\ matches_row item (snd ir)) ->
  second_pass qr images sids st rows = Ok st.
Proof.
  induction rows as [|ir rows IH]; intro H; cbn [second_pass];
    [reflexivity|].
  destruct (H ir (or_introl eq_refl)) as (item & F & M).
  rewrite (diff_row_agreeing images sids st ir item F M). cbn [bind].
  apply IH. intros x I. apply H. now right.
Qed.

(** A report that agrees with the store stages nothing.  When the request
    passes the checks before the diff, every stored item's studio id is
    the stripped identifier of a row with a positive "Quantity Ordered",
    and every such row agrees with the first stored item carrying its
    identifier, the view answers that the file was processed without
    changes and without labels, and stages four empty sets (lines 113-132,
    156-225, 275-304). *)
Theorem agreeing_report_stages_nothing :
  forall (request : UploadRequest) (wb : Workbook) (d d' : DB) (s : Session),
    reaches_diff request wb d ->
    (forall item, In item (items d) ->
                  exists row, In row (sheet_rows wb)
                              /\ 0 < quantity_ordered row
                              /\ studio_id item = strip (id_text row)) ->
    (forall row, In row (sheet_rows wb) -> 0 < quantity_ordered row ->
                 exists item,
                   objects_first
                     (fun i => (studio_id i =? strip (id_text row))%string)
                     (items d) = Some item
                   /\ matches_row item row) ->
    create_log "NI" (refresh_rollups d) = Ok d' ->
    upload request d s = Ok (no_changes_response, d', nothing_staged s).
Proof.
  intros request wb d d' s Hr Hall Hrows Hlog.
  rewrite (add_inventory_reaches qr pdf create_log request wb d s Hr).
  unfold diff_rows. cbv zeta.
  rewrite first_pass_present.
  - cbn [bind]. rewrite second_pass_agreeing.
    + cbn [bind d_db all_qr_codes is_empty]. rewrite Hlog. reflexivity.
    + intros ir I. apply ordered_rows_in in I as [I Q].
      destruct (Hrows (snd ir) I Q) as (item & F & M).
      exists item. split; [|exact M].
      cbn [d_db]. unfold refresh_rollups. cbn [items set_items].
      rewrite map_map. unfold objects_first in *. rewrite find_map.
      replace (find _ (items d)) with (Some item).
      * cbn [option_map]. f_equal. now apply (matches_rolled_up item (snd ir)).
      * rewrite <- F. apply find_same. intro x.
        now destruct (rollup_one x) as (_ & _ & -> & _).
  - intros sid I. rewrite existsb_unique_strings.
    unfold unique_strings in I.
    apply (unique_by_in _ _ _ _ String.eqb_eq) in I as [I _].
    apply in_map_iff in I as (it & <- & I).
    unfold refresh_rollups in I. cbn [items set_items] in I.
    rewrite map_map in I. apply in_map_iff in I as (old & <- & Iold).
    destruct (rollup_one old) as (_ & _ & -> & _).
    destruct (Hall old Iold) as (row & Irow & Q & E).
    unfold ordered_rows. rewrite existsb_ordered_rows.
    apply existsb_exists. exists row. split; [exact Irow|].
    apply andb_true_intro. split; [lia|]. now apply String.eqb_eq.
Qed.
End AgreementFacts.

Section AgreementRuns.
(** The sample sheets are read with the sample string methods. *)
#[local] Existing Instance latin_text.

(** The report that lists X, Y, Z and W as the store holds them. *)
Lemma agreeing_report_stages_nothing_witness :
  upload0 (upload_of [row_x; row_y; row_z; row_w]) store_up no_session
  = Ok (no_changes_response, refresh_rollups store_up,
        nothing_staged no_session).
Proof.
  apply (agreeing_report_stages_nothing one_label "/media/qr_stickers.pdf"
           (fun _ d => Ok d) (upload_of [row_x; row_y; row_z; row_w])
           (mkWorkbook [row_x; row_y; row_z; row_w] []) store_up
           (refresh_rollups store_up) no_session).
  - repeat split; reflexivity.
  - intros item [<-|[<-|[<-|[<-|[]]]]];
      [exists row_x|exists row_y|exists row_z|exists row_w];
      (split; [cbn; tauto|split; [reflexivity|reflexivity]]).
  - intros row [<-|[<-|[<-|[<-|[]]]]] _;
      [exists item_x|exists item_y|exists item_z|exists item_w];
      (split; [reflexivity|]);
      unfold matches_row; repeat (split; [reflexivity|]).
    + exists 2, 3, 5. cbn. repeat split; lia.
    + exists 0, 1, 1. cbn. repeat split; lia.
    + exists 0, 0, 0. cbn. repeat split; lia.
    + exists 2, 0, 2. cbn. repeat split; lia.
  - reflexivity.
Defined.
End AgreementRuns.

(** ** add_inventory: the amount of a staged reduction *)

Section ReductionFacts.
Context {ops : StrMethods}.
Variable qr : string -> string -> string -> Z -> list string.
Variable pdf : string.
Variable create_log : string -> DB -> result DB.

Local Abbreviation upload := (add_inventory qr pdf create_log).

Lemma diff_row_reduction (images : list (Z * string)) (sids : list string)
      (df : list (Z * Row)) (st st' : Diff) (ir : Z * Row) :
  In ir df ->
  (forall item, In item (items (d_db st)) -> quantities_consistent item) ->
  (forall e, In e (d_items_to_subtract st) ->
             reduction_from (items (d_db st)) df e) ->
  diff_row qr images sids st ir = Ok st' ->
  forall e, In e (d_items_to_subtract st') ->
            reduction_from (items (d_db st)) df e.
Proof.
  intros Iir Hc Hs H. unfold diff_row in H.
  destruct (objects_first _ (items (d_db st))) as [item|] eqn:F.
  - pose proof F as F'. unfold objects_first in F'.
    apply find_some in F' as [I _].
    destruct (Hc item I) as (a & r & Ea & Er & Et).
    rewrite (fix_consistent item (Hc item I)) in H.
    destruct (previous_total_quantity item); [|discriminate].
    rewrite Et in H.
    destruct (quantity_available (snd ir) >? z);
      [|destruct (quantity_available (snd ir) <? a + r)];
      inversion H; subst; cbn [d_items_to_subtract]; auto.
    intros [k n] Ie. apply dict_set_entries in Ie as [[-> ->]|Ie]; [|auto].
    exists ir, item, a, r. auto 10.
  - unfold bind in H.
    destruct (draw_sku sids (tape st)) as [[sku tp]|]; [|discriminate].
    inversion H; subst. exact Hs.
Qed.

Lemma second_pass_reduction (images : list (Z * string)) (sids : list string)
      (df rows : list (Z * Row)) (st st' : Diff) :
  incl rows df ->
  (forall item, In item (items (d_db st)) -> quantities_consistent item) ->
  (forall e, In e (d_items_to_subtract st) ->
             reduction_from (items (d_db st)) df e) ->
  second_pass qr images sids st rows = Ok st' ->
  forall e, In e (d_items_to_subtract st') ->
            reduction_from (items (d_db st)) df e.
Proof.
  revert st. induction rows as [|ir rows IH]; intros st Hin Hc Hs;
    cbn [second_pass].
  - intro H. now inversion H; subst.
  - unfold bind. destruct (diff_row qr images sids st ir) as [st1|] eqn:E;
      [|discriminate].
    intro H.
    pose proof (diff_row_keeps_store qr images sids st st1 ir Hc E) as Ed.
    rewrite <- Ed. apply (IH st1); auto.
    + intros x I. apply Hin. now right.
    + now rewrite Ed.
    + rewrite Ed.
      apply (diff_row_reduction images sids df st st1 ir); auto.
      apply Hin. now left.
Qed.

(** When no stored item has a NULL available or reserved quantity, a
    reduction staged for a sku is the amount by which the item's available
    and reserved quantities exceed the "Quantity Available" of a sheet row
    with a positive "Quantity Ordered"; the item is the first stored one
    carrying the row's stripped identifier (lines 156-158, 207-225). *)
Theorem staged_reduction_amount :
  forall (request : UploadRequest) (wb : Workbook) (d d' : DB)
         (s s' : Session) (resp : JsonResponse)
         (subtracted : list (string * Z)) (sku : string) (n : Z),
    (forall i, In i (items d) ->
               available_quantity i <> None /\ reserved_quantity i <> None) ->
    upload request d s = Ok (resp, d', s') ->
    success resp = true ->
    inventory_file request = Some wb ->
    items_to_subtract s' = Some subtracted ->
    In (sku, n) subtracted ->
    exists row item a r,
      In row (sheet_rows wb)
      /\ 0 < quantity_ordered row
      /\ objects_first
           (fun i => (studio_id i =? strip (id_text row))%string) (items d)
         = Some item
      /\ sku_num item = sku
      /\ available_quantity item = Some a
      /\ reserved_quantity item = Some r
      /\ n = a + r - quantity_available row.
Proof.
  intros request wb d d' s s' resp subtracted sku n Hn H S Hf Es I.
  destruct (accepted_run qr pdf create_log request d d' s s' resp H S)
    as (wb' & dels & st & Hf' & P & _ & ->).
  assert (wb' = wb) by congruence. subst wb'.
  cbn [stage_bundle items_to_subtract] in Es. inversion Es; subst.
  assert (R : reduction_from (items (refresh_rollups d))
                             (ordered_rows (sheet_rows wb)) (sku, n)).
  { apply (second_pass_reduction (image_data_map wb)
             (unique_strings (map studio_id (items (refresh_rollups d))))
             (ordered_rows (sheet_rows wb)) (ordered_rows (sheet_rows wb))
             (mkDiff (refresh_rollups d) [] [] [] [] (random_tape request))
             st (incl_refl _)); auto.
    - exact (rollup_consistent d Hn).
    - intros ? []. }
  destruct R as (ir & item' & a & r & Iir & F & Ek & Ea & Er & En).
  apply ordered_rows_in in Iir as [Irow Q].
  unfold refresh_rollups in F. cbn [items set_items] in F.
  rewrite map_map in F. unfold objects_first in *. rewrite find_map in F.
  rewrite (find_same _ (fun i => (studio_id i =? strip (id_text (snd ir)))%string))
    in F by (intro x; now destruct (rollup_one x) as (_ & _ & -> & _)).
  destruct (find _ (items d)) as [item|] eqn:Fd; [|discriminate].
  cbn [option_map] in F. inversion F; subst item'.
  destruct (rollup_one item) as (_ & Esk & _ & Ea' & Er' & _).
  exists (snd ir), item, a, r. cbn [fst snd] in *.
  repeat split; auto; congruence.
Qed.
End ReductionFacts.

Section ReductionRuns.
(** The sample sheets are read with the sample string methods. *)
#[local] Existing Instance latin_text.

(** The two units of X staged for removal: the store holds 2 + 3, the
    sheet says 3. *)
Lemma staged_reduction_amount_witness :
  exists row item a r,
    In row [row_x_short; row_y; row_z; row_w; row_n]
    /\ 0 < quantity_ordered row
    /\ objects_first
         (fun i => (studio_id i =? strip (id_text row))%string)
         (items store_up)
       = Some item
    /\ sku_num item = "SKU-X"
    /\ available_quantity item = Some a
    /\ reserved_quantity item = Some r
    /\ 2 = a + r - quantity_available row.
Proof.
  apply (staged_reduction_amount one_label "/media/qr_stickers.pdf"
           (fun _ d => Ok d) upload_n
           (mkWorkbook [row_x_short; row_y; row_z; row_w; row_n] [])
           store_up (refresh_rollups store_up) no_session staged_n accepted_n
           [("SKU-X", 2)] "SKU-X" 2 store_up_no_null upload_n_accepted
           eq_refl eq_refl eq_refl).
  now left.
Defined.
End ReductionRuns.

(** ** confirm_checkout: a moving unit *)

Section MovingFacts.
Variable dq dh : Z.
Variable log_fails : ItemsU -> bool.

Local Abbreviation process := (process_unit dq dh log_fails).
Local Abbreviation mark := (log_and_mark log_fails).

Lemma promote_ledger (u : ItemsU) (d : DB) :
  rooms (promote_available u d) = rooms d
  /\ item_rooms (promote_available u d) = item_rooms d
  /\ item_projects (promote_available u d) = item_projects d
  /\ items (promote_available u d) = items d.
Proof.
  unfold promote_available. destruct (objects_first _ (items_u d));
    repeat split; reflexivity.
Qed.

(** A moving unit of item X checked out to project P, in a store with
    unique primary and natural keys (lines 128-157, 167-178): the iteration
    falls through; the first available unit of X, if there is one, is in
    the unit table as moving with no project, and without one the unit
    table changes at the departing unit only; P's ItemRoom rows for X sum
    to one more than before, the rows of the other (item, project) pairs
    are as before; the ItemProject table, the item table and the
    stolen-reservation list are left alone; the unit ends checked out to
    P. *)
Theorem moving_unit_checkout :
  forall (p uid : Z) (l : Loop) (item_u : ItemsU) (item : Items),
    objects_get (fun u => item_u_id u =? uid) (items_u (l_db l)) = Ok item_u ->
    objects_get (fun i => item_id i =? iu_item_id item_u) (items (l_db l))
    = Ok item ->
    stage item_u = "m" ->
    ledger_wf (l_db l) ->
    natural_keys (l_db l) ->
    exists l',
      process p l uid = Ok (Continue l')
      /\ (forall n,
            objects_first (fun u => (iu_item_id u =? iu_item_id item_u)
                                    && (stage u =? "a")%string)
                          (items_u (l_db l)) = Some n ->
            In (mkItemsU (item_u_id n) (iu_item_id n) "m" None)
               (items_u (l_db l')))
      /\ (objects_first (fun u => (iu_item_id u =? iu_item_id item_u)
                                  && (stage u =? "a")%string)
                        (items_u (l_db l)) = None ->
          items_u (l_db l')
          = objects_save item_u_id
              (mkItemsU uid (iu_item_id item_u) "c" (Some p))
              (items_u (l_db l)))
      /\ sum_quantity (item_rooms_of (l_db l') (item_id item) p)
         = sum_quantity (item_rooms_of (l_db l) (item_id item) p) + 1
      /\ (forall i' q, (i' =? item_id item) && (q =? p) = false ->
                       item_rooms_of (l_db l') i' q
                       = item_rooms_of (l_db l) i' q)
      /\ item_projects (l_db l') = item_projects (l_db l)
      /\ items (l_db l') = items (l_db l)
      /\ stolen_projects l' = stolen_projects l
      /\ objects_get (fun u => item_u_id u =? uid) (items_u (l_db l'))
         = Ok (mkItemsU uid (iu_item_id item_u) "c" (Some p)).
Proof.
  intros p uid l item_u item Gu Gi Hs W K.
  set (d := l_db l) in *.
  set (d0 := promote_available item_u d).
  destruct (promote_ledger item_u d) as (Pr & Pir & Pip & Pi). fold d0 in Pr, Pir, Pip, Pi.
  assert (W0 : ledger_wf d0) by (unfold ledger_wf; now rewrite Pr, Pir, Pip).
  assert (K0 : natural_keys d0) by (unfold natural_keys; now rewrite Pr, Pir, Pip).
  destruct (place_total p item d0 K0) as (d1 & P1).
  destruct (place_shape p item d0 d1 W0 P1)
    as (? & ? & ? & ? & ? & ? & _ & _ & _ & _ & _ & _ & _ & _ & _ & _
        & _ & Fip & Fu & Fi & _).
  destruct (log_and_mark_ledger log_fails p item_u d1)
    as (_ & Mr & Mir & Mip & Mi).
  destruct (objects_get_in _ _ _ Gu) as [Iu Eu]. apply Z.eqb_eq in Eu.
  exists (mkLoop (mark p item_u d1) (stolen_projects l)
                 (item_id_list l ++ [iu_item_id item_u])).
  cbn [l_db stolen_projects].
  split; [|split; [|split; [|split; [|split; [|split; [|split; [|split]]]]]]].
  - unfold process_unit. fold d. rewrite Gu. cbn [bind]. rewrite Gi.
    cbn [bind]. unfold reserved_elsewhere. rewrite Hs.
    cbn [String.eqb Ascii.eqb Bool.eqb negb orb bind].
    fold d0. rewrite P1. reflexivity.
  - intros n F. rewrite log_and_mark_units, Fu.
    unfold d0, promote_available. rewrite F. cbn [items_u set_items_u].
    pose proof F as F'. unfold objects_first in F'.
    apply find_some in F' as [In_ Bn]. apply andb_prop in Bn as [_ Sn].
    apply String.eqb_eq in Sn.
    apply in_save_other.
    + now apply (in_save_self item_u_id _ n).
    + cbn [item_u_id]. intro E.
      apply objects_get_filter in Gu.
      assert (I2 : In n (filter (fun u => item_u_id u =? uid) (items_u d))).
      { apply filter_In. split; [exact In_|]. apply Z.eqb_eq. congruence. }
      rewrite Gu in I2. destruct I2 as [<-|[]]. congruence.
  - intro F. rewrite log_and_mark_units, Fu.
    unfold d0, promote_available. rewrite F. now rewrite Eu.
  - rewrite (item_rooms_of_ext d1 (mark p item_u d1) _ _ Mr Mir).
    rewrite (place_sum_own p item d0 d1 W0 P1).
    now rewrite (item_rooms_of_ext d d0 _ _ Pr Pir).
  - intros i' q B.
    rewrite (item_rooms_of_ext d1 (mark p item_u d1) _ _ Mr Mir).
    rewrite (place_rows_other p item d0 d1 i' q W0 P1 B).
    now apply item_rooms_of_ext.
  - now rewrite Mip, Fip.
  - now rewrite Mi, Fi.
  - reflexivity.
  - apply log_and_mark_unit. rewrite Fu.
    destruct (promote_units item_u d) as [E|(n & In_ & Sn & E)];
      fold d0 in E; rewrite E; [exact Gu|].
    apply (get_save_kept item_u_id uid _ n item_u); auto. congruence.
Qed.
End MovingFacts.

(** The moving unit 103 of item X is checked out to project 1; the
    available unit 102 takes its place. *)
Lemma moving_unit_checkout_witness :
  exists l',
    process0 1 (mkLoop store0 [] []) 103 = Ok (Continue l')
    /\ In (mkItemsU 102 10 "m" None) (items_u (l_db l'))
    /\ item_projects (l_db l') = item_projects store0
    /\ objects_get (fun u => item_u_id u =? 103) (items_u (l_db l'))
       = Ok (mkItemsU 103 10 "c" (Some 1)).
Proof.
  destruct (moving_unit_checkout 0 0 (@never ItemsU) 1 103
              (mkLoop store0 [] []) (mkItemsU 103 10 "m" None) item_x)
    as (l' & P & Hp & _ & _ & _ & Hip & _ & _ & U);
    [reflexivity|reflexivity|reflexivity|exact store0_wf|exact store0_keys|].
  exists l'. split; [exact P|]. split; [|split; [exact Hip|exact U]].
  apply (Hp (mkItemsU 102 10 "a" None)). reflexivity.
Defined.

(** ** add_inventory: the staged field changes *)

Lemma dict_get_in {V : Type} (k : string) (v : V) (l : list (string * V)) :
  dict_get k l = Some v -> In (k, v) l.
Proof.
  induction l as [|[k' v'] l IH]; cbn [dict_get In]; [discriminate|].
  destruct (String.eqb_spec k' k) as [->|N].
  - intro H. inversion H. now left.
  - intro H. right. now apply IH.
Qed.

Lemma register_change_entries (sku_num0 k : string)
      (acc : list (string * list (string * FieldValue)))
      (c e : string * FieldValue) (m : list (string * FieldValue)) :
  In (k, m) (register_change sku_num0 acc c) -> In e m ->
  (k = sku_num0
   /\ (e = c \/ exists m0, In (sku_num0, m0) acc /\ In e m0))
  \/ In (k, m) acc.
Proof.
  unfold register_change. intros I Ie.
  apply dict_set_entries in I as [[-> ->]|I]; [left|now right].
  split; [reflexivity|]. destruct e as [n v].
  apply dict_set_entries in Ie as [[-> ->]|Ie].
  - left. now destruct c.
  - right. destruct (dict_get sku_num0 acc) as [m0|] eqn:G; [|destruct Ie].
    exists m0. split; [now apply dict_get_in|exact Ie].
Qed.

Lemma register_changes_entries (Q : string -> string * FieldValue -> Prop)
      (sku_num0 : string) (cs : list (string * FieldValue))
      (acc : list (string * list (string * FieldValue))) :
  (forall c, In c cs -> Q sku_num0 c) ->
  (forall k m e, In (k, m) acc -> In e m -> Q k e) ->
  forall k m e,
    In (k, m) (fold_left (register_change sku_num0) cs acc) -> In e m ->
    Q k e.
Proof.
  revert acc. induction cs as [|c cs IH]; intros acc Hc Hacc;
    cbn [fold_left]; [exact Hacc|].
  apply IH.
  - intros x I. apply Hc. now right.
  - intros k m e I Ie.
    destruct (register_change_entries sku_num0 k acc c e m I Ie)
      as [[-> [->|(m0 & I0 & Ie0)]]|I'].
    + apply Hc. now left.
    + exact (Hacc _ _ _ I0 Ie0).
    + exact (Hacc _ _ _ I' Ie).
Qed.

Lemma rollup_fields {ops : StrMethods} (item : Items) (row : Row) :
  field_changes (raise_previous_total (rollup_total item)) row
  = field_changes item row.
Proof.
  destruct item as [id sk st de ve di sa lo c1 c2 ca sp uc a r t p].
  unfold raise_previous_total, rollup_total, set_quantities. cbn.
  destruct p as [p|], (add_nullable a r) as [t'|]; try reflexivity.
  now destruct (p <? t').
Qed.

Section ChangeFacts.
Context {ops : StrMethods}.
Variable qr : string -> string -> string -> Z -> list string.
Variable pdf : string.
Variable create_log : string -> DB -> result DB.

Local Abbreviation upload := (add_inventory qr pdf create_log).

Lemma diff_row_changes (images : list (Z * string)) (sids : list string)
      (df : list (Z * Row)) (st st' : Diff) (ir : Z * Row) :
  In ir df ->
  (forall item, In item (items (d_db st)) -> quantities_consistent item) ->
  (forall k m e, In (k, m) (d_items_to_change st) -> In e m ->
                 change_from (items (d_db st)) df k e) ->
  diff_row qr images sids st ir = Ok st' ->
  forall k m e, In (k, m) (d_items_to_change st') -> In e m ->
                change_from (items (d_db st)) df k e.
Proof.
  intros Iir Hc Hs H. unfold diff_row in H.
  destruct (objects_first _ (items (d_db st))) as [item|] eqn:F.
  - pose proof F as F'. unfold objects_first in F'.
    apply find_some in F' as [I _].
    rewrite (fix_consistent item (Hc item I)) in H.
    assert (Hnew : forall k m e,
               In (k, m) (fold_left (register_change (sku_num item))
                                    (field_changes item (snd ir))
                                    (d_items_to_change st)) ->
               In e m -> change_from (items (d_db st)) df k e).
    { apply register_changes_entries; [|exact Hs].
      intros c Ic. exists ir, item. auto. }
    destruct (previous_total_quantity item); [|discriminate].
    destruct (total_quantity item); [|discriminate].
    destruct (quantity_available (snd ir) >? z);
      [|destruct (quantity_available (snd ir) <? z0)];
      inversion H; subst; cbn [d_items_to_change]; exact Hnew.
  - unfold bind in H.
    destruct (draw_sku sids (tape st)) as [[sku tp]|]; [|discriminate].
    inversion H; subst. exact Hs.
Qed.

Lemma second_pass_changes (images : list (Z * string)) (sids : list string)
      (df rows : list (Z * Row)) (st st' : Diff) :
  incl rows df ->
  (forall item, In item (items (d_db st)) -> quantities_consistent item) ->
  (forall k m e, In (k, m) (d_items_to_change st) -> In e m ->
                 change_from (items (d_db st)) df k e) ->
  second_pass qr images sids st rows = Ok st' ->
  forall k m e, In (k, m) (d_items_to_change st') -> In e m ->
                change_from (items (d_db st)) df k e.
Proof.
  revert st. induction rows as [|ir rows IH]; intros st Hin Hc Hs;
    cbn [second_pass].
  - intro H. now inversion H; subst.
  - unfold bind. destruct (diff_row qr images sids st ir) as [st1|] eqn:E;
      [|discriminate].
    intro H.
    pose proof (diff_row_keeps_store qr images sids st st1 ir Hc E) as Ed.
    rewrite <- Ed. apply (IH st1); auto.
    + intros x I. apply Hin. now right.
    + now rewrite Ed.
    + rewrite Ed.
      apply (diff_row_changes images sids df st st1 ir); auto.
      apply Hin. now left.
Qed.

(** When no stored item has a NULL available or reserved quantity, every
    field change staged for a sku is one of the differences the view finds
    between a sheet row with a positive "Quantity Ordered" and the first
    stored item carrying the row's stripped identifier, whose sku it is
    (lines 156-158, 181-205). *)
Theorem staged_changes_are_differences :
  forall (request : UploadRequest) (wb : Workbook) (d d' : DB)
         (s s' : Session) (resp : JsonResponse)
         (changed : list (string * list (string * FieldValue)))
         (sku : string) (fields : list (string * FieldValue))
         (c : string * FieldValue),
    (forall i, In i (items d) ->
               available_quantity i <> None /\ reserved_quantity i <> None) ->
    upload request d s = Ok (resp, d', s') ->
    success resp = true ->
    inventory_file request = Some wb ->
    items_to_change s' = Some changed ->
    In (sku, fields) changed ->
    In c fields ->
    exists row item,
      In row (sheet_rows wb)
      /\ 0 < quantity_ordered row
      /\ objects_first
           (fun i => (studio_id i =? strip (id_text row))%string) (items d)
         = Some item
      /\ sku_num item = sku
      /\ In c (field_changes item row).
Proof.
  intros request wb d d' s s' resp changed sku fields c Hn H S Hf Es I Ic.
  destruct (accepted_run qr pdf create_log request d d' s s' resp H S)
    as (wb' & dels & st & Hf' & P & _ & ->).
  assert (wb' = wb) by congruence. subst wb'.
  cbn [stage_bundle items_to_change] in Es. inversion Es; subst.
  assert (R : change_from (items (refresh_rollups d))
                          (ordered_rows (sheet_rows wb)) sku c).
  { apply (second_pass_changes (image_data_map wb)
             (unique_strings (map studio_id (items (refresh_rollups d))))
             (ordered_rows (sheet_rows wb)) (ordered_rows (sheet_rows wb))
             (mkDiff (refresh_rollups d) [] [] [] [] (random_tape request))
             st (incl_refl _) (rollup_consistent d Hn)
             (fun k m e (F : In (k, m) []) => match F with end) P
             sku fields c I Ic). }
  destruct R as (ir & item' & Iir & F & Ek & Ifc).
  apply ordered_rows_in in Iir as [Irow Q].
  unfold refresh_rollups in F. cbn [items set_items] in F.
  rewrite map_map in F. unfold objects_first in *. rewrite find_map in F.
  rewrite (find_same _ (fun i => (studio_id i =? strip (id_text (snd ir)))%string))
    in F by (intro x; now destruct (rollup_one x) as (_ & _ & -> & _)).
  destruct (find _ (items d)) as [item|] eqn:Fd; [|discriminate].
  cbn [option_map] in F. inversion F; subst item'.
  destruct (rollup_one item) as (_ & Esk & _).
  rewrite rollup_fields in Ifc.
  exists (snd ir), item. repeat split; auto; congruence.
Qed.
End ChangeFacts.

Section ChangeRuns.
(** The sample sheets are read with the sample string methods. *)
#[local] Existing Instance latin_text.

(** The sheet renames the lamp: the staged change of SKU-Y is the
    difference in the description between row and item Y. *)
Lemma staged_changes_are_differences_witness :
  exists row item,
    In row [row_x; row_y_renamed; row_z; row_w]
    /\ 0 < quantity_ordered row
    /\ objects_first
         (fun i => (studio_id i =? strip (id_text row))%string)
         (items store_up)
       = Some item
    /\ sku_num item = "SKU-Y"
    /\ In ("description", VText "Floor lamp") (field_changes item row).
Proof.
  apply (staged_changes_are_differences one_label "/media/qr_stickers.pdf"
           (fun _ d => Ok d) (upload_of [row_x; row_y_renamed; row_z; row_w])
           (mkWorkbook [row_x; row_y_renamed; row_z; row_w] [])
           store_up (refresh_rollups store_up) no_session
           (mkSession None None (Some [])
              (Some [("SKU-Y", [("description", VText "Floor lamp")])])
              (Some []) (Some []))
           (mkJson true (Some "File processed successfully") (Some true)
                   (Some None))
           [("SKU-Y", [("description", VText "Floor lamp")])]
           "SKU-Y" [("description", VText "Floor lamp")]
           ("description", VText "Floor lamp") store_up_no_null).
  - vm_compute. reflexivity.
  - reflexivity.
  - reflexivity.
  - reflexivity.
  - now left.
  - now left.
Defined.
End ChangeRuns.
